(** * DTI Backtester: trade simulation, trade ledger and analytics

    A shallow embedding of the backtesting module ([DTIBacktest]) and of the
    trade core module ([TradeCore]) of the DTI Backtester, with the
    properties of its specification proved or refuted on the embedding.

    Conventions of the embedding.
    - A JavaScript number is a value of [num]: a rational, [NaN], [+Infinity]
      or [-Infinity].  Arithmetic on finite values is exact (binary64 rounding
      and the sign of zero are not modelled); the special values follow
      IEEE 754 as JavaScript does: [x / 0] is an infinity or [NaN],
      [Infinity * 0] is [NaN], every comparison with [NaN] is false.
      Where a property depends on the rounding, the expression is also
      evaluated in binary64 (module [Arithmetic]).
    - A [Date] object is its time value (milliseconds since the epoch, [NaN]
      for an invalid date).  What the host computes from a date string
      ([new Date(s)]) and the calendar arithmetic of [setMonth] are
      parameters of the development.
    - [undefined] is [None] in an [option]; an array is a [list].
    - Module-level mutable variables are fields of an explicit state record;
      objects shared between arrays live in a store and arrays hold
      references to them. *)

From Stdlib Require Import ZArith QArith Qabs Qround Qreduction.
From Stdlib Require Import List String Bool Arith Lia Lqa Permutation.
From Stdlib Require PrimFloat.
Import ListNotations.


(* ================================================================== *)
(** ** JavaScript numbers *)
(* ================================================================== *)

Module JsNum.

Inductive num : Type :=
| NaN
| PInf
| NInf
| Fin (q : Q).

(** Finite results are kept in lowest terms, so that equal values are
    equal terms. *)
Definition fin (q : Q) : num := Fin (Qred q).

Definition ofZ (z : Z) : num := Fin (z # 1).

Definition zero : num := ofZ 0.

(** Sign of a rational: [Lt] negative, [Eq] zero, [Gt] positive. *)
Definition sgn (q : Q) : comparison := (Qnum q ?= 0)%Z.

Definition isNaN (x : num) : bool :=
  match x with NaN => true | _ => false end.

Definition isFinite (x : num) : bool :=
  match x with Fin _ => true | _ => false end.

(** Unary minus. *)
Definition neg (x : num) : num :=
  match x with
  | NaN => NaN
  | PInf => NInf
  | NInf => PInf
  | Fin q => fin (- q)
  end.

Definition add (x y : num) : num :=
  match x, y with
  | NaN, _ | _, NaN => NaN
  | PInf, NInf | NInf, PInf => NaN
  | PInf, _ | _, PInf => PInf
  | NInf, _ | _, NInf => NInf
  | Fin a, Fin b => fin (a + b)
  end.

Definition sub (x y : num) : num :=
  match x, y with
  | NaN, _ | _, NaN => NaN
  | PInf, PInf | NInf, NInf => NaN
  | PInf, _ | _, NInf => PInf
  | NInf, _ | _, PInf => NInf
  | Fin a, Fin b => fin (a - b)
  end.

Definition mul (x y : num) : num :=
  match x, y with
  | NaN, _ | _, NaN => NaN
  | Fin a, Fin b => fin (a * b)
  | Fin a, PInf | PInf, Fin a =>
      match sgn a with Eq => NaN | Gt => PInf | Lt => NInf end
  | Fin a, NInf | NInf, Fin a =>
      match sgn a with Eq => NaN | Gt => NInf | Lt => PInf end
  | PInf, PInf | NInf, NInf => PInf
  | PInf, NInf | NInf, PInf => NInf
  end.

Definition div (x y : num) : num :=
  match x, y with
  | NaN, _ | _, NaN => NaN
  | Fin a, Fin b =>
      match sgn b with
      | Eq => match sgn a with Eq => NaN | Gt => PInf | Lt => NInf end
      | _ => fin (a / b)
      end
  | Fin _, PInf | Fin _, NInf => zero
  | PInf, Fin b => match sgn b with Lt => NInf | _ => PInf end
  | NInf, Fin b => match sgn b with Lt => PInf | _ => NInf end
  | _, _ => NaN
  end.

(** [x < y] and [x <= y]; false as soon as an operand is [NaN]. *)
Definition lt (x y : num) : bool :=
  match x, y with
  | NaN, _ | _, NaN => false
  | _, NInf => false
  | NInf, _ => true
  | PInf, _ => false
  | Fin _, PInf => true
  | Fin a, Fin b => negb (Qle_bool b a)
  end.

Definition le (x y : num) : bool :=
  match x, y with
  | NaN, _ | _, NaN => false
  | NInf, _ => true
  | _, PInf => true
  | _, NInf => false
  | PInf, _ => false
  | Fin a, Fin b => Qle_bool a b
  end.

Definition gt (x y : num) : bool := lt y x.
Definition ge (x y : num) : bool := le y x.

(** Strict equality [===] of two numbers. *)
Definition eqb (x y : num) : bool :=
  match x, y with
  | PInf, PInf | NInf, NInf => true
  | Fin a, Fin b => Qeq_bool a b
  | _, _ => false
  end.

(** [Math.floor], [Math.abs], [Math.max]. *)
Definition floor (x : num) : num :=
  match x with
  | Fin q => ofZ (Qfloor q)
  | _ => x
  end.

Definition abs (x : num) : num :=
  match x with
  | NaN => NaN
  | PInf | NInf => PInf
  | Fin q => fin (Qabs q)
  end.

Definition max (x y : num) : num :=
  match x, y with
  | NaN, _ | _, NaN => NaN
  | _, _ => if lt x y then y else x
  end.

(** Truthiness of a number: [0] and [NaN] are falsy. *)
Definition truthy (x : num) : bool :=
  match x with
  | NaN => false
  | Fin q => negb (Qeq_bool q 0)
  | _ => true
  end.

(** [parseFloat] and [parseInt] of the decimal rendering of a number: the
    number itself, and its integer part ([NaN] when there is none).  The
    rendering is taken to be without exponent, as it is for a number from
    [1e-6] up to [1e21] in size; of a rendering with an exponent
    [parseInt] reads the digits before the point or the exponent only. *)
Definition parseFloat (x : num) : num := x.

Definition parseInt (x : num) : num :=
  match x with
  | Fin q => ofZ (Z.quot (Qnum q) (Zpos (Qden q)))
  | _ => NaN
  end.

(** [undefined] converts to [NaN] where a number is expected. *)
Definition toNumber (o : option num) : num :=
  match o with Some x => x | None => NaN end.

End JsNum.

Import JsNum.

(** The operations are unfolded on demand only. *)
Arguments add : simpl never.
Arguments sub : simpl never.
Arguments mul : simpl never.
Arguments div : simpl never.
Arguments neg : simpl never.
Arguments lt : simpl never.
Arguments le : simpl never.
Arguments gt : simpl never.
Arguments ge : simpl never.
Arguments floor : simpl never.
Arguments max : simpl never.

Declare Scope js_scope.
Delimit Scope js_scope with js.
Notation "x + y" := (add x y) : js_scope.
Notation "x - y" := (sub x y) : js_scope.
Notation "x * y" := (mul x y) : js_scope.
Notation "x / y" := (div x y) : js_scope.
Notation "- x" := (neg x) : js_scope.
Notation "x <? y" := (lt x y) : js_scope.
Notation "x <=? y" := (le x y) : js_scope.
Notation "x >? y" := (gt x y) (at level 70) : js_scope.
Notation "x >=? y" := (ge x y) (at level 70) : js_scope.

(** Milliseconds in a day, [24 * 60 * 60 * 1000]. *)
Definition msPerDay : num := ofZ 86400000.

(** Truthiness of a string: the empty string is falsy. *)
Definition truthyStr (s : string) : bool :=
  match s with EmptyString => false | _ => true end.

(* ================================================================== *)
(** ** The backtesting module ([DTIBacktest]) *)
(* ================================================================== *)

Module Backtest.

Local Open Scope js_scope.

(** One 7-day period of the weekly indicator. *)
Record Period : Type := mkPeriod {
  startIndex : nat;
  endIndex : nat
}.

(** The [sevenDayDTIData] argument. *)
Record SevenDayDTIData : Type := mkSevenDay {
  daily7DayDTI : list num;
  sevenDayData : list Period;
  sevenDayDTI : list num
}.

(** The trading parameters on the page: the inputs [entry-threshold],
    [take-profit], [stop-loss] and [max-days], each holding the decimal
    rendering of a number (a text that is no number renders [NaN]), and the
    check box [enable-weekly-dti]. *)
Record Page : Type := mkPage {
  entry_threshold : num;
  take_profit : num;
  stop_loss : num;
  max_days : num;
  enable_weekly_dti : bool
}.

(** A simulated trade.  The exit fields are absent while it is open. *)
Record Trade : Type := mkTrade {
  entryDate : string;
  entryPrice : num;
  currentPrice : num;
  entryDTI : num;
  entry7DayDTI : option num;
  currentPlPercent : num;
  holdingDays : num;
  signalDate : num;
  exitDate : option string;
  exitPrice : option num;
  plPercent : option num;
  exitReason : option string
}.

(** The variables of the loop. *)
Record Loop : Type := mkLoop {
  completedTrades : list Trade;
  activeTrade : option Trade;
  previousTradeCompleted : bool
}.

(** The value returned by [backtestWithActiveDetection]. *)
Record Result : Type := mkResult {
  res_completedTrades : list Trade;
  res_activeTrade : option Trade
}.

Definition emptyResult : Result := mkResult [] None.

Section Engine.

(** [Date_new s] is the time value of [new Date(s)]; [setMonthPlus6 t] is
    the time value of a date of time value [t] after
    [setMonth(getMonth() + 6)]. *)
Variable Date_new : string -> num.
Variable setMonthPlus6 : num -> num.

(** [new Date(dates[0])], where [dates[0]] is [undefined] on an empty array. *)
Definition firstDate (dates : list string) : num :=
  match dates with
  | d :: _ => Date_new d
  | [] => NaN
  end.

Definition earliestAllowableDate (dates : list string) : num :=
  setMonthPlus6 (firstDate dates).

(** The warm-up period stored in [DTIBacktester.warmupInfo]: its start
    date, its end date and the flag [enabled]. *)
Definition warmupInfo (dates : list string) : num * num * bool :=
  (firstDate dates, earliestAllowableDate dates, true).

(** The inner loop over the periods: the index of the first period that
    contains day [i], [None] for [-1]. *)
Fixpoint findPeriodFrom (ps : list Period) (p i : nat) : option nat :=
  match ps with
  | [] => None
  | pd :: rest =>
      if (startIndex pd <=? i)%nat && (i <=? endIndex pd)%nat
      then Some p
      else findPeriodFrom rest (S p) i
  end.

Definition currentPeriodIndex (sd : SevenDayDTIData) (i : nat) : option nat :=
  findPeriodFrom (sevenDayData sd) 0 i.

(** [previous7DayDTI]: [None] is [null], [Some None] is an [undefined]
    read past the end of [sevenDayDTI]. *)
Definition previous7DayDTI (sd : SevenDayDTIData) (i : nat)
  : option (option num) :=
  match currentPeriodIndex sd i with
  | Some (S p) => Some (nth_error (sevenDayDTI sd) p)
  | _ => None
  end.

(** The open trade with its exit fields set. *)
Definition closeWith (t : Trade) (date : string) (price pl : num)
  (reason : string) : Trade :=
  mkTrade (entryDate t) (entryPrice t) (currentPrice t) (entryDTI t)
    (entry7DayDTI t) (currentPlPercent t) (holdingDays t) (signalDate t)
    (Some date) (Some price) (Some pl) (Some reason).

Definition sevenDayConditionMet (pg : Page) (sd : SevenDayDTIData)
  (i : nat) : bool :=
  match previous7DayDTI sd i with
  | Some prev =>
      if enable_weekly_dti pg
      then toNumber (nth_error (daily7DayDTI sd) i) >? toNumber prev
      else true
  | None => true
  end.

(** The five entry conditions of the loop body. *)
Definition entryConditions (pg : Page) (dates : list string)
  (dti : list num) (sd : SevenDayDTIData) (st : Loop) (i : nat) : bool :=
  let currentDTI := nth i dti NaN in
  let previousDTI := nth (i - 1)%nat dti NaN in
  (currentDTI <? parseFloat (entry_threshold pg))
  && (currentDTI >? previousDTI)
  && sevenDayConditionMet pg sd i
  && ((List.length (completedTrades st) =? 0)%nat || previousTradeCompleted st)
  && (Date_new (nth i dates EmptyString) >=? earliestAllowableDate dates).

(** One iteration of the [for] loop, at index [i]. *)
Definition step (pg : Page) (dates : list string) (prices dti : list num)
  (sd : SevenDayDTIData) (st : Loop) (i : nat) : Loop :=
  let takeProfitPercent := parseFloat (take_profit pg) in
  let stopLossPercent := parseFloat (stop_loss pg) in
  let maxHoldingDays := parseInt (max_days pg) in
  let currentDate := nth i dates EmptyString in
  let currentPrice := nth i prices NaN in
  let currentDTI := nth i dti NaN in
  let current7DayDTI := nth_error (daily7DayDTI sd) i in
  match activeTrade st with
  | Some t =>
      let holdingDays :=
        floor ((Date_new currentDate - Date_new (entryDate t)) / msPerDay) in
      let plPercent := (currentPrice - entryPrice t) / entryPrice t * ofZ 100 in
      let t' :=
        mkTrade (entryDate t) (entryPrice t) currentPrice (entryDTI t)
          (entry7DayDTI t) plPercent holdingDays (signalDate t)
          (exitDate t) (exitPrice t) (Backtest.plPercent t) (exitReason t) in
      if plPercent >=? takeProfitPercent then
        mkLoop
          (completedTrades st
             ++ [closeWith t' currentDate currentPrice plPercent "Take Profit"])
          None true
      else if plPercent <=? - stopLossPercent then
        mkLoop
          (completedTrades st
             ++ [closeWith t' currentDate currentPrice plPercent "Stop Loss"])
          None true
      else if holdingDays >=? maxHoldingDays then
        mkLoop
          (completedTrades st
             ++ [closeWith t' currentDate currentPrice plPercent "Time Exit"])
          None true
      else
        mkLoop (completedTrades st) (Some t') (previousTradeCompleted st)
  | None =>
      if entryConditions pg dates dti sd st i then
        mkLoop (completedTrades st)
          (Some (mkTrade currentDate currentPrice currentPrice currentDTI
                   current7DayDTI zero zero (Date_new currentDate)
                   None None None None))
          false
      else st
  end.

Definition initLoop : Loop := mkLoop [] None false.

(** The loop variables after the iterations [1 .. k] (none when [k = 0]). *)
Definition loopUpTo (pg : Page) (dates : list string) (prices dti : list num)
  (sd : SevenDayDTIData) (k : nat) : Loop :=
  fold_left (step pg dates prices dti sd) (seq 1 k) initLoop.

(** [backtestWithActiveDetection].  An argument that is [null] or
    [undefined] is [None]. *)
Definition backtestWithActiveDetection (pg : Page)
  (dates : option (list string)) (prices dti : option (list num))
  (sevenDayDTIData : option SevenDayDTIData) : Result :=
  match dates, prices, dti, sevenDayDTIData with
  | Some dates, Some prices, Some dti, Some sd =>
      if negb (List.length dates =? List.length prices)%nat
         || negb (List.length dates =? List.length dti)%nat
      then emptyResult
      else
        let st := loopUpTo pg dates prices dti sd (List.length dti - 1)%nat in
        mkResult (completedTrades st) (activeTrade st)
  | _, _, _, _ => emptyResult
  end.

(** [backtestWithActiveDetection] with its console: the messages that the
    call writes with [console.error], and the value that it returns.  The
    rejection branch writes the one message of the function. *)
Definition invalidInputsError : string := "Invalid inputs for backtesting".

Definition backtestWithActiveDetectionConsole (pg : Page)
  (dates : option (list string)) (prices dti : option (list num))
  (sevenDayDTIData : option SevenDayDTIData) : list string * Result :=
  match dates, prices, dti, sevenDayDTIData with
  | Some dates, Some prices, Some dti, Some sd =>
      if negb (List.length dates =? List.length prices)%nat
         || negb (List.length dates =? List.length dti)%nat
      then ([invalidInputsError], emptyResult)
      else
        let st := loopUpTo pg dates prices dti sd (List.length dti - 1)%nat in
        ([], mkResult (completedTrades st) (activeTrade st))
  | _, _, _, _ => ([invalidInputsError], emptyResult)
  end.

(** [backtest]: the completed trades followed by the open one. *)
Definition backtest (pg : Page)
  (dates : option (list string)) (prices dti : option (list num))
  (sevenDayDTIData : option SevenDayDTIData) : list Trade :=
  let result :=
    backtestWithActiveDetection pg dates prices dti sevenDayDTIData in
  res_completedTrades result
    ++ match res_activeTrade result with Some t => [t] | None => [] end.

End Engine.

(** [validateParameters]: the list of error messages; the parameters are
    valid when it is empty.  [r], [s], [u] are the values of the inputs of
    the three EMA periods. *)
Definition validateParameters (r s u : num) (pg : Page) : list string :=
  let r := parseInt r in
  let s := parseInt s in
  let u := parseInt u in
  let entryThreshold := parseFloat (entry_threshold pg) in
  let takeProfitPercent := parseFloat (take_profit pg) in
  let stopLossPercent := parseFloat (stop_loss pg) in
  let maxHoldingDays := parseInt (max_days pg) in
  (if isNaN r || (r <=? zero)
   then ["EMA Period (r) must be a positive number"%string] else [])
  ++ (if isNaN s || (s <=? zero)
      then ["EMA Period (s) must be a positive number"%string] else [])
  ++ (if isNaN u || (u <=? zero)
      then ["EMA Period (u) must be a positive number"%string] else [])
  ++ (if isNaN entryThreshold
      then ["Entry Threshold must be a number"%string] else [])
  ++ (if isNaN takeProfitPercent || (takeProfitPercent <=? zero)
      then ["Take Profit must be a positive number"%string] else [])
  ++ (if isNaN stopLossPercent || (stopLossPercent <=? zero)
      then ["Stop Loss must be a positive number"%string] else [])
  ++ (if isNaN maxHoldingDays || (maxHoldingDays <=? zero)
      then ["Max Holding Period must be a positive number"%string] else []).

Definition isValid (errors : list string) : bool :=
  (List.length errors =? 0)%nat.

End Backtest.

(* ================================================================== *)
(** ** Performance metrics and the parameter search *)
(* ================================================================== *)

Module Optimizer.

Import Backtest.
Local Open Scope js_scope.

Definition ofNat (n : nat) : num := ofZ (Z.of_nat n).

(** The value returned by [calculatePerformanceMetrics].  [equityCurve] is
    absent from the value returned for an empty list of trades. *)
Record Metrics : Type := mkMetrics {
  totalTrades : nat;
  winningTrades : nat;
  losingTrades : nat;
  winRate : num;
  avgProfit : num;
  totalReturn : num;
  profitFactor : num;
  maxDrawdown : num;
  avgHoldingPeriod : num;
  takeProfitCount : nat;
  stopLossCount : nat;
  timeExitCount : nat;
  endOfDataCount : nat;
  equityCurve : option (list num)
}.

Definition zeroMetrics : Metrics :=
  mkMetrics 0 0 0 zero zero zero zero zero zero 0 0 0 0 None.

(** The variables updated by the [forEach] of
    [calculatePerformanceMetrics]. *)
Record Acc : Type := mkAcc {
  a_winningTrades : nat;
  a_losingTrades : nat;
  a_totalProfit : num;
  a_grossProfit : num;
  a_grossLoss : num;
  a_totalHoldingDays : num;
  a_takeProfitCount : nat;
  a_stopLossCount : nat;
  a_timeExitCount : nat;
  a_endOfDataCount : nat;
  a_peak : num;
  a_drawdown : num;
  a_maxDrawdown : num;
  a_equityCurve : list num
}.

Definition initAcc : Acc :=
  mkAcc 0 0 zero zero zero zero 0 0 0 0 zero zero zero [ofZ 100].

Definition optStr (o : option string) : string :=
  match o with Some s => s | None => EmptyString end.

Section Metrics.

Variable Date_new : string -> num.

(** [new Date(x)] for a field that may be [undefined]. *)
Definition Date_new_opt (o : option string) : num :=
  match o with Some s => Date_new s | None => NaN end.

(** The body of the [forEach]. *)
Definition account (a : Acc) (trade : Trade) : Acc :=
  let pl := toNumber (plPercent trade) in
  let win := pl >? zero in
  let equityChange := last (a_equityCurve a) NaN * (ofZ 1 + pl / ofZ 100) in
  let peak := if equityChange >? a_peak a then equityChange else a_peak a in
  let drawdown :=
    if peak >? zero then (peak - equityChange) / peak * ofZ 100
    else a_drawdown a in
  let maxDrawdown :=
    if peak >? zero then max (a_maxDrawdown a) drawdown
    else a_maxDrawdown a in
  let holdingDays :=
    floor ((Date_new_opt (exitDate trade) - Date_new (entryDate trade))
           / msPerDay) in
  let reason := optStr (exitReason trade) in
  mkAcc
    (if win then S (a_winningTrades a) else a_winningTrades a)
    (if win then a_losingTrades a else S (a_losingTrades a))
    (a_totalProfit a + pl)
    (if win then a_grossProfit a + pl else a_grossProfit a)
    (if win then a_grossLoss a else a_grossLoss a + abs pl)
    (a_totalHoldingDays a + holdingDays)
    (if String.eqb reason "Take Profit"
     then S (a_takeProfitCount a) else a_takeProfitCount a)
    (if String.eqb reason "Stop Loss"
     then S (a_stopLossCount a) else a_stopLossCount a)
    (if String.eqb reason "Time Exit"
     then S (a_timeExitCount a) else a_timeExitCount a)
    (if String.eqb reason "End of Data"
     then S (a_endOfDataCount a) else a_endOfDataCount a)
    peak drawdown maxDrawdown
    (a_equityCurve a ++ [equityChange]).

(** A trade counts as completed when [exitDate] and [exitReason] are
    truthy. *)
Definition isCompleted (trade : Trade) : bool :=
  match exitDate trade, exitReason trade with
  | Some d, Some r => truthyStr d && truthyStr r
  | _, _ => false
  end.

Definition calculatePerformanceMetrics (trades : option (list Trade))
  : Metrics :=
  match trades with
  | None | Some [] => zeroMetrics
  | Some trades =>
      let completedTrades := filter isCompleted trades in
      let a := fold_left account completedTrades initAcc in
      let totalTrades := List.length completedTrades in
      let positive := (0 <? totalTrades)%nat in
      mkMetrics totalTrades (a_winningTrades a) (a_losingTrades a)
        (if positive
         then ofNat (a_winningTrades a) / ofNat totalTrades * ofZ 100
         else zero)
        (if positive then a_totalProfit a / ofNat totalTrades else zero)
        (a_totalProfit a)
        (if a_grossLoss a >? zero then a_grossProfit a / a_grossLoss a
         else if a_grossProfit a >? zero then PInf else zero)
        (a_maxDrawdown a)
        (if positive then a_totalHoldingDays a / ofNat totalTrades else zero)
        (a_takeProfitCount a) (a_stopLossCount a) (a_timeExitCount a)
        (a_endOfDataCount a) (Some (a_equityCurve a))
  end.

End Metrics.

(** One combination of the grid. *)
Record Params : Type := mkParams {
  p_r : num;
  p_s : num;
  p_u : num;
  p_entryThreshold : num;
  p_takeProfitPercent : num;
  p_stopLossPercent : num;
  p_maxHoldingDays : num
}.

(** The [paramRanges] argument. *)
Record Ranges : Type := mkRanges {
  rg_r : list num;
  rg_s : list num;
  rg_u : list num;
  rg_entryThreshold : list num;
  rg_takeProfitPercent : list num;
  rg_stopLossPercent : list num;
  rg_maxHoldingDays : list num
}.

Definition defaultRanges : Ranges :=
  mkRanges (map ofZ [7; 14; 21]%Z) (map ofZ [5; 10; 15]%Z)
    (map ofZ [3; 5; 7]%Z) (map ofZ [-50; -40; -30]%Z)
    (map ofZ [5; 8; 10]%Z) (map ofZ [3; 5; 7]%Z) (map ofZ [15; 30; 45]%Z).

(** [bestResult]; [params] is [null] until a combination is kept. *)
Record Best : Type := mkBest {
  params : option Params;
  metrics : Metrics
}.

(** The initial [bestResult]: its [metrics] holds [totalReturn], [winRate]
    and [profitFactor] only; the other fields, which the search never
    reads, are filled with zeros here. *)
Definition initBest : Best :=
  mkBest None (mkMetrics 0 0 0 zero zero NInf zero zero zero 0 0 0 0 None).

(** The score of a result: [totalReturn * (winRate / 100) * profitFactor]. *)
Definition score (m : Metrics) : num :=
  totalReturn m * (winRate m / ofZ 100) * profitFactor m.

(** The value returned by [findOptimalParameters]. *)
Record Outcome : Type := mkOutcome {
  bestResult : Best;
  allResults : list (Params * Metrics)
}.

Section Search.

Variable Date_new : string -> num.
Variable setMonthPlus6 : num -> num.

(** The indicator module, which is not part of this development:
    [DTIIndicators.calculateDTI] and [DTIIndicators.calculate7DayDTI]. *)
Variable calculateDTI : list num -> list num -> num -> num -> num -> list num.
Variable calculate7DayDTI :
  list string -> list num -> list num -> num -> num -> num -> SevenDayDTIData.

(** The combinations, in the order of the seven nested loops. *)
Definition combinations (ranges : Ranges) : list Params :=
  flat_map (fun r =>
  flat_map (fun s =>
  flat_map (fun u =>
  flat_map (fun entryThreshold =>
  flat_map (fun takeProfitPercent =>
  flat_map (fun stopLossPercent =>
  map (fun maxHoldingDays =>
         mkParams r s u entryThreshold takeProfitPercent stopLossPercent
           maxHoldingDays)
      (rg_maxHoldingDays ranges))
    (rg_stopLossPercent ranges))
    (rg_takeProfitPercent ranges))
    (rg_entryThreshold ranges))
    (rg_u ranges))
    (rg_s ranges))
    (rg_r ranges).

(** The metrics of one combination: the inputs of the page are set to the
    combination (the check box is left as it is), the backtest is run, and
    the inputs are restored. *)
Definition evaluate (pg : Page) (dates : list string)
  (high low close : list num) (p : Params) : Metrics :=
  let dti := calculateDTI high low (p_r p) (p_s p) (p_u p) in
  let sevenDayDTIData :=
    calculate7DayDTI dates high low (p_r p) (p_s p) (p_u p) in
  let pg' :=
    mkPage (p_entryThreshold p) (p_takeProfitPercent p)
      (p_stopLossPercent p) (p_maxHoldingDays p) (enable_weekly_dti pg) in
  let result :=
    backtestWithActiveDetection Date_new setMonthPlus6 pg' (Some dates)
      (Some close) (Some dti) (Some sevenDayDTIData) in
  calculatePerformanceMetrics Date_new (Some (res_completedTrades result)).

(** The body of the innermost loop. *)
Definition visit (pg : Page) (dates : list string)
  (high low close : list num) (o : Outcome) (p : Params) : Outcome :=
  let metrics := evaluate pg dates high low close p in
  let currentScore := score metrics in
  let bestScore := score (Optimizer.metrics (bestResult o)) in
  mkOutcome
    (if (currentScore >? bestScore) && (5 <=? totalTrades metrics)%nat
     then mkBest (Some p) metrics
     else bestResult o)
    (allResults o ++ [(p, metrics)]).

Definition findOptimalParameters (pg : Page) (dates : list string)
  (high low close : list num) (paramRanges : option Ranges) : Outcome :=
  let ranges :=
    match paramRanges with Some r => r | None => defaultRanges end in
  fold_left (visit pg dates high low close) (combinations ranges)
    (mkOutcome initBest []).

End Search.

End Optimizer.

(* ================================================================== *)
(** ** The trade core module ([TradeCore]) *)
(* ================================================================== *)

Module Ledger.

Local Open Scope js_scope.

(** A field that holds a number: absent ([undefined]), [null], or the
    number. *)
Inductive jsv : Type :=
| Undef
| Null
| Num (x : num).

(** Conversion to a number: [undefined] gives [NaN] and [null] gives [0]. *)
Definition toNum (v : jsv) : num :=
  match v with
  | Undef => NaN
  | Null => zero
  | Num x => x
  end.

(** A field that holds a date: absent, [null], a date string (as in a
    document that was read from JSON), or a [Date] object of the given
    time value. *)
Inductive jsdate : Type :=
| DUndef
| DNull
| DStr (s : string)
| DObj (t : num).

(** Conversion of a date field to a number, as subtraction and comparison
    do it.  A date string is no numeric literal and gives [NaN]. *)
Definition dateNum (d : jsdate) : num :=
  match d with
  | DUndef => NaN
  | DNull => zero
  | DStr _ => NaN
  | DObj t => t
  end.

Definition truthyDate (d : jsdate) : bool :=
  match d with
  | DUndef | DNull => false
  | DStr s => truthyStr s
  | DObj _ => true
  end.

Definition truthyOptStr (o : option string) : bool :=
  match o with Some s => truthyStr s | None => false end.

(** Strict equality of two fields that hold a string or are absent. *)
Definition optStrEqb (a b : option string) : bool :=
  match a, b with
  | Some x, Some y => String.eqb x y
  | None, None => true
  | _, _ => false
  end.

(** A trade of the ledger, and also a trade of an import document. *)
Record Trade : Type := mkTrade {
  id : option string;
  status : option string;
  stockName : option string;
  symbol : option string;
  entryDate : jsdate;
  entryPrice : jsv;
  currentPrice : jsv;
  investmentAmount : jsv;
  shares : jsv;
  currentValue : jsv;
  stopLossPrice : jsv;
  targetPrice : jsv;
  stopLossPercent : jsv;
  takeProfitPercent : jsv;
  squareOffDate : jsdate;
  holdingDays : jsv;
  currentPLPercent : jsv;
  currentPLValue : jsv;
  currencySymbol : option string;
  notes : option string;
  exitDate : jsdate;
  exitPrice : jsv;
  exitReason : option string;
  plPercent : jsv;
  plValue : jsv
}.

(** The object with no field. *)
Definition emptyObj : Trade :=
  mkTrade
    None None None None DUndef Undef Undef Undef Undef Undef Undef Undef
    Undef Undef DUndef Undef Undef Undef None None DUndef Undef None Undef
    Undef.

(** The assignments of [updateTradeStatus]: [currentPLPercent],
    [currentPLValue], [currentValue] and [holdingDays]. *)
Definition setCurrent (t : Trade)
  (plp : num) (plv : num) (cv : num) (hd : num) : Trade :=
  mkTrade
    (id t) (status t) (stockName t) (symbol t) (entryDate t) (entryPrice t)
    (currentPrice t) (investmentAmount t) (shares t) (Num cv)
    (stopLossPrice t) (targetPrice t) (stopLossPercent t)
    (takeProfitPercent t) (squareOffDate t) (Num hd) (Num plp) (Num plv)
    (currencySymbol t) (notes t) (exitDate t) (exitPrice t) (exitReason t)
    (plPercent t) (plValue t).

(** The assignments that close a trade: [status], [exitDate], [exitPrice],
    [exitReason], [notes], [plPercent] and [plValue]. *)
Definition setClosed (t : Trade)
  (now : num) (price : jsv) (reason nts : option string) (plp plv : num)
  : Trade :=
  mkTrade
    (id t) (Some "closed"%string) (stockName t) (symbol t) (entryDate t)
    (entryPrice t) (currentPrice t) (investmentAmount t) (shares t)
    (currentValue t) (stopLossPrice t) (targetPrice t) (stopLossPercent t)
    (takeProfitPercent t) (squareOffDate t) (holdingDays t)
    (currentPLPercent t) (currentPLValue t) (currencySymbol t) nts
    (DObj now) price reason (Num plp) (Num plv).

(** [{ ...t, id: newId }]. *)
Definition setId (t : Trade) (newId : string) : Trade :=
  mkTrade
    (Some newId) (status t) (stockName t) (symbol t) (entryDate t)
    (entryPrice t) (currentPrice t) (investmentAmount t) (shares t)
    (currentValue t) (stopLossPrice t) (targetPrice t) (stopLossPercent t)
    (takeProfitPercent t) (squareOffDate t) (holdingDays t)
    (currentPLPercent t) (currentPLValue t) (currencySymbol t) (notes t)
    (exitDate t) (exitPrice t) (exitReason t) (plPercent t) (plValue t).

(** The date fields replaced. *)
Definition setDates (t : Trade)
  (e : jsdate) (q : jsdate) (x : jsdate) : Trade :=
  mkTrade
    (id t) (status t) (stockName t) (symbol t) e (entryPrice t)
    (currentPrice t) (investmentAmount t) (shares t) (currentValue t)
    (stopLossPrice t) (targetPrice t) (stopLossPercent t)
    (takeProfitPercent t) q (holdingDays t) (currentPLPercent t)
    (currentPLValue t) (currencySymbol t) (notes t) x (exitPrice t)
    (exitReason t) (plPercent t) (plValue t).

(** [currencySymbol] replaced. *)
Definition setCurrencySymbol (t : Trade) (c : option string) : Trade :=
  mkTrade
    (id t) (status t) (stockName t) (symbol t) (entryDate t) (entryPrice t)
    (currentPrice t) (investmentAmount t) (shares t) (currentValue t)
    (stopLossPrice t) (targetPrice t) (stopLossPercent t)
    (takeProfitPercent t) (squareOffDate t) (holdingDays t)
    (currentPLPercent t) (currentPLValue t) c (notes t) (exitDate t)
    (exitPrice t) (exitReason t) (plPercent t) (plValue t).

(** The seven numeric fields that [prepareTrade] parses, replaced. *)
Definition setNumeric (t : Trade)
  (ep sl tg inv sh cp cv : jsv) : Trade :=
  mkTrade
    (id t) (status t) (stockName t) (symbol t) (entryDate t) ep cp inv sh
    cv sl tg (stopLossPercent t) (takeProfitPercent t) (squareOffDate t)
    (holdingDays t) (currentPLPercent t) (currentPLValue t)
    (currencySymbol t) (notes t) (exitDate t) (exitPrice t) (exitReason t)
    (plPercent t) (plValue t).

(** [currentPrice] replaced. *)
Definition setCurrentPrice (t : Trade) (cp : jsv) : Trade :=
  mkTrade
    (id t) (status t) (stockName t) (symbol t) (entryDate t) (entryPrice t)
    cp (investmentAmount t) (shares t) (currentValue t) (stopLossPrice t)
    (targetPrice t) (stopLossPercent t) (takeProfitPercent t)
    (squareOffDate t) (holdingDays t) (currentPLPercent t)
    (currentPLValue t) (currencySymbol t) (notes t) (exitDate t)
    (exitPrice t) (exitReason t) (plPercent t) (plValue t).

(** The values recomputed for an active trade by [prepareTrade]:
    [currentValue], [currentPLPercent], [currentPLValue], [holdingDays]. *)
Definition setActiveValues (t : Trade)
  (cv : num) (plp : num) (plv : num) (hd : num) : Trade :=
  mkTrade
    (id t) (status t) (stockName t) (symbol t) (entryDate t) (entryPrice t)
    (currentPrice t) (investmentAmount t) (shares t) (Num cv)
    (stopLossPrice t) (targetPrice t) (stopLossPercent t)
    (takeProfitPercent t) (squareOffDate t) (Num hd) (Num plp) (Num plv)
    (currencySymbol t) (notes t) (exitDate t) (exitPrice t) (exitReason t)
    (plPercent t) (plValue t).

Definition isActive (t : Trade) : bool :=
  optStrEqb (status t) (Some "active"%string).

(** *** Currency symbols *)

(** The UTF-8 bytes of the pound sign and of the rupee sign. *)
Definition poundSign : string :=
  String (Ascii.ascii_of_nat 194) (String (Ascii.ascii_of_nat 163) "").
Definition rupeeSign : string :=
  String (Ascii.ascii_of_nat 226)
    (String (Ascii.ascii_of_nat 130) (String (Ascii.ascii_of_nat 185) "")).

Definition includes (sub s : string) : bool :=
  match index 0 sub s with Some _ => true | None => false end.

Definition endsWith (suffix s : string) : bool :=
  (String.length suffix <=? String.length s)%nat
  && String.eqb
       (substring (String.length s - String.length suffix)
          (String.length suffix) s)
       suffix.

(** [getCurrencySymbol] on a string. *)
Definition currencyOfString (market : string) : string :=
  if String.eqb market "usStocks" then "$"
  else if String.eqb market "ftse100" then poundSign
  else if String.eqb market "nifty50" || String.eqb market "niftyNext50"
          || String.eqb market "indices" then rupeeSign
  else if includes "." market then
    if endsWith ".L" market then poundSign
    else if includes ".NS" market then rupeeSign
    else rupeeSign
  else "$"%string.

(** [getCurrencySymbol].  [currentStockIndex] is the global setting
    [DTIBacktester.currentStockIndex], consulted when the argument is no
    string. *)
Definition getCurrencySymbol (currentStockIndex : option string)
  (market : option string) : string :=
  match market with
  | Some m => currencyOfString m
  | None =>
      match currentStockIndex with
      | Some g => if truthyStr g then currencyOfString g else rupeeSign
      | None => rupeeSign
      end
  end.

(** *** The state of the module *)

(** A point of the equity curve and a point of the drawdown series. *)
Record EquityPoint : Type := mkEquityPoint {
  date : jsdate;
  equity : num;
  equityPercent : num;
  isActivePoint : bool
}.

Record DrawdownPoint : Type := mkDrawdownPoint {
  dd_date : jsdate;
  drawdown : num
}.

(** The variables of the module.  The trade objects live in [heap]; the
    three arrays hold references to them (indices of [heap]), so that an
    object held by two arrays is one object. *)
Record State : Type := mkState {
  heap : list Trade;
  allTrades : list nat;
  activeTrades : list nat;
  closedTrades : list nat;
  equityCurveData : option (list EquityPoint);
  drawdownData : option (list DrawdownPoint)
}.

Definition get (h : list Trade) (r : nat) : Trade := nth r h emptyObj.

Fixpoint upd (h : list Trade) (r : nat) (t : Trade) : list Trade :=
  match h, r with
  | [], _ => []
  | _ :: h', O => t :: h'
  | x :: h', S r' => x :: upd h' r' t
  end.

(** The trades an array refers to. *)
Definition deref (h : list Trade) (l : list nat) : list Trade :=
  map (get h) l.

(** [Array.prototype.sort] with a comparison function: a stable sort;
    [cmp a b > 0] puts [b] first, and a result that is [NaN] counts as
    [0].  Where the comparison is no consistent order, as with a date that
    is missing or invalid, the language leaves the order of the result to
    the host; the insertion below gives one such order, and the result is
    a permutation of the array in every host. *)
Fixpoint insertBy (cmp : nat -> nat -> num) (x : nat) (l : list nat)
  : list nat :=
  match l with
  | [] => [x]
  | y :: l' => if cmp x y >? zero then y :: insertBy cmp x l' else x :: l
  end.

Definition sortBy (cmp : nat -> nat -> num) (l : list nat) : list nat :=
  fold_right (insertBy cmp) [] l.

(** The comparison functions of the module. *)
Definition byEntryDateDesc (h : list Trade) (a b : nat) : num :=
  dateNum (entryDate (get h b)) - dateNum (entryDate (get h a)).
Definition byExitDateDesc (h : list Trade) (a b : nat) : num :=
  dateNum (exitDate (get h b)) - dateNum (exitDate (get h a)).
Definition byEntryDateAsc (h : list Trade) (a b : nat) : num :=
  dateNum (entryDate (get h a)) - dateNum (entryDate (get h b)).
Definition byExitDateAsc (h : list Trade) (a b : nat) : num :=
  dateNum (exitDate (get h a)) - dateNum (exitDate (get h b)).

(** Active trades first; then by entry date (active) or exit date (others),
    newest first. *)
Definition byStatusThenDate (h : list Trade) (a b : nat) : num :=
  let ta := get h a in
  let tb := get h b in
  if isActive ta && negb (isActive tb) then ofZ (-1)
  else if negb (isActive ta) && isActive tb then ofZ 1
  else if isActive ta
       then dateNum (entryDate tb) - dateNum (entryDate ta)
       else dateNum (exitDate tb) - dateNum (exitDate ta).

(** [saveTradestoStorage].  [ok] tells whether [localStorage.setItem]
    returns; when it throws, the function returns [false] and the cached
    series are left as they are. *)
Definition saveTradestoStorage (ok : bool) (s : State) : State * bool :=
  if ok
  then (mkState (heap s) (allTrades s) (activeTrades s) (closedTrades s)
          None None, true)
  else (s, false).

(** *** Closing and updating a trade *)

(** [closeTradeAutomatically], on the trade object [r]; [now] is the time
    value of [new Date()]. *)
Definition closeTradeAutomatically (now : num) (ok : bool) (r : nat)
  (reason : string) (exitPrice : jsv) (s : State) : State :=
  let trade := get (heap s) r in
  let entry := toNum (entryPrice trade) in
  let trade' :=
    setClosed trade now exitPrice (Some reason) (notes trade)
      ((toNum exitPrice - entry) / entry * ofZ 100)
      (toNum (shares trade) * toNum exitPrice
       - toNum (shares trade) * entry) in
  let h := upd (heap s) r trade' in
  let active :=
    filter (fun t => negb (optStrEqb (id (get h t)) (id trade')))
      (activeTrades s) in
  let closed := closedTrades s ++ [r] in
  fst (saveTradestoStorage ok
         (mkState h (allTrades s)
            (sortBy (byEntryDateDesc h) active)
            (sortBy (byExitDateDesc h) closed)
            (equityCurveData s) (drawdownData s))).

(** [updateTradeStatus], on the trade object [r]. *)
Definition updateTradeStatus (now : num) (ok : bool) (r : nat) (s : State)
  : State :=
  let trade := get (heap s) r in
  if negb (isActive trade) then s
  else
    let currentDate := now in
    let currentPrice := toNum (currentPrice trade) in
    let entry := toNum (entryPrice trade) in
    let trade' :=
      setCurrent trade
        ((currentPrice - entry) / entry * ofZ 100)
        (toNum (shares trade) * currentPrice - toNum (shares trade) * entry)
        (toNum (shares trade) * currentPrice)
        (floor ((currentDate - dateNum (entryDate trade)) / msPerDay)) in
    let s' :=
      mkState (upd (heap s) r trade') (allTrades s) (activeTrades s)
        (closedTrades s) (equityCurveData s) (drawdownData s) in
    if currentPrice <=? toNum (stopLossPrice trade') then
      closeTradeAutomatically now ok r "Stop Loss Hit"
        (Ledger.currentPrice trade') s'
    else if currentPrice >=? toNum (targetPrice trade') then
      closeTradeAutomatically now ok r "Target Reached"
        (Ledger.currentPrice trade') s'
    else if currentDate >=? dateNum (squareOffDate trade') then
      closeTradeAutomatically now ok r "Time Exit"
        (Ledger.currentPrice trade') s'
    else s'.

(** *** Creating a trade *)

(** The [tradeData] argument of [addNewTrade]. *)
Record TradeData : Type := mkTradeData {
  td_stockName : option string;
  td_symbol : option string;
  td_entryDate : jsdate;
  td_entryPrice : jsv;
  td_investmentAmount : jsv;
  td_stopLossPrice : jsv;
  td_targetPrice : jsv;
  td_stopLossPercent : jsv;
  td_takeProfitPercent : jsv;
  td_squareOffDate : jsdate;
  td_currencySymbol : option string;
  td_notes : option string
}.

Section Host.

(** [Date_new s] is the time value of [new Date(s)];
    [Date_toISOString t] is the text of a valid date in a JSON document. *)
Variable Date_new : string -> num.
Variable Date_toISOString : num -> string.

(** [new Date(x)] on a date field. *)
Definition newDate (d : jsdate) : num :=
  match d with
  | DUndef => NaN
  | DNull => zero
  | DStr s => Date_new s
  | DObj t => t
  end.

(** [addNewTrade].  [tradeId] is the identifier that [Date.now()] and
    [Math.random()] produce. *)
Definition addNewTrade (now : num) (ok : bool) (tradeId : string)
  (currentStockIndex : option string) (tradeData : TradeData) (s : State)
  : State * option string :=
  let currencySymbol :=
    if truthyOptStr (td_currencySymbol tradeData)
    then td_currencySymbol tradeData
    else Some (getCurrencySymbol currentStockIndex (td_symbol tradeData)) in
  let inv := toNum (td_investmentAmount tradeData) in
  let entry := toNum (td_entryPrice tradeData) in
  let newTrade :=
    mkTrade (Some tradeId) (Some "active"%string)
      (td_stockName tradeData) (td_symbol tradeData)
      (if truthyDate (td_entryDate tradeData)
       then td_entryDate tradeData else DObj now)
      (td_entryPrice tradeData) (td_entryPrice tradeData)
      (td_investmentAmount tradeData)
      (Num (inv / entry))
      (Num (floor (inv / entry) * entry))
      (td_stopLossPrice tradeData) (td_targetPrice tradeData)
      (td_stopLossPercent tradeData) (td_takeProfitPercent tradeData)
      (DObj (newDate (td_squareOffDate tradeData)))
      (Num zero) (Num zero) (Num zero)
      currencySymbol
      (if truthyOptStr (td_notes tradeData)
       then td_notes tradeData else Some EmptyString)
      DUndef Undef None Undef Undef in
  let r := List.length (heap s) in
  let h := heap s ++ [newTrade] in
  let s' :=
    mkState h (allTrades s ++ [r])
      (sortBy (byEntryDateDesc h) (activeTrades s ++ [r]))
      (closedTrades s) (equityCurveData s) (drawdownData s) in
  (fst (saveTradestoStorage ok s'), Some tradeId).

(** *** Manual close, delete, clear *)

(** [Array.prototype.find] on an array of trade objects. *)
Definition findById (h : list Trade) (tradeId : option string)
  (l : list nat) : option nat :=
  find (fun r => optStrEqb (id (get h r)) tradeId) l.

Definition removeId (h : list Trade) (tradeId : option string)
  (l : list nat) : list nat :=
  filter (fun r => negb (optStrEqb (id (get h r)) tradeId)) l.

(** [closeTrade]. *)
Definition closeTrade (now : num) (ok : bool) (tradeId : option string)
  (exitPrice : jsv) (reason notes : option string) (s : State)
  : State * bool :=
  match findById (heap s) tradeId (activeTrades s) with
  | None => (s, false)
  | Some r =>
      let trade := get (heap s) r in
      let entry := toNum (entryPrice trade) in
      let trade' :=
        setClosed trade now exitPrice reason
          (if truthyOptStr notes then notes else Ledger.notes trade)
          ((toNum exitPrice - entry) / entry * ofZ 100)
          (toNum (shares trade) * toNum exitPrice
           - toNum (shares trade) * entry) in
      let h := upd (heap s) r trade' in
      let active := removeId h tradeId (activeTrades s) in
      let closed := closedTrades s ++ [r] in
      (fst (saveTradestoStorage ok
              (mkState h (allTrades s)
                 (sortBy (byEntryDateDesc h) active)
                 (sortBy (byExitDateDesc h) closed)
                 (equityCurveData s) (drawdownData s))), true)
  end.

(** [deleteTrade]. *)
Definition deleteTrade (ok : bool) (tradeId : option string) (s : State)
  : State * bool :=
  match findById (heap s) tradeId (allTrades s) with
  | None => (s, false)
  | Some r =>
      let trade := get (heap s) r in
      let all := removeId (heap s) tradeId (allTrades s) in
      let s' :=
        if isActive trade
        then mkState (heap s) all
               (removeId (heap s) tradeId (activeTrades s))
               (closedTrades s) (equityCurveData s) (drawdownData s)
        else mkState (heap s) all (activeTrades s)
               (removeId (heap s) tradeId (closedTrades s))
               (equityCurveData s) (drawdownData s) in
      (fst (saveTradestoStorage ok s'), true)
  end.

(** [clearTradeHistory]. *)
Definition clearTradeHistory (ok : bool) (s : State) : State * bool :=
  (fst (saveTradestoStorage ok
          (mkState (heap s) (activeTrades s) (activeTrades s) [] None None)),
   true).

(** *** Import and export *)

(** [parseFloat] of a field of an import document: the number for a
    number, [NaN] for [null]. *)
Definition parseFloatField (v : jsv) : num :=
  match v with
  | Num x => x
  | _ => NaN
  end.

(** The loop of [prepareTrade] over the numeric fields, on one field:
    a field that is present is parsed, and [NaN] is replaced by [0] for
    [entryPrice], [shares] and [investmentAmount] ([zeroDefault]). *)
Definition fixNumeric (zeroDefault : bool) (v : jsv) : jsv :=
  match v with
  | Undef => Undef
  | _ =>
      let x := parseFloatField v in
      if isNaN x && zeroDefault then Num zero else Num x
  end.

(** A date field that is a string becomes a [Date]. *)
Definition fixDate (d : jsdate) : jsdate :=
  match d with
  | DStr s => DObj (Date_new s)
  | _ => d
  end.

(** [prepareTrade]; [now] is the time value of [new Date()]. *)
Definition prepareTrade (now : num) (currentStockIndex : option string)
  (trade : Trade) : Trade :=
  let t1 :=
    setDates trade (fixDate (entryDate trade))
      (fixDate (squareOffDate trade))
      (if truthyDate (exitDate trade) then fixDate (exitDate trade)
       else exitDate trade) in
  let t2 :=
    if truthyOptStr (currencySymbol t1) then t1
    else setCurrencySymbol t1
           (Some (getCurrencySymbol currentStockIndex (symbol t1))) in
  let t3 :=
    setNumeric t2
      (fixNumeric true (entryPrice t2))
      (fixNumeric false (stopLossPrice t2))
      (fixNumeric false (targetPrice t2))
      (fixNumeric true (investmentAmount t2))
      (fixNumeric true (shares t2))
      (fixNumeric false (currentPrice t2))
      (fixNumeric false (currentValue t2)) in
  if isActive t3 then
    let t4 :=
      if negb (truthy (toNum (currentPrice t3)))
         || isNaN (toNum (currentPrice t3))
      then setCurrentPrice t3 (entryPrice t3)
      else t3 in
    let price := toNum (currentPrice t4) in
    let entry := toNum (entryPrice t4) in
    let holdingDays := floor ((now - dateNum (entryDate t4)) / msPerDay) in
    setActiveValues t4
      (toNum (shares t4) * price)
      ((price - entry) / entry * ofZ 100)
      (toNum (shares t4) * price - toNum (shares t4) * entry)
      (max zero holdingDays)
  else t3.

(** The [metadata] of a document, and a document after [JSON.parse]. *)
Record Metadata : Type := mkMetadata {
  version : option string;
  exportDate : option string;
  tradeCount : nat;
  activeCount : nat;
  closedCount : nat
}.

Record Document : Type := mkDocument {
  metadata : option Metadata;
  trades : option (list Trade)
}.

(** A trade after [JSON.stringify] and [JSON.parse]: a valid date becomes
    its text and an invalid one [null]; a number that is not finite becomes
    [null]; an absent field stays absent. *)
Definition jsonDate (d : jsdate) : jsdate :=
  match d with
  | DObj t => if isFinite t then DStr (Date_toISOString t) else DNull
  | _ => d
  end.

Definition jsonNum (v : jsv) : jsv :=
  match v with
  | Num x => if isFinite x then Num x else Null
  | _ => v
  end.

Definition jsonTrade (t : Trade) : Trade :=
  mkTrade (id t) (status t) (stockName t) (symbol t)
    (jsonDate (entryDate t)) (jsonNum (entryPrice t))
    (jsonNum (currentPrice t)) (jsonNum (investmentAmount t))
    (jsonNum (shares t)) (jsonNum (currentValue t))
    (jsonNum (stopLossPrice t)) (jsonNum (targetPrice t))
    (jsonNum (stopLossPercent t)) (jsonNum (takeProfitPercent t))
    (jsonDate (squareOffDate t)) (jsonNum (holdingDays t))
    (jsonNum (currentPLPercent t)) (jsonNum (currentPLValue t))
    (currencySymbol t) (notes t)
    (jsonDate (exitDate t)) (jsonNum (exitPrice t)) (exitReason t)
    (jsonNum (plPercent t)) (jsonNum (plValue t)).

Definition DATA_VERSION : string := "1.0.0".

(** [exportAllTradesJSON]: the document that the exported text parses
    to.  [now] is the time value of [new Date()]. *)
Definition exportAllTradesJSON (now : num) (s : State) : Document :=
  mkDocument
    (Some (mkMetadata (Some DATA_VERSION) (Some (Date_toISOString now))
             (List.length (allTrades s)) (List.length (activeTrades s))
             (List.length (closedTrades s))))
    (Some (map jsonTrade (deref (heap s) (allTrades s)))).

(** [validateImportData], on a document that is an object (its version
    is only the matter of a warning). *)
Definition validateImportData (data : Document) : bool :=
  match metadata data, trades data with
  | Some _, Some (sampleTrade :: _) =>
      match stockName sampleTrade, symbol sampleTrade,
            entryPrice sampleTrade, status sampleTrade with
      | Some _, Some _, (Null | Num _), Some _ => true
      | _, _, _, _ => false
      end
  | _, _ => false
  end.

(** The [options] of an import and its result. *)
Record Options : Type := mkOptions {
  mode : string;
  keepActive : bool
}.

Definition defaultOptions : Options := mkOptions "merge" true.

Record Results : Type := mkResults {
  added : nat;
  updated : nat;
  skipped : nat;
  errors : nat;
  total : nat;
  kept : nat;
  error : option string
}.

(** The first index of [l] whose trade has the identifier [i]. *)
Fixpoint findIndexById (h : list Trade) (i : option string) (l : list nat)
  : option nat :=
  match l with
  | [] => None
  | r :: l' =>
      if optStrEqb (id (get h r)) i then Some O
      else option_map S (findIndexById h i l')
  end.

Fixpoint setNth (l : list nat) (k r : nat) : list nat :=
  match l, k with
  | [], _ => []
  | _ :: l', O => r :: l'
  | x :: l', S k' => x :: setNth l' k' r
  end.

(** The state of an import while it goes through the trades of the
    document: the heap, [allTrades] and the counters. *)
Record Importing : Type := mkImporting {
  i_heap : list Trade;
  i_all : list nat;
  i_added : nat;
  i_updated : nat
}.

(** Merge mode, one trade of the document.  [existing] holds the keys of
    [existingTradesMap], the identifiers of [allTrades] before the
    import. *)
Definition mergeOne (now : num) (currentStockIndex : option string)
  (existing : list (option string)) (st : Importing) (importedTrade : Trade)
  : Importing :=
  let processedTrade := prepareTrade now currentStockIndex importedTrade in
  let r := List.length (i_heap st) in
  let h := i_heap st ++ [processedTrade] in
  if existsb (optStrEqb (id processedTrade)) existing then
    match findIndexById (i_heap st) (id processedTrade) (i_all st) with
    | Some index =>
        mkImporting h (setNth (i_all st) index r) (i_added st)
          (S (i_updated st))
    | None =>
        mkImporting h (i_all st ++ [r]) (S (i_added st)) (i_updated st)
    end
  else mkImporting h (i_all st ++ [r]) (S (i_added st)) (i_updated st).

(** Add mode, one trade of the document; [newId] is its new identifier. *)
Definition addOne (now : num) (currentStockIndex : option string)
  (st : Importing) (tradeAndId : Trade * string) : Importing :=
  let newTrade :=
    setId (prepareTrade now currentStockIndex (fst tradeAndId))
      (snd tradeAndId) in
  mkImporting (i_heap st ++ [newTrade])
    (i_all st ++ [List.length (i_heap st)]) (S (i_added st)) (i_updated st).

(** Replace mode: every trade of the document is prepared and stored. *)
Definition replaceAll (now : num) (currentStockIndex : option string)
  (h : list Trade) (importedTrades : list Trade) : list Trade * list nat :=
  (h ++ map (prepareTrade now currentStockIndex) importedTrades,
   seq (List.length h) (List.length importedTrades)).

(** [importTradesFromJSON] on a parsed document.  [newIds k] is the
    identifier generated for the [k]-th trade in add mode. *)
Definition importTradesFromJSON (now : num) (ok : bool)
  (newIds : nat -> string) (currentStockIndex : option string)
  (data : Document) (options : Options) (s : State) : State * Results :=
  let failure (s' : State) (message : string) :=
    (s', mkResults 0 0 0 1 0 0 (Some message)) in
  if negb (validateImportData data)
  then failure s "Invalid import data format"%string
  else
    let importedTrades :=
      match trades data with Some l => l | None => [] end in
    let n := List.length importedTrades in
    let '(h, all, results) :=
      if String.eqb (mode options) "replace" then
        let currentActiveTrades :=
          if keepActive options then activeTrades s else [] in
        let '(h, all) :=
          replaceAll now currentStockIndex (heap s) importedTrades in
        let importedIds := map (fun r => id (get h r)) all in
        let keptTrades :=
          filter (fun r => negb (existsb (optStrEqb (id (get h r)))
                                   importedIds))
            currentActiveTrades in
        (h, all ++ keptTrades,
         mkResults n 0 0 0 n (List.length keptTrades) None)
      else if String.eqb (mode options) "add" then
        let st :=
          fold_left (addOne now currentStockIndex)
            (combine importedTrades (map newIds (seq 0 n)))
            (mkImporting (heap s) (allTrades s) 0 0) in
        (i_heap st, i_all st, mkResults (i_added st) 0 0 0 n 0 None)
      else
        let existing := map (fun r => id (get (heap s) r)) (allTrades s) in
        let st :=
          fold_left (mergeOne now currentStockIndex existing)
            importedTrades (mkImporting (heap s) (allTrades s) 0 0) in
        (i_heap st, i_all st,
         mkResults (i_added st) (i_updated st) 0 0 n 0 None) in
    let active := filter (fun r => isActive (get h r)) all in
    let closed := filter (fun r => negb (isActive (get h r))) all in
    let s' :=
      mkState h (sortBy (byStatusThenDate h) all) active closed
        (equityCurveData s) (drawdownData s) in
    let '(s'', saved) := saveTradestoStorage ok s' in
    if saved
    then (mkState (heap s'') (allTrades s'') (activeTrades s'')
            (closedTrades s'') None None, results)
    else failure s'' "Failed to save imported trades to storage"%string.

End Host.

(** *** Analytics *)

(** The running total of [getEquityCurveData] over the closed trades, in
    the order given: one point per trade. *)
Fixpoint closedPoints (initialInvestment runningTotal : num)
  (ts : list Trade) : list EquityPoint * num :=
  match ts with
  | [] => ([], runningTotal)
  | trade :: rest =>
      let runningTotal := runningTotal + toNum (plValue trade) in
      let '(points, final) :=
        closedPoints initialInvestment runningTotal rest in
      (mkEquityPoint (exitDate trade) runningTotal
         (runningTotal / initialInvestment * ofZ 100) false :: points,
       final)
  end.

(** The same over the active trades, dated [now]. *)
Fixpoint activePoints (now initialInvestment runningTotal : num)
  (ts : list Trade) : list EquityPoint :=
  match ts with
  | [] => []
  | trade :: rest =>
      let runningTotal := runningTotal + toNum (currentPLValue trade) in
      mkEquityPoint (DObj now) runningTotal
        (runningTotal / initialInvestment * ofZ 100) true
      :: activePoints now initialInvestment runningTotal rest
  end.

(** The series that [getEquityCurveData] builds when it has no cached
    one and there is a closed trade. *)
Definition computeEquityCurve (now : num) (s : State) : list EquityPoint :=
  let h := heap s in
  let sortedTrades := deref h (sortBy (byExitDateAsc h) (closedTrades s)) in
  let first :=
    mkEquityPoint (entryDate (hd emptyObj sortedTrades)) zero zero false in
  let initialInvestment :=
    fold_left (fun sum t => sum + toNum (investmentAmount t))
      (deref h (closedTrades s)) zero in
  let '(points, runningTotal) :=
    closedPoints initialInvestment zero sortedTrades in
  let sortedActiveTrades :=
    deref h (sortBy (byEntryDateAsc h) (activeTrades s)) in
  first :: points
  ++ activePoints now initialInvestment runningTotal sortedActiveTrades.

(** [getEquityCurveData]: the series returned and the state, in which the
    series may have been cached. *)
Definition getEquityCurveData (now : num) (s : State)
  : list EquityPoint * State :=
  match equityCurveData s with
  | Some cached => (cached, s)
  | None =>
      match closedTrades s with
      | [] => ([], s)
      | _ =>
          let equityCurve := computeEquityCurve now s in
          (equityCurve,
           mkState (heap s) (allTrades s) (activeTrades s) (closedTrades s)
             (Some equityCurve) (drawdownData s))
      end
  end.

(** The walk of [getDrawdownChartData] over the equity curve. *)
Fixpoint drawdownSeries (peak : num) (curve : list EquityPoint)
  : list DrawdownPoint :=
  match curve with
  | [] => []
  | point :: rest =>
      if equity point >? peak
      then mkDrawdownPoint (date point) zero
           :: drawdownSeries (equity point) rest
      else
        mkDrawdownPoint (date point)
          (if eqb peak zero then zero
           else (peak - equity point) / peak * ofZ 100)
        :: drawdownSeries peak rest
  end.

(** [getDrawdownChartData]. *)
Definition getDrawdownChartData (now : num) (s : State)
  : list DrawdownPoint * State :=
  match drawdownData s with
  | Some cached => (cached, s)
  | None =>
      match closedTrades s with
      | [] => ([], s)
      | _ =>
          let '(equityCurve, s') := getEquityCurveData now s in
          let series := drawdownSeries zero equityCurve in
          (series,
           mkState (heap s') (allTrades s') (activeTrades s')
             (closedTrades s') (equityCurveData s') (Some series))
      end
  end.

Section Sharpe.

(** [Math.pow] and [Math.sqrt] of the host. *)
Variable Math_pow : num -> num -> num.
Variable Math_sqrt : num -> num.

(** The daily return rate of a closed trade, in percent. *)
Definition dailyReturnRate (trade : Trade) : num :=
  let holdingDays :=
    max (ofZ 1)
      (floor ((dateNum (exitDate trade) - dateNum (entryDate trade))
              / msPerDay)) in
  (Math_pow (ofZ 1 + toNum (plPercent trade) / ofZ 100)
     (ofZ 1 / holdingDays) - ofZ 1) * ofZ 100.

(** [getSharpeRatio]. *)
Definition getSharpeRatio (riskFreeRate : num) (s : State) : num :=
  let closed := deref (heap s) (closedTrades s) in
  match closed with
  | [] => zero
  | _ =>
      let n := ofZ (Z.of_nat (List.length closed)) in
      let avgDailyReturn :=
        fold_left (fun sum trade => sum + dailyReturnRate trade) closed zero
        / n in
      let dailyReturns := map dailyReturnRate closed in
      let variance :=
        fold_left
          (fun sum dailyReturn =>
             sum + Math_pow (dailyReturn - avgDailyReturn) (ofZ 2))
          dailyReturns zero
        / n in
      let stdDeviation := Math_sqrt variance in
      let dailyRiskFreeRate :=
        (Math_pow (ofZ 1 + riskFreeRate) (ofZ 1 / ofZ 365) - ofZ 1)
        * ofZ 100 in
      let annualizationFactor := Math_sqrt (ofZ 252) in
      let sharpeRatio :=
        (avgDailyReturn - dailyRiskFreeRate) / stdDeviation
        * annualizationFactor in
      if isNaN sharpeRatio then zero else sharpeRatio
  end.

End Sharpe.

(** The default [riskFreeRate], [0.02]. *)
Definition defaultRiskFreeRate : num := Fin (1 # 50).

End Ledger.

(* ================================================================== *)
(** ** The statistics of the trade core *)
(* ================================================================== *)

Module Statistics.

Import Ledger.
Local Open Scope js_scope.

(** A count as a number. *)
Definition count (n : nat) : num := ofZ (Z.of_nat n).

(** [Math.min]. *)
Definition min (x y : num) : num :=
  match x, y with
  | NaN, _ | _, NaN => NaN
  | _, _ => if y <? x then y else x
  end.

(** [trades.reduce((sum, t) => sum + f(t), 0)]. *)
Definition sumOf (f : Trade -> num) (ts : list Trade) : num :=
  fold_left (fun sum t => sum + f t) ts zero.

(** [trade.plPercent] where a number is expected, and the two tests
    [trade.plPercent > 0] and [trade.plPercent <= 0]. *)
Definition plOf (trade : Trade) : num := toNum (plPercent trade).

Definition isProfitable (trade : Trade) : bool := plOf trade >? zero.

Definition isLosing (trade : Trade) : bool := plOf trade <=? zero.

(** *** [getTradeStatistics] *)

Record TradeStatistics : Type := mkTradeStatistics {
  totalActive : nat;
  totalClosed : nat;
  totalInvested : num;
  openPLPercent : num;
  openPLValue : num;
  winningTrades : nat;
  losingTrades : nat;
  winRate : num;
  avgProfit : num;
  totalClosedProfit : num;
  profitFactor : num
}.

(** The variables updated by the [forEach] over the closed trades. *)
Record Tally : Type := mkTally {
  t_winningTrades : nat;
  t_losingTrades : nat;
  t_totalClosedProfit : num;
  t_grossProfit : num;
  t_grossLoss : num
}.

Definition tally (a : Tally) (trade : Trade) : Tally :=
  if plOf trade >? zero
  then mkTally (S (t_winningTrades a)) (t_losingTrades a)
         (t_totalClosedProfit a + plOf trade)
         (t_grossProfit a + plOf trade) (t_grossLoss a)
  else mkTally (t_winningTrades a) (S (t_losingTrades a))
         (t_totalClosedProfit a + plOf trade)
         (t_grossProfit a) (t_grossLoss a + abs (plOf trade)).

(** The statistics of a list of active trades and a list of closed
    trades: the body of [getTradeStatistics]. *)
Definition statisticsOf (active closed : list Trade) : TradeStatistics :=
  let totalActive := List.length active in
  let totalClosed := List.length closed in
  let totalInvested := sumOf (fun t => toNum (investmentAmount t)) active in
  let totalCurrentValue := sumOf (fun t => toNum (currentValue t)) active in
  let totalInitialValue :=
    sumOf (fun t => toNum (entryPrice t) * toNum (shares t)) active in
  let a := fold_left tally closed (mkTally 0 0 zero zero zero) in
  mkTradeStatistics totalActive totalClosed totalInvested
    (if (0 <? totalActive)%nat
     then (totalCurrentValue - totalInitialValue) / totalInitialValue
          * ofZ 100
     else zero)
    (if (0 <? totalActive)%nat
     then totalCurrentValue - totalInitialValue
     else zero)
    (t_winningTrades a) (t_losingTrades a)
    (if (0 <? totalClosed)%nat
     then count (t_winningTrades a) / count totalClosed * ofZ 100
     else zero)
    (if (0 <? totalClosed)%nat
     then t_totalClosedProfit a / count totalClosed
     else zero)
    (t_totalClosedProfit a)
    (if t_grossLoss a >? zero then t_grossProfit a / t_grossLoss a
     else if t_grossProfit a >? zero then PInf else zero).

Definition getTradeStatistics (s : State) : TradeStatistics :=
  statisticsOf (deref (heap s) (activeTrades s))
    (deref (heap s) (closedTrades s)).

(** *** [getTrades] and [getTradeById] *)

(** [getTrades]: [status] and [profitable] are [None] when the argument
    is [undefined].  The array returned holds the objects of the ledger. *)
Definition getTrades (status : option string) (profitable : option bool)
  (s : State) : list nat :=
  let status := match status with Some x => x | None => "all"%string end in
  let result :=
    if String.eqb status "active" then activeTrades s
    else if String.eqb status "closed" then closedTrades s
    else allTrades s in
  match profitable with
  | Some p =>
      if negb (String.eqb status "active") then
        if p then filter (fun r => isProfitable (get (heap s) r)) result
        else filter (fun r => isLosing (get (heap s) r)) result
      else result
  | None => result
  end.

(** [getTradeById]: [None] is [null]. *)
Definition getTradeById (tradeId : option string) (s : State) : option nat :=
  find (fun r => optStrEqb (id (get (heap s) r)) tradeId) (allTrades s).

(** *** [getMaxDrawdown] *)

Record MaxDrawdown : Type := mkMaxDrawdown {
  percentage : num;
  durationDays : num;
  startDate : jsdate;
  endDate : jsdate
}.

(** The variables of the loop ([drawdownEndDate], which is never
    assigned, is left out). *)
Record DrawdownLoop : Type := mkDrawdownLoop {
  peak : num;
  maxDrawdown : num;
  currentDrawdown : num;
  drawdownStartDate : jsdate;
  maxDrawdownStartDate : jsdate;
  maxDrawdownEndDate : jsdate;
  currentEquity : num
}.

Definition initDrawdownLoop : DrawdownLoop :=
  mkDrawdownLoop zero zero zero DNull DNull DNull zero.

Definition drawdownStep (a : DrawdownLoop) (trade : Trade) : DrawdownLoop :=
  let currentEquity := currentEquity a + toNum (plValue trade) in
  if currentEquity >? peak a then
    mkDrawdownLoop currentEquity (maxDrawdown a) zero (exitDate trade)
      (maxDrawdownStartDate a) (maxDrawdownEndDate a) currentEquity
  else
    let currentDrawdown :=
      if peak a >? zero
      then (peak a - currentEquity) / peak a * ofZ 100
      else zero in
    if currentDrawdown >? maxDrawdown a then
      mkDrawdownLoop (peak a) currentDrawdown currentDrawdown
        (drawdownStartDate a) (drawdownStartDate a) (exitDate trade)
        currentEquity
    else
      mkDrawdownLoop (peak a) (maxDrawdown a) currentDrawdown
        (drawdownStartDate a) (maxDrawdownStartDate a)
        (maxDrawdownEndDate a) currentEquity.

Definition getMaxDrawdown (s : State) : MaxDrawdown :=
  match closedTrades s with
  | [] => mkMaxDrawdown zero zero DNull DNull
  | _ =>
      let h := heap s in
      let sortedTrades :=
        deref h (sortBy (byExitDateAsc h) (closedTrades s)) in
      let a := fold_left drawdownStep sortedTrades initDrawdownLoop in
      let durationDays :=
        if truthyDate (maxDrawdownStartDate a)
           && truthyDate (maxDrawdownEndDate a)
        then floor ((dateNum (maxDrawdownEndDate a)
                     - dateNum (maxDrawdownStartDate a)) / msPerDay)
        else zero in
      mkMaxDrawdown (maxDrawdown a) durationDays (maxDrawdownStartDate a)
        (maxDrawdownEndDate a)
  end.

(** *** [getExpectancy] *)

(** [n || 1] for a length [n]. *)
Definition orOne (n : nat) : num :=
  match n with O => ofZ 1 | _ => count n end.

Definition getExpectancy (s : State) : num :=
  let closed := deref (heap s) (closedTrades s) in
  match closed with
  | [] => zero
  | _ =>
      let winRate := winRate (getTradeStatistics s) / ofZ 100 in
      let averageWin :=
        sumOf plOf (filter isProfitable closed)
        / orOne (List.length (filter isProfitable closed)) in
      let averageLoss :=
        sumOf (fun t => abs (plOf t)) (filter isLosing closed)
        / orOne (List.length (filter isLosing closed)) in
      winRate * averageWin - (ofZ 1 - winRate) * averageLoss
  end.

(** *** [getStreakInfo] *)

(** [currentStreak]: its [type] is ["none"], ["win"], ["loss"], or
    [null] ([None]). *)
Record Streak : Type := mkStreak {
  streakType : option string;
  streakCount : nat
}.

Record StreakInfo : Type := mkStreakInfo {
  currentStreak : Streak;
  longestWinStreak : nat;
  longestLossStreak : nat;
  averageWinStreak : num;
  averageLossStreak : num
}.

(** The variables of the loop. *)
Record StreakLoop : Type := mkStreakLoop {
  currentStreakType : option string;
  currentStreakCount : nat;
  l_longestWinStreak : nat;
  l_longestLossStreak : nat;
  winStreaks : list nat;
  lossStreaks : list nat
}.

Definition initStreakLoop : StreakLoop := mkStreakLoop None 0 0 0 [] [].

Definition streakStep (a : StreakLoop) (trade : Trade) : StreakLoop :=
  let isProfitable := plOf trade >? zero in
  let started := Some (if isProfitable then "win" else "loss")%string in
  match currentStreakType a with
  | None =>
      mkStreakLoop started 1 (l_longestWinStreak a) (l_longestLossStreak a)
        (winStreaks a) (lossStreaks a)
  | Some ty =>
      if (String.eqb ty "win" && isProfitable)
         || (String.eqb ty "loss" && negb isProfitable)
      then
        mkStreakLoop (currentStreakType a) (S (currentStreakCount a))
          (l_longestWinStreak a) (l_longestLossStreak a)
          (winStreaks a) (lossStreaks a)
      else if String.eqb ty "win" then
        mkStreakLoop started 1
          (Nat.max (l_longestWinStreak a) (currentStreakCount a))
          (l_longestLossStreak a)
          (winStreaks a ++ [currentStreakCount a]) (lossStreaks a)
      else
        mkStreakLoop started 1
          (l_longestWinStreak a)
          (Nat.max (l_longestLossStreak a) (currentStreakCount a))
          (winStreaks a) (lossStreaks a ++ [currentStreakCount a])
  end.

(** The final streak is recorded. *)
Definition finalStreak (a : StreakLoop) : StreakLoop :=
  if optStrEqb (currentStreakType a) (Some "win"%string) then
    mkStreakLoop (currentStreakType a) (currentStreakCount a)
      (Nat.max (l_longestWinStreak a) (currentStreakCount a))
      (l_longestLossStreak a)
      (winStreaks a ++ [currentStreakCount a]) (lossStreaks a)
  else if optStrEqb (currentStreakType a) (Some "loss"%string) then
    mkStreakLoop (currentStreakType a) (currentStreakCount a)
      (l_longestWinStreak a)
      (Nat.max (l_longestLossStreak a) (currentStreakCount a))
      (winStreaks a) (lossStreaks a ++ [currentStreakCount a])
  else a.

(** The average of the lengths of a list of streaks, [0] for none. *)
Definition averageStreak (streaks : list nat) : num :=
  if (0 <? List.length streaks)%nat
  then count (fold_left Nat.add streaks 0%nat) / count (List.length streaks)
  else zero.

Definition getStreakInfo (s : State) : StreakInfo :=
  match closedTrades s with
  | [] => mkStreakInfo (mkStreak (Some "none"%string) 0) 0 0 zero zero
  | _ =>
      let h := heap s in
      let sortedTrades :=
        deref h (sortBy (byExitDateAsc h) (closedTrades s)) in
      let a := finalStreak (fold_left streakStep sortedTrades initStreakLoop) in
      mkStreakInfo (mkStreak (currentStreakType a) (currentStreakCount a))
        (l_longestWinStreak a) (l_longestLossStreak a)
        (averageStreak (winStreaks a)) (averageStreak (lossStreaks a))
  end.

(** *** [getHoldingPeriodStats] *)

Record PeriodStats : Type := mkPeriodStats {
  ps_count : nat;
  ps_avgPL : num;
  ps_winRate : num
}.

Record HoldingPeriodStats : Type := mkHoldingPeriodStats {
  shortTerm : PeriodStats;
  mediumTerm : PeriodStats;
  longTerm : PeriodStats
}.

(** The days between the entry and the exit of a closed trade. *)
Definition holdingDaysOf (t : Trade) : num :=
  floor ((dateNum (exitDate t) - dateNum (entryDate t)) / msPerDay).

Definition calcStats (trades : list Trade) : PeriodStats :=
  match trades with
  | [] => mkPeriodStats 0 zero zero
  | _ =>
      mkPeriodStats (List.length trades)
        (sumOf plOf trades / count (List.length trades))
        (count (List.length (filter isProfitable trades))
         / count (List.length trades) * ofZ 100)
  end.

Definition getHoldingPeriodStats (s : State) : HoldingPeriodStats :=
  let closed := deref (heap s) (closedTrades s) in
  match closed with
  | [] =>
      mkHoldingPeriodStats (mkPeriodStats 0 zero zero)
        (mkPeriodStats 0 zero zero) (mkPeriodStats 0 zero zero)
  | _ =>
      mkHoldingPeriodStats
        (calcStats (filter (fun t => holdingDaysOf t <=? ofZ 7) closed))
        (calcStats
           (filter (fun t => (holdingDaysOf t >? ofZ 7)
                             && (holdingDaysOf t <=? ofZ 21)) closed))
        (calcStats (filter (fun t => holdingDaysOf t >? ofZ 21) closed))
  end.

(** *** [getPLDistributionData] *)

Definition binSize : num := ofZ 5.
Definition minBin : num := ofZ (-50).
Definition maxBin : num := ofZ 50.

(** [Math.ceil((maxBin - minBin) / binSize)]. *)
Definition numBins : nat := 20.

(** The bin of a trade: a whole number from [0] to [numBins - 1], or
    [NaN]. *)
Definition binIndex (trade : Trade) : num :=
  min (count (numBins - 1))
    (max zero (floor ((plOf trade - minBin) / binSize))).

(** [counts[i]++] on the array of [numBins] counts.  An index that is no
    whole number, or a negative one, names a property of the array that
    is none of its elements, and the counts are left as they are; this is
    the case of [NaN].  An index at or beyond the length of the array does
    not occur: [binIndex] is below [numBins]. *)
Fixpoint increment (counts : list nat) (i : nat) : list nat :=
  match counts, i with
  | [], _ => []
  | c :: rest, O => S c :: rest
  | c :: rest, S i' => c :: increment rest i'
  end.

Definition countAt (counts : list nat) (i : num) : list nat :=
  match i with
  | Fin q =>
      if Qeq_bool (inject_Z (Qfloor q)) q && (0 <=? Qfloor q)%Z
      then increment counts (Z.to_nat (Qfloor q))
      else counts
  | _ => counts
  end.

Record Distribution : Type := mkDistribution {
  bins : list num;
  counts : list nat
}.

Definition getPLDistributionData (s : State) : Distribution :=
  let closed := deref (heap s) (closedTrades s) in
  match closed with
  | [] => mkDistribution [] []
  | _ =>
      mkDistribution
        (map (fun i => minBin + count i * binSize) (seq 0 numBins))
        (fold_left (fun counts trade => countAt counts (binIndex trade))
           closed (repeat 0%nat numBins))
  end.

(** *** [getPerformanceByMarket] *)

(** An entry of [markets], and a row of the array returned. *)
Record Market : Type := mkMarket {
  m_name : string;
  m_currency : string;
  m_trades : nat;
  m_totalPL : num;
  m_wins : nat;
  m_losses : nat
}.

Record MarketRow : Type := mkMarketRow {
  market : Market;
  row_avgPL : num;
  row_winRate : num;
  row_percentage : num
}.

(** The name of the market of a currency. *)
Definition marketNameOf (currency : string) : string :=
  if String.eqb currency "$" then "US Market"
  else if String.eqb currency poundSign then "UK Market"
  else if String.eqb currency rupeeSign then "India Market"
  else "Other".

(** [trade.currencySymbol || CURRENCY_SYMBOL]. *)
Definition currencyOf (CURRENCY_SYMBOL : string) (trade : Trade) : string :=
  match currencySymbol trade with
  | Some c => if truthyStr c then c else CURRENCY_SYMBOL
  | None => CURRENCY_SYMBOL
  end.

(** The trade counted in an entry. *)
Definition countTrade (m : Market) (trade : Trade) : Market :=
  mkMarket (m_name m) (m_currency m) (S (m_trades m))
    (m_totalPL m + plOf trade)
    (if plOf trade >? zero then S (m_wins m) else m_wins m)
    (if plOf trade >? zero then m_losses m else S (m_losses m)).

(** The entry of name [name] updated, in an object whose keys are in
    order of creation; a new entry is created at the end. *)
Fixpoint countIn (markets : list Market) (name currency : string)
  (trade : Trade) : list Market :=
  match markets with
  | [] => [countTrade (mkMarket name currency 0 zero 0 0) trade]
  | m :: rest =>
      if String.eqb (m_name m) name then countTrade m trade :: rest
      else m :: countIn rest name currency trade
  end.

Definition marketStep (CURRENCY_SYMBOL : string) (markets : list Market)
  (trade : Trade) : list Market :=
  let currency := currencyOf CURRENCY_SYMBOL trade in
  countIn markets (marketNameOf currency) currency trade.

Definition getPerformanceByMarket (CURRENCY_SYMBOL : string) (s : State)
  : list MarketRow :=
  let closed := deref (heap s) (closedTrades s) in
  match closed with
  | [] => []
  | _ =>
      map (fun m =>
             mkMarketRow m
               (if (0 <? m_trades m)%nat
                then m_totalPL m / count (m_trades m) else zero)
               (if (0 <? m_trades m)%nat
                then count (m_wins m) / count (m_trades m) * ofZ 100
                else zero)
               (count (m_trades m) / count (List.length closed) * ofZ 100))
        (fold_left (marketStep CURRENCY_SYMBOL) closed [])
  end.

End Statistics.

(* ================================================================== *)
(** ** Editing a trade and loading the ledger *)
(* ================================================================== *)

Module Maintenance.

Import Ledger.
Local Open Scope js_scope.

(** *** [editTrade] *)

(** The [updatedData] argument of [editTrade]; a field that is absent is
    [Undef], [DUndef] or [None]. *)
Record UpdatedData : Type := mkUpdatedData {
  u_entryPrice : jsv;
  u_stopLossPrice : jsv;
  u_targetPrice : jsv;
  u_squareOffDate : jsdate;
  u_notes : option string
}.

(** [x !== undefined]. *)
Definition given (v : jsv) : bool :=
  match v with Undef => false | _ => true end.

Definition givenDate (d : jsdate) : bool :=
  match d with DUndef => false | _ => true end.

(** The fields that [editTrade] assigns, replaced. *)
Definition setEdited (t : Trade) (ep cv sl tg slp tpp : jsv) (sq : jsdate)
  (plp plv : jsv) (nts : option string) : Trade :=
  mkTrade
    (id t) (status t) (stockName t) (symbol t) (entryDate t) ep
    (currentPrice t) (investmentAmount t) (shares t) cv sl tg slp tpp sq
    (holdingDays t) plp plv (currencySymbol t) nts (exitDate t)
    (exitPrice t) (exitReason t) (plPercent t) (plValue t).

(** The assignments made when [updatedData.entryPrice] is given. *)
Definition editEntryPrice (u : UpdatedData) (trade : Trade) : Trade :=
  if given (u_entryPrice u) then
    let entry := toNum (u_entryPrice u) in
    let price := toNum (currentPrice trade) in
    let sh := toNum (shares trade) in
    setEdited trade (u_entryPrice u) (Num (sh * price))
      (stopLossPrice trade) (targetPrice trade)
      (Num (if given (u_stopLossPrice u)
            then (entry - toNum (u_stopLossPrice u)) / entry * ofZ 100
            else (entry - toNum (stopLossPrice trade)) / entry * ofZ 100))
      (Num (if given (u_targetPrice u)
            then (toNum (u_targetPrice u) - entry) / entry * ofZ 100
            else (toNum (targetPrice trade) - entry) / entry * ofZ 100))
      (squareOffDate trade)
      (Num ((price - entry) / entry * ofZ 100))
      (Num (sh * price - sh * entry))
      (notes trade)
  else trade.

(** The assignments made when [updatedData.stopLossPrice] is given. *)
Definition editStopLoss (u : UpdatedData) (trade : Trade) : Trade :=
  if given (u_stopLossPrice u) then
    setEdited trade (entryPrice trade) (currentValue trade)
      (u_stopLossPrice u) (targetPrice trade)
      (Num ((toNum (entryPrice trade) - toNum (u_stopLossPrice u))
            / toNum (entryPrice trade) * ofZ 100))
      (takeProfitPercent trade) (squareOffDate trade)
      (currentPLPercent trade) (currentPLValue trade) (notes trade)
  else trade.

(** The assignments made when [updatedData.targetPrice] is given. *)
Definition editTarget (u : UpdatedData) (trade : Trade) : Trade :=
  if given (u_targetPrice u) then
    setEdited trade (entryPrice trade) (currentValue trade)
      (stopLossPrice trade) (u_targetPrice u)
      (stopLossPercent trade)
      (Num ((toNum (u_targetPrice u) - toNum (entryPrice trade))
            / toNum (entryPrice trade) * ofZ 100))
      (squareOffDate trade)
      (currentPLPercent trade) (currentPLValue trade) (notes trade)
  else trade.

Section Host.

(** [Date_new s] is the time value of [new Date(s)], and
    [Date_toISOString t] the text of a valid date in a JSON document. *)
Variable Date_new : string -> num.
Variable Date_toISOString : num -> string.

(** The assignments of [squareOffDate] and of [notes]. *)
Definition editSquareOffDate (u : UpdatedData) (trade : Trade) : Trade :=
  if givenDate (u_squareOffDate u) then
    setEdited trade (entryPrice trade) (currentValue trade)
      (stopLossPrice trade) (targetPrice trade) (stopLossPercent trade)
      (takeProfitPercent trade)
      (DObj (newDate Date_new (u_squareOffDate u)))
      (currentPLPercent trade) (currentPLValue trade) (notes trade)
  else trade.

Definition editNotes (u : UpdatedData) (trade : Trade) : Trade :=
  match u_notes u with
  | Some _ =>
      setEdited trade (entryPrice trade) (currentValue trade)
        (stopLossPrice trade) (targetPrice trade) (stopLossPercent trade)
        (takeProfitPercent trade) (squareOffDate trade)
        (currentPLPercent trade) (currentPLValue trade) (u_notes u)
  | None => trade
  end.

(** The trade object after the assignments of [editTrade]. *)
Definition edited (u : UpdatedData) (trade : Trade) : Trade :=
  editNotes u
    (editSquareOffDate u
       (editTarget u (editStopLoss u (editEntryPrice u trade)))).

(** [editTrade].  [ok] tells whether the write to the storage of
    [editTrade] itself succeeds, and [ok'] whether the write of
    [updateTradeStatus] does, if it closes the trade. *)
Definition editTrade (now : num) (ok ok' : bool) (tradeId : option string)
  (updatedData : UpdatedData) (s : State) : State * bool :=
  match findById (heap s) tradeId (activeTrades s) with
  | None => (s, false)
  | Some r =>
      let h := upd (heap s) r (edited updatedData (get (heap s) r)) in
      let all :=
        match findIndexById h tradeId (allTrades s) with
        | Some allTradeIndex => setNth (allTrades s) allTradeIndex r
        | None => allTrades s
        end in
      let s' :=
        fst (saveTradestoStorage ok
               (mkState h all (activeTrades s) (closedTrades s)
                  (equityCurveData s) (drawdownData s))) in
      (updateTradeStatus now ok' r s', true)
  end.

(** *** [loadTradesFromStorage] *)

(** The value that [saveTradestoStorage] writes, as [JSON.parse] reads it
    back: the trades of [allTrades] after [JSON.stringify]. *)
Definition storedTrades (s : State) : list Trade :=
  map (jsonTrade Date_toISOString) (deref (heap s) (allTrades s)).

(** The dates of a trade read from the storage, made [Date] objects. *)
Definition loadDates (trade : Trade) : Trade :=
  setDates trade
    (DObj (newDate Date_new (entryDate trade)))
    (DObj (newDate Date_new (squareOffDate trade)))
    (if truthyDate (exitDate trade)
     then DObj (newDate Date_new (exitDate trade))
     else exitDate trade).

(** Active trades first; within the active trades and within the others,
    by entry date, newest first. *)
Definition byStatusThenEntryDate (h : list Trade) (a b : nat) : num :=
  let ta := get h a in
  let tb := get h b in
  if isActive ta && negb (isActive tb) then ofZ (-1)
  else if negb (isActive ta) && isActive tb then ofZ 1
  else dateNum (entryDate tb) - dateNum (entryDate ta).

(** [loadTradesFromStorage].  [stored] is [None] when the storage holds
    no text under the key (or an empty one), [Some None] when the text
    does not parse to an array of trade objects, and [Some (Some trades)]
    when it parses to the array [trades]. *)
Definition loadTradesFromStorage (stored : option (option (list Trade)))
  (s : State) : State :=
  match stored with
  | None => s
  | Some None =>
      mkState (heap s) [] [] [] (equityCurveData s) (drawdownData s)
  | Some (Some trades) =>
      let h := heap s ++ map loadDates trades in
      let all :=
        sortBy (byStatusThenEntryDate h)
          (seq (List.length (heap s)) (List.length trades)) in
      mkState h all
        (filter (fun r => isActive (get h r)) all)
        (filter (fun r => negb (isActive (get h r))) all)
        (equityCurveData s) (drawdownData s)
  end.

End Host.

End Maintenance.

(* ================================================================== *)
(** ** The arithmetic of the ledger in binary64 *)
(* ================================================================== *)

(** The numbers of the program are binary64 floating-point numbers, and
    every operation on them is rounded.  The embedding above computes
    with exact rationals, so that an equation between two of its numbers
    that rests on the laws of exact arithmetic (a product distributed over
    a difference, a factor cancelled) need not hold of the values that the
    program computes.  For the expressions of the ledger of which such an
    equation is asked, this module gives the expression once, over the
    operations that it uses, and the two arithmetics in which it is
    evaluated: the exact one of the embedding, and binary64, with the
    floating-point operations of the kernel.  A third arithmetic, the
    rationals with a rounding after every operation, serves to bound the
    distance between the two. *)

Module Arithmetic.

(** The operations of the expressions below. *)
Record Ops : Type := mkOps {
  number : Type;
  minus : number -> number -> number;
  times : number -> number -> number;
  over : number -> number -> number;
  floorOf : number -> number;
  hundred : number
}.

Arguments minus A : rename.
Arguments times A : rename.
Arguments over A : rename.
Arguments floorOf A : rename.
Arguments hundred A : rename.

(** The exact arithmetic of the embedding. *)
Definition exact : Ops :=
  mkOps num JsNum.sub JsNum.mul JsNum.div JsNum.floor (ofZ 100).

Import PrimFloat.

(** [Math.floor] on a binary64 number.  A number of size [2^52] or more,
    an infinity and [NaN] are left as they are.  For a smaller number,
    adding and subtracting [2^52] rounds its size to a whole number [r],
    to the nearest one; the floor is [r] or its neighbour. *)
Definition floor64 (x : PrimFloat.float) : PrimFloat.float :=
  let two52 := 0x1p52%float in
  if PrimFloat.ltb (PrimFloat.abs x) two52 then
    if PrimFloat.leb 0%float x then
      let r := PrimFloat.sub (PrimFloat.add x two52) two52 in
      if PrimFloat.ltb x r then PrimFloat.sub r 1%float
      else if PrimFloat.ltb r x then r else x
    else
      let a := PrimFloat.opp x in
      let r := PrimFloat.sub (PrimFloat.add a two52) two52 in
      PrimFloat.opp (if PrimFloat.ltb r a then PrimFloat.add r 1%float else r)
  else x.

(** Binary64, as the program computes. *)
Definition binary64 : Ops :=
  mkOps PrimFloat.float PrimFloat.sub PrimFloat.mul PrimFloat.div floor64
    100%float.

(** An arithmetic on the rationals in which the result of every operation
    is rounded by [rnd]; and the condition that [rnd] rounds the number
    [x] with a relative error of at most [u], as binary64 does with
    [u = 2^-53] where the rounded result neither overflows nor underflows.
    Overflow, division by zero and the special values are outside this
    arithmetic. *)
Definition rounded (rnd : Q -> Q) : Ops :=
  mkOps Q (fun a b => rnd (a - b)%Q) (fun a b => rnd (a * b)%Q)
    (fun a b => rnd (a / b)%Q) (fun a => inject_Z (Qfloor a)) (100 # 1).

Definition roundsWithin (u : Q) (rnd : Q -> Q) (x : Q) : Prop :=
  (Qabs (rnd x - x) <= u * Qabs x)%Q.

(** [x === y] on two binary64 numbers. *)
Definition same64 (x y : PrimFloat.float) : bool := PrimFloat.eqb x y.

Section Expressions.

Variable A : Ops.

(** [addNewTrade]: the [shares] and the [currentValue] of the new trade,
    [investmentAmount / entryPrice] and
    [Math.floor(investmentAmount / entryPrice) * entryPrice]. *)
Definition newTradeShares (investmentAmount entryPrice : number A)
  : number A :=
  over A investmentAmount entryPrice.

Definition newTradeCurrentValue (investmentAmount entryPrice : number A)
  : number A :=
  times A (floorOf A (over A investmentAmount entryPrice)) entryPrice.

(** [updateTradeStatus]: the [currentValue], [shares * currentPrice]. *)
Definition updatedCurrentValue (shares currentPrice : number A) : number A :=
  times A shares currentPrice.

(** [closeTrade] and [closeTradeAutomatically]: the [plPercent] and the
    [plValue] of the closed trade,
    [((exitPrice - entryPrice) / entryPrice) * 100] and
    [(shares * exitPrice) - (shares * entryPrice)]. *)
Definition closedPLPercent (exitPrice entryPrice : number A) : number A :=
  times A (over A (minus A exitPrice entryPrice) entryPrice) (hundred A).

Definition closedPLValue (shares exitPrice entryPrice : number A)
  : number A :=
  minus A (times A shares exitPrice) (times A shares entryPrice).

(** The profit of a closed trade as the specification writes it,
    [shares * (exitPrice - entryPrice)]. *)
Definition statedPLValue (shares exitPrice entryPrice : number A)
  : number A :=
  times A shares (minus A exitPrice entryPrice).

End Expressions.

End Arithmetic.

(* ================================================================== *)
(** ** Predicates used to state the properties *)
(* ================================================================== *)

Module Spec.

Import Backtest.

(** Step [i] lies between the two ends of a weekly period. *)
Definition contains (pd : Period) (i : nat) : Prop :=
  (startIndex pd <= i)%nat /\ (i <= endIndex pd)%nat.

(** [periodOf sd i p]: period [p] of the weekly data is the period that
    contains step [i].  The periods of a series do not overlap; if they
    did, the period of a step would be the first one that contains it. *)
Definition periodOf (sd : SevenDayDTIData) (i p : nat) : Prop :=
  (exists pd, nth_error (sevenDayData sd) p = Some pd /\ contains pd i)
  /\ forall q pd, (q < p)%nat ->
       nth_error (sevenDayData sd) q = Some pd -> ~ contains pd i.

(** The weekly oscillator of period [p], and the daily projection of the
    weekly oscillator at step [i], as the indicator feed supplies them; a
    value that the feed does not supply is [undefined], which compares as
    [NaN]. *)
Definition weeklyOscillator (sd : SevenDayDTIData) (p : nat) : num :=
  toNumber (nth_error (sevenDayDTI sd) p).

Definition dailyProjection (sd : SevenDayDTIData) (i : nat) : num :=
  toNumber (nth_error (daily7DayDTI sd) i).

(** The weekly condition of an entry, in the words of the specification:
    when the weekly filter is enabled and a period precedes the period
    that contains step [i], the weekly oscillator of the period that
    contains [i] exceeds that of the preceding period. *)
Definition weeklyOscillatorImproving (pg : Page) (sd : SevenDayDTIData)
  (i : nat) : Prop :=
  enable_weekly_dti pg = true ->
  forall p, periodOf sd i (S p) ->
    gt (weeklyOscillator sd (S p)) (weeklyOscillator sd p) = true.

(** The same condition on the daily projection of the weekly oscillator:
    the projection at step [i] exceeds the weekly oscillator of the period
    that precedes the period of [i]. *)
Definition dailyProjectionImproving (pg : Page) (sd : SevenDayDTIData)
  (i : nat) : Prop :=
  enable_weekly_dti pg = true ->
  forall p, periodOf sd i (S p) ->
    gt (dailyProjection sd i) (weeklyOscillator sd p) = true.

(** The daily projection at step [i] is the weekly oscillator of the
    period that contains [i]. *)
Definition projectionAgrees (sd : SevenDayDTIData) (i : nat) : Prop :=
  forall p, periodOf sd i p -> dailyProjection sd i = weeklyOscillator sd p.

(** The dates of a series are in time order. *)
Definition datesNonDecreasing (Date_new : string -> num)
  (dates : list string) : Prop :=
  forall i j, (i <= j)%nat -> (j < List.length dates)%nat ->
    le (Date_new (nth i dates EmptyString))
       (Date_new (nth j dates EmptyString)) = true.

Definition datesIncreasing (Date_new : string -> num)
  (dates : list string) : Prop :=
  forall i j, (i < j)%nat -> (j < List.length dates)%nat ->
    lt (Date_new (nth i dates EmptyString))
       (Date_new (nth j dates EmptyString)) = true.

(** [Placed dates ts hi]: the closed trades [ts] were entered and exited at
    indices of [dates] that increase along the list, each trade exiting
    after it was entered and before the next one is entered; [hi] is the
    index of the last exit. *)
Inductive Placed (dates : list string) : list Trade -> nat -> Prop :=
| Placed_nil : Placed dates [] 0
| Placed_snoc ts hi t a b :
    Placed dates ts hi ->
    (hi < a)%nat -> (a < b)%nat ->
    entryDate t = nth a dates EmptyString ->
    exitDate t = Some (nth b dates EmptyString) ->
    Placed dates (ts ++ [t]) b.

(** Inputs with a missing argument or with sequences of different
    lengths: [dates], [prices], [dti] or [sevenDayDTIData] is [null] or
    [undefined], or [prices] or [dti] has not the length of [dates]. *)
Definition rejectedInputs (dates : option (list string))
  (prices dti : option (list num)) (sd : option SevenDayDTIData) : Prop :=
  dates = None \/ prices = None \/ dti = None \/ sd = None
  \/ (exists ds ps, dates = Some ds /\ prices = Some ps
                    /\ List.length ds <> List.length ps)
  \/ (exists ds xs, dates = Some ds /\ dti = Some xs
                    /\ List.length ds <> List.length xs).

(** The label of the first condition that holds, in the order given:
    the one exit that an evaluator fires. *)
Definition firstSatisfied (conditions : list (bool * string))
  : option string :=
  option_map snd (find fst conditions).

(** The two cached series of the trade core are absent. *)
Definition noCache (s : Ledger.State) : Prop :=
  Ledger.equityCurveData s = None /\ Ledger.drawdownData s = None.

(** The trades of an array seen as values.  [replaceFirst i p vals]
    replaces by [p] the first trade of [vals] whose identifier is [i];
    [mergeValue] is the merge of one imported trade into the trades of
    [allTrades], and [sortValues] the stable sort of a list of trades. *)
Fixpoint replaceFirst (i : option string) (p : Ledger.Trade)
  (vals : list Ledger.Trade) : option (list Ledger.Trade) :=
  match vals with
  | [] => None
  | v :: rest =>
      if Ledger.optStrEqb (Ledger.id v) i then Some (p :: rest)
      else option_map (cons v) (replaceFirst i p rest)
  end.

Definition mergeValue (prepare : Ledger.Trade -> Ledger.Trade)
  (existing : list (option string)) (vals : list Ledger.Trade)
  (importedTrade : Ledger.Trade) : list Ledger.Trade :=
  let p := prepare importedTrade in
  if existsb (Ledger.optStrEqb (Ledger.id p)) existing then
    match replaceFirst (Ledger.id p) p vals with
    | Some vals' => vals'
    | None => vals ++ [p]
    end
  else vals ++ [p].

Fixpoint insertValue (cmp : Ledger.Trade -> Ledger.Trade -> num)
  (x : Ledger.Trade) (l : list Ledger.Trade) : list Ledger.Trade :=
  match l with
  | [] => [x]
  | y :: l' => if gt (cmp x y) zero then y :: insertValue cmp x l' else x :: l
  end.

Definition sortValues (cmp : Ledger.Trade -> Ledger.Trade -> num)
  (l : list Ledger.Trade) : list Ledger.Trade :=
  fold_right (insertValue cmp) [] l.

(** The comparison of [byStatusThenDate] on two trades. *)
Definition statusThenDate (ta tb : Ledger.Trade) : num :=
  if Ledger.isActive ta && negb (Ledger.isActive tb) then ofZ (-1)
  else if negb (Ledger.isActive ta) && Ledger.isActive tb then ofZ 1
  else if Ledger.isActive ta
       then sub (Ledger.dateNum (Ledger.entryDate tb))
                (Ledger.dateNum (Ledger.entryDate ta))
       else sub (Ledger.dateNum (Ledger.exitDate tb))
                (Ledger.dateNum (Ledger.exitDate ta)).

(** A list in which no trade has to move before its predecessor. *)
Fixpoint inOrder (cmp : Ledger.Trade -> Ledger.Trade -> num)
  (l : list Ledger.Trade) : Prop :=
  match l with
  | [] => True
  | x :: rest =>
      match rest with
      | [] => True
      | y :: _ => gt (cmp x y) zero = false
      end /\ inOrder cmp rest
  end.

(** A state whose arrays refer to objects of the store. *)
Definition validRefs (h : list Ledger.Trade) (l : list nat) : Prop :=
  Forall (fun r => (r < List.length h)%nat) l.

End Spec.

(* ================================================================== *)
(** ** Predicates on the results of a run *)
(* ================================================================== *)

Module Props.

Import Backtest.
Local Open Scope js_scope.

(** A completed trade of a run on [dates] and [prices] that was entered at
    bar [a] and exited at bar [b]: it holds the prices of the two bars, the
    date of the exit bar, the profit or loss between the two prices in
    percent, and one of the three exit reasons of the loop. *)
Definition exitRecorded (dates : list string) (prices : list num)
  (t : Trade) (a b : nat) : Prop :=
  entryDate t = nth a dates EmptyString
  /\ entryPrice t = nth a prices NaN
  /\ exitDate t = Some (nth b dates EmptyString)
  /\ exitPrice t = Some (nth b prices NaN)
  /\ plPercent t
     = Some ((nth b prices NaN - nth a prices NaN) / nth a prices NaN
             * ofZ 100)
  /\ (exitReason t = Some "Take Profit"%string
      \/ exitReason t = Some "Stop Loss"%string
      \/ exitReason t = Some "Time Exit"%string).

(** A trade none of whose exit fields is set. *)
Definition stillOpen (t : Trade) : Prop :=
  exitDate t = None /\ exitPrice t = None
  /\ plPercent t = None /\ exitReason t = None.

(** [1] for an open trade and [0] for none. *)
Definition openCount (o : option Trade) : nat :=
  match o with Some _ => 1 | None => 0 end.

(** [hasValue x q]: the number [x] is finite and its value is [q]. *)
Definition hasValue (x : num) (q : Q) : Prop :=
  match x with
  | Fin a => a == q
  | _ => False
  end.

(** A number whose fraction, if it is finite, is in lowest terms, as the
    results of the operations are. *)
Definition normal (x : num) : Prop :=
  match x with
  | Fin a => Qred a = a
  | _ => True
  end.

(** The value of a finite number, [0] for the others. *)
Definition valueOf (x : num) : Q :=
  match x with
  | Fin a => a
  | _ => 0
  end.

(** What the loop of [getStreakInfo] holds after trades of which [w]
    gained and [l] did not: the lengths of the recorded streaks and of the
    current one add up to [w] for the winning streaks and to [l] for the
    losing ones, the current streak has a trade, and a longest streak is
    one of those recorded. *)
Definition streaksAddUp (a : Statistics.StreakLoop) (w l : nat) : Prop :=
  match Statistics.currentStreakType a with
  | None =>
      w = 0%nat /\ l = 0%nat
      /\ Statistics.winStreaks a = [] /\ Statistics.lossStreaks a = []
  | Some ty =>
      (1 <= Statistics.currentStreakCount a)%nat
      /\ ((ty = "win"%string
           /\ (list_sum (Statistics.winStreaks a)
               + Statistics.currentStreakCount a = w)%nat
           /\ list_sum (Statistics.lossStreaks a) = l)
          \/ (ty = "loss"%string
              /\ list_sum (Statistics.winStreaks a) = w
              /\ (list_sum (Statistics.lossStreaks a)
                  + Statistics.currentStreakCount a = l)%nat))
  end
  /\ (Statistics.l_longestWinStreak a
      <= list_sum (Statistics.winStreaks a))%nat
  /\ (Statistics.l_longestLossStreak a
      <= list_sum (Statistics.lossStreaks a))%nat.

(** The identifiers of the trades of an array. *)
Definition idsOf (h : list Ledger.Trade) (l : list nat)
  : list (option string) :=
  map (fun r => Ledger.id (Ledger.get h r)) l.

(** A consistent ledger: the trades of [allTrades] are objects of the
    store with different identifiers, [activeTrades] and [closedTrades]
    share them out, and a trade is in [activeTrades] when its status is
    ["active"] and in [closedTrades] otherwise. *)
Definition consistent (s : Ledger.State) : Prop :=
  Spec.validRefs (Ledger.heap s) (Ledger.allTrades s)
  /\ NoDup (idsOf (Ledger.heap s) (Ledger.allTrades s))
  /\ Permutation (Ledger.activeTrades s ++ Ledger.closedTrades s)
       (Ledger.allTrades s)
  /\ Forall (fun r => Ledger.isActive (Ledger.get (Ledger.heap s) r) = true)
       (Ledger.activeTrades s)
  /\ Forall (fun r => Ledger.isActive (Ledger.get (Ledger.heap s) r) = false)
       (Ledger.closedTrades s).

(** A field that [JSON.stringify] and [JSON.parse] give back as it is: a
    number that is finite, [null], or an absent field. *)
Definition storableNum (v : Ledger.jsv) : Prop :=
  match v with
  | Ledger.Num x => isFinite x = true
  | _ => True
  end.

(** A date that the storage gives back: a valid [Date] whose text in a
    document is not empty and is read by [new Date] as the same date. *)
Definition storableDate (Date_new : string -> num)
  (Date_toISOString : num -> string) (d : Ledger.jsdate) : Prop :=
  match d with
  | Ledger.DObj x =>
      isFinite x = true
      /\ truthyStr (Date_toISOString x) = true
      /\ Date_new (Date_toISOString x) = x
  | _ => False
  end.

(** A trade that the storage gives back as it is: its entry date and
    square-off date are storable dates, its exit date is one or is absent,
    and its numbers are storable. *)
Definition storable (Date_new : string -> num)
  (Date_toISOString : num -> string) (t : Ledger.Trade) : Prop :=
  storableDate Date_new Date_toISOString (Ledger.entryDate t)
  /\ storableDate Date_new Date_toISOString (Ledger.squareOffDate t)
  /\ (Ledger.exitDate t = Ledger.DUndef
      \/ storableDate Date_new Date_toISOString (Ledger.exitDate t))
  /\ Forall storableNum
       [Ledger.entryPrice t; Ledger.currentPrice t;
        Ledger.investmentAmount t; Ledger.shares t; Ledger.currentValue t;
        Ledger.stopLossPrice t; Ledger.targetPrice t;
        Ledger.stopLossPercent t; Ledger.takeProfitPercent t;
        Ledger.holdingDays t; Ledger.currentPLPercent t;
        Ledger.currentPLValue t; Ledger.exitPrice t; Ledger.plPercent t;
        Ledger.plValue t].

End Props.

(* ================================================================== *)
(** ** Example data *)
(* ================================================================== *)

Module Examples.

Import Backtest.
Local Open Scope string_scope.

(** The host on the dates of the examples: the time values of the
    date-only strings (read as UTC), and [setMonth(getMonth() + 6)] on
    2 January 2023, which gives 2 July 2023, 181 days later. *)
Definition exCalendar : list (string * Z) :=
  [ ("2023-01-02", 1672617600000); ("2024-01-02", 1704153600000);
    ("2024-01-03", 1704240000000); ("2024-01-04", 1704326400000);
    ("2024-01-05", 1704412800000); ("2024-01-06", 1704499200000);
    ("2024-01-07", 1704585600000); ("2024-01-08", 1704672000000);
    ("2024-01-09", 1704758400000); ("2024-01-10", 1704844800000);
    ("2024-01-11", 1704931200000); ("2024-01-12", 1705017600000);
    ("2024-01-13", 1705104000000) ]%string%Z.

Definition exDate_new (s : string) : num :=
  match find (fun p => String.eqb (fst p) s) exCalendar with
  | Some p => ofZ (snd p)
  | None => NaN
  end.

Definition exSetMonthPlus6 (t : num) : num := add t (ofZ 15638400000).

(** A series of eleven days: the indicator dips and improves on the odd
    days, and the price gains ten percent on the even days. *)
Definition exDates : list string :=
  [ "2023-01-02"; "2024-01-02"; "2024-01-03"; "2024-01-04"; "2024-01-05";
    "2024-01-06"; "2024-01-07"; "2024-01-08"; "2024-01-09"; "2024-01-10";
    "2024-01-11" ]%string.

Definition exPrices : list num :=
  map ofZ [100; 100; 110; 100; 110; 100; 110; 100; 110; 100; 110]%Z.

Definition exDti : list num :=
  map ofZ [-60; -50; -70; -50; -70; -50; -70; -50; -70; -50; -70]%Z.

Definition exSevenDay : SevenDayDTIData :=
  mkSevenDay (map ofZ [-60; -50; -50; -50; -50; -50; -50; -50; -40; -40; -40]%Z)
             [mkPeriod 0 0; mkPeriod 1 7; mkPeriod 8 10]
             (map ofZ [-60; -50; -40]%Z).

(** The same weekly data with a daily projection that does not follow the
    periods: on day 1, which lies in the second period, it holds -70, and
    the weekly oscillator of that period is -50. *)
Definition exSevenDayStale : SevenDayDTIData :=
  mkSevenDay (map ofZ [-60; -70; -50; -50; -50; -50; -50; -50; -40; -40; -40]%Z)
             [mkPeriod 0 0; mkPeriod 1 7; mkPeriod 8 10]
             (map ofZ [-60; -50; -40]%Z).

Definition exPage : Page :=
  mkPage (ofZ (-40)) (ofZ 5) (ofZ 3) (ofZ 30) true.

(** The same page with a take-profit input that holds no number. *)
Definition exPageNaN : Page :=
  mkPage (ofZ (-40)) NaN (ofZ 3) (ofZ 30) true.

(** A series of thirteen days for the parameter search: five trades that
    gain ten percent and a sixth that loses five percent; an indicator
    module that yields the same indicator for every choice of periods; and
    a grid of one combination. *)
Definition exDates13 : list string :=
  exDates ++ [ "2024-01-12"; "2024-01-13" ]%string.

Definition exClose13 : list num :=
  map ofZ [100; 100; 110; 100; 110; 100; 110; 100; 110; 100; 110; 100; 95]%Z.

Definition exDti13 : list num :=
  map ofZ [-60; -50; -70; -50; -70; -50; -70; -50; -70; -50; -70; -50; -70]%Z.

Definition exSevenDay13 : SevenDayDTIData :=
  mkSevenDay
    (map ofZ [-60; -50; -50; -50; -50; -50; -50; -50; -40; -40; -40; -40;
              -40]%Z)
    [mkPeriod 0 0; mkPeriod 1 7; mkPeriod 8 12]
    (map ofZ [-60; -50; -40]%Z).

Definition exCalculateDTI (high low : list num) (r s u : num) : list num :=
  exDti13.

Definition exCalculate7DayDTI (dates : list string) (high low : list num)
  (r s u : num) : SevenDayDTIData :=
  exSevenDay13.

Definition exRanges : Optimizer.Ranges :=
  Optimizer.mkRanges [ofZ 14] [ofZ 10] [ofZ 5] [ofZ (-40)] [ofZ 5] [ofZ 3]
    [ofZ 30].

Definition exParams : Optimizer.Params :=
  Optimizer.mkParams (ofZ 14) (ofZ 10) (ofZ 5) (ofZ (-40)) (ofZ 5) (ofZ 3)
    (ofZ 30).

(** A page whose take-profit and stop-loss are both zero, and the loop
    with a trade open that was entered at 100. *)
Definition exPageZero : Page :=
  mkPage (ofZ (-40)) (ofZ 0) (ofZ 0) (ofZ 30) true.

Definition exOpenTrade : Trade :=
  mkTrade "2024-01-02" (ofZ 100) (ofZ 100) (ofZ (-50)) (Some (ofZ (-50)))
    zero zero (ofZ 1704153600000) None None None None.

Definition exOpenLoop : Loop := mkLoop [] (Some exOpenTrade) false.

(** A ledger with one active trade, entered at 100 on 2 January 2024 for
    1000, whose stop-loss price and target price are both 100. *)
Definition exActive : Ledger.Trade :=
  Ledger.mkTrade (Some "trade_1") (Some "active") (Some "Acme")
    (Some "ACME") (Ledger.DObj (ofZ 1704153600000))
    (Ledger.Num (ofZ 100)) (Ledger.Num (ofZ 100)) (Ledger.Num (ofZ 1000))
    (Ledger.Num (ofZ 10)) (Ledger.Num (ofZ 1000))
    (Ledger.Num (ofZ 100)) (Ledger.Num (ofZ 100))
    (Ledger.Num (ofZ 0)) (Ledger.Num (ofZ 0))
    (Ledger.DObj (ofZ 1705104000000))
    (Ledger.Num zero) (Ledger.Num zero) (Ledger.Num zero)
    (Some "$") (Some "")
    Ledger.DUndef Ledger.Undef None Ledger.Undef Ledger.Undef.

Definition exLedger : Ledger.State :=
  Ledger.mkState [exActive] [0%nat] [0%nat] [] None None.

(** The time value of 3 January 2024. *)
Definition exNow : num := ofZ 1704240000000.

(** A new trade of 1000 at an entry price of 300: three shares and a
    third. *)
Definition exTradeData : Ledger.TradeData :=
  Ledger.mkTradeData (Some "Acme") (Some "ACME") Ledger.DUndef
    (Ledger.Num (ofZ 300)) (Ledger.Num (ofZ 1000))
    (Ledger.Num (ofZ 285)) (Ledger.Num (ofZ 330))
    (Ledger.Num (ofZ 5)) (Ledger.Num (ofZ 10))
    (Ledger.DStr "2024-01-13") None None.

(** An import document with one closed trade: ten shares entered at 100
    and exited at 110, recorded with a profit of zero. *)
Definition exImported : Ledger.Trade :=
  Ledger.mkTrade (Some "trade_9") (Some "closed") (Some "Bolt")
    (Some "BOLT.L") (Ledger.DStr "2024-01-02")
    (Ledger.Num (ofZ 100)) (Ledger.Num (ofZ 110)) (Ledger.Num (ofZ 1000))
    (Ledger.Num (ofZ 10)) (Ledger.Num (ofZ 1100))
    (Ledger.Num (ofZ 95)) (Ledger.Num (ofZ 120))
    (Ledger.Num (ofZ 5)) (Ledger.Num (ofZ 20))
    (Ledger.DStr "2024-01-13")
    (Ledger.Num (ofZ 3)) (Ledger.Num zero) (Ledger.Num zero)
    None (Some "")
    (Ledger.DStr "2024-01-05") (Ledger.Num (ofZ 110)) (Some "Manual")
    (Ledger.Num zero) (Ledger.Num zero).

Definition exDocument : Ledger.Document :=
  Ledger.mkDocument
    (Some (Ledger.mkMetadata (Some "1.0.0") (Some "2024-01-06") 1 0 1))
    (Some [exImported]).

Definition exNewIds (k : nat) : string := "trade_new".

(** A closed trade: ten shares entered at 100 on 2 January 2024 and
    exited at 110 on 5 January, a profit of 100; and the ledger that holds
    the active trade and this closed one. *)
Definition exClosed : Ledger.Trade :=
  Ledger.mkTrade (Some "trade_0") (Some "closed") (Some "Bolt")
    (Some "BOLT.L") (Ledger.DObj (ofZ 1704153600000))
    (Ledger.Num (ofZ 100)) (Ledger.Num (ofZ 110)) (Ledger.Num (ofZ 1000))
    (Ledger.Num (ofZ 10)) (Ledger.Num (ofZ 1100))
    (Ledger.Num (ofZ 95)) (Ledger.Num (ofZ 120))
    (Ledger.Num (ofZ 5)) (Ledger.Num (ofZ 20))
    (Ledger.DObj (ofZ 1705104000000))
    (Ledger.Num (ofZ 3)) (Ledger.Num (ofZ 10)) (Ledger.Num (ofZ 100))
    (Some Ledger.poundSign) (Some "")
    (Ledger.DObj (ofZ 1704412800000)) (Ledger.Num (ofZ 110))
    (Some "Target Reached")
    (Ledger.Num (ofZ 10)) (Ledger.Num (ofZ 100)).

Definition exLedger2 : Ledger.State :=
  Ledger.mkState [exActive; exClosed] [0; 1]%nat [0%nat] [1%nat] None None.

(** The time value of 6 January 2024. *)
Definition exLater : num := ofZ 1704499200000.

(** The text of a date of the examples in a document. *)
Definition exDate_toISOString (t : num) : string :=
  match find (fun p => eqb (ofZ (snd p)) t) exCalendar with
  | Some p => fst p
  | None => ""
  end.

(** A second active trade, entered on 4 January 2024, and a ledger in
    which the two active trades were added one after the other:
    [allTrades] is in order of creation and [activeTrades] is sorted,
    newest first. *)
Definition exActive2 : Ledger.Trade :=
  Ledger.mkTrade (Some "trade_2") (Some "active") (Some "Bolt")
    (Some "BOLT.L") (Ledger.DObj (ofZ 1704326400000))
    (Ledger.Num (ofZ 50)) (Ledger.Num (ofZ 50)) (Ledger.Num (ofZ 500))
    (Ledger.Num (ofZ 10)) (Ledger.Num (ofZ 500))
    (Ledger.Num (ofZ 45)) (Ledger.Num (ofZ 60))
    (Ledger.Num (ofZ 10)) (Ledger.Num (ofZ 20))
    (Ledger.DObj (ofZ 1705104000000))
    (Ledger.Num zero) (Ledger.Num zero) (Ledger.Num zero)
    (Some Ledger.poundSign) (Some "")
    Ledger.DUndef Ledger.Undef None Ledger.Undef Ledger.Undef.

Definition exLedger3 : Ledger.State :=
  Ledger.mkState [exActive; exActive2] [0; 1]%nat [1; 0]%nat [] None None.

(** [Math.pow] and [Math.sqrt] on the arguments of the examples: a power
    of exponent 1 or 2 is exact; the 365th root of 1.02 and the square
    root of 252 are given to six decimal places. *)
Definition exMath_pow (x y : num) : num :=
  if eqb y (ofZ 1) then x
  else if eqb y (ofZ 2) then mul x x
  else if eqb x (Fin (51 # 50)) && eqb y (Fin (1 # 365))
       then Fin (1000054 # 1000000)
  else NaN.

Definition exMath_sqrt (x : num) : num :=
  if eqb x zero then zero
  else if eqb x (ofZ 252) then Fin (15874508 # 1000000)
  else NaN.

(** A ledger whose only closed trade gained ten percent in one day. *)
Definition exClosedOneDay : Ledger.Trade :=
  Ledger.setDates exClosed (Ledger.DObj (ofZ 1704326400000))
    (Ledger.squareOffDate exClosed) (Ledger.exitDate exClosed).

Definition exLedgerOneClosed : Ledger.State :=
  Ledger.mkState [exClosedOneDay] [0%nat] [] [0%nat] None None.

(** The time value of 8 January 2024. *)
Definition exLater2 : num := ofZ 1704672000000.

(** An edit of the active trade: a new entry price of 90 and a new target
    price of 108, the stop-loss price left as it is. *)
Definition exUpdatedData : Maintenance.UpdatedData :=
  Maintenance.mkUpdatedData (Ledger.Num (ofZ 90)) Ledger.Undef
    (Ledger.Num (ofZ 108)) Ledger.DUndef None.

End Examples.

(* ================================================================== *)
(** * Properties *)
(* ================================================================== *)

(** ** Facts on numbers *)

Section NumFacts.

Lemma le_trans (x y z : num) :
  le x y = true -> le y z = true -> le x z = true.
Proof.
  destruct x as [| | |a], y as [| | |b], z as [| | |c];
    simpl; try discriminate; auto.
  intros H1 H2. apply Qle_bool_iff in H1, H2. apply Qle_bool_iff.
  eapply Qle_trans; eauto.
Qed.

(** A comparison with [NaN] is false. *)
Lemma gt_NaN_r (x : num) : gt x NaN = false.
Proof. destruct x; reflexivity. Qed.

End NumFacts.

(** ** The backtest loop *)

Section BacktestFacts.

Import Backtest Spec.

Variable Date_new : string -> num.
Variable setMonthPlus6 : num -> num.
Variable pg : Page.
Variable dates : list string.
Variables prices dti : list num.
Variable sd : SevenDayDTIData.

Local Notation "'loopAt'" :=
  (loopUpTo Date_new setMonthPlus6 pg dates prices dti sd).
Local Notation "'stepAt'" :=
  (step Date_new setMonthPlus6 pg dates prices dti sd).

Lemma loopUpTo_S (k : nat) : loopAt (S k) = stepAt (loopAt k) (S k).
Proof.
  unfold loopUpTo. rewrite seq_S, fold_left_app. reflexivity.
Qed.

(** Whenever no trade is open, either no trade was completed yet or the
    flag [previousTradeCompleted] is set: the fourth entry condition holds
    on every state the loop reaches. *)
Lemma flag_invariant (k : nat) :
  activeTrade (loopAt k) = None ->
  completedTrades (loopAt k) = [] \/ previousTradeCompleted (loopAt k) = true.
Proof.
  induction k as [|k IH].
  - intros _. left. reflexivity.
  - rewrite loopUpTo_S. unfold step.
    destruct (activeTrade (loopAt k)) as [t|] eqn:A.
    + repeat match goal with
             | |- context [if ?c then _ else _] => destruct c
             end; simpl; intros H; auto; discriminate.
    + destruct (entryConditions _ _ _ _ _ _ _ _); simpl; intros H.
      * discriminate.
      * auto.
Qed.


(** The inner loop over the periods finds the period of the step. *)
Lemma findPeriodFrom_spec (ps : list Period) (p0 i p : nat) :
  findPeriodFrom ps p0 i = Some p <->
  (p0 <= p)%nat
  /\ (exists pd, nth_error ps (p - p0) = Some pd /\ contains pd i)
  /\ forall q pd, (q < p - p0)%nat ->
       nth_error ps q = Some pd -> ~ contains pd i.
Proof.
  revert p0. induction ps as [|pd rest IH]; intros p0; simpl.
  - split; [ discriminate | ].
    intros (_ & (x & E & _) & _). destruct (p - p0)%nat; discriminate.
  - destruct ((startIndex pd <=? i)%nat && (i <=? endIndex pd)%nat) eqn:C.
    + apply andb_true_iff in C. destruct C as [C1 C2].
      apply Nat.leb_le in C1, C2.
      split.
      * intros E. injection E as <-. rewrite Nat.sub_diag.
        split; [ lia | split ].
        -- exists pd. split; [ reflexivity | split; assumption ].
        -- intros q x Hq. lia.
      * intros (L & _ & M). f_equal.
        destruct (p - p0)%nat as [|n] eqn:D; [ lia | ].
        exfalso. apply (M 0%nat pd); [ lia | reflexivity | split; assumption ].
    + assert (N : ~ contains pd i).
      { intros [C1 C2]. apply Nat.leb_le in C1, C2.
        rewrite C1, C2 in C. discriminate. }
      rewrite IH. split.
      * intros (L & (x & E & Cx) & M).
        replace (p - p0)%nat with (S (p - S p0)) by lia.
        split; [ lia | split ].
        -- exists x. split; assumption.
        -- intros [|q] y Hq Ey.
           ++ simpl in Ey. injection Ey as <-. exact N.
           ++ simpl in Ey. apply (M q y); [ lia | exact Ey ].
      * intros (L & (x & E & Cx) & M).
        destruct (p - p0)%nat as [|n] eqn:D.
        -- simpl in E. injection E as <-. contradiction.
        -- replace (p - S p0)%nat with n by lia.
           split; [ lia | split ].
           ++ exists x. split; assumption.
           ++ intros q y Hq Ey. apply (M (S q) y); [ lia | exact Ey ].
Qed.

Lemma currentPeriodIndex_spec (i p : nat) :
  currentPeriodIndex sd i = Some p <-> periodOf sd i p.
Proof.
  unfold currentPeriodIndex, periodOf. rewrite findPeriodFrom_spec.
  rewrite Nat.sub_0_r. split.
  - intros (_ & E & M). split; assumption.
  - intros (E & M). split; [ lia | split; assumption ].
Qed.

(** The test of the loop is the condition on the daily projection. *)
Lemma sevenDayConditionMet_spec (i : nat) :
  sevenDayConditionMet pg sd i = true <-> dailyProjectionImproving pg sd i.
Proof.
  unfold sevenDayConditionMet, dailyProjectionImproving, previous7DayDTI.
  unfold dailyProjection, weeklyOscillator.
  destruct (currentPeriodIndex sd i) as [[|p]|] eqn:C.
  - split; [ | reflexivity ]. intros _ _ q Hq.
    apply currentPeriodIndex_spec in Hq. rewrite C in Hq. discriminate.
  - split.
    + intros H E q Hq. apply currentPeriodIndex_spec in Hq.
      rewrite C in Hq. injection Hq as <-. rewrite E in H. exact H.
    + intros H. destruct (enable_weekly_dti pg); [ | reflexivity ].
      apply H; [ reflexivity | ]. apply currentPeriodIndex_spec. exact C.
  - split; [ | reflexivity ]. intros _ _ q Hq.
    apply currentPeriodIndex_spec in Hq. rewrite C in Hq. discriminate.
Qed.

(** Where the daily projection agrees with the periods, the condition on
    the projection is the condition on the weekly oscillator. *)
Lemma projection_condition (i : nat) :
  projectionAgrees sd i ->
  (dailyProjectionImproving pg sd i <-> weeklyOscillatorImproving pg sd i).
Proof.
  intros P. unfold dailyProjectionImproving, weeklyOscillatorImproving.
  split; intros H E p Hp.
  - rewrite <- (P _ Hp). apply H; assumption.
  - rewrite (P _ Hp). apply H; assumption.
Qed.

(** C2, as the code has it.  At a step [i] where no trade is open, the
    loop opens a trade if and only if the five entry conditions hold: the
    daily indicator is below the entry threshold, it is above its value of
    the day before, the weekly condition holds, no trade was completed yet
    or the previous one was, and the date of the step is on or after the
    first date plus six months.  The weekly condition, with the filter
    enabled and a period preceding the period that contains [i], is that
    the daily projection of the weekly oscillator at [i] exceeds the
    weekly oscillator of the preceding period; it holds without a
    preceding period and with the filter off.  Where the projection at
    [i] is the weekly oscillator of the period that contains [i], this is
    the condition that the weekly oscillator of that period exceeds that
    of the preceding one.  The trade opened is entered at the price and
    date of the step, with no holding days, no profit or loss and no exit
    fields; the completed trades are left as they were. *)
Theorem entry_iff_conditions (k : nat) :
  activeTrade (loopAt k) = None ->
  ((exists t, activeTrade (loopAt (S k)) = Some t) <->
   (lt (nth (S k) dti NaN) (entry_threshold pg) = true
    /\ gt (nth (S k) dti NaN) (nth k dti NaN) = true
    /\ dailyProjectionImproving pg sd (S k)
    /\ (completedTrades (loopAt k) = []
        \/ previousTradeCompleted (loopAt k) = true)
    /\ ge (Date_new (nth (S k) dates EmptyString))
          (setMonthPlus6 (firstDate Date_new dates)) = true))
  /\ (projectionAgrees sd (S k) ->
      (dailyProjectionImproving pg sd (S k)
       <-> weeklyOscillatorImproving pg sd (S k)))
  /\ (forall t, activeTrade (loopAt (S k)) = Some t ->
        entryDate t = nth (S k) dates EmptyString
        /\ entryPrice t = nth (S k) prices NaN
        /\ currentPrice t = nth (S k) prices NaN
        /\ holdingDays t = zero
        /\ currentPlPercent t = zero
        /\ exitDate t = None /\ exitPrice t = None
        /\ plPercent t = None /\ exitReason t = None
        /\ completedTrades (loopAt (S k)) = completedTrades (loopAt k)).
Proof.
  intros A. rewrite loopUpTo_S. unfold step. rewrite A.
  assert (E : entryConditions Date_new setMonthPlus6 pg dates dti sd
                (loopAt k) (S k) = true <->
              (lt (nth (S k) dti NaN) (entry_threshold pg) = true
               /\ gt (nth (S k) dti NaN) (nth k dti NaN) = true
               /\ dailyProjectionImproving pg sd (S k)
               /\ (completedTrades (loopAt k) = []
                   \/ previousTradeCompleted (loopAt k) = true)
               /\ ge (Date_new (nth (S k) dates EmptyString))
                     (setMonthPlus6 (firstDate Date_new dates)) = true)).
  { unfold entryConditions, earliestAllowableDate, parseFloat.
    replace (S k - 1)%nat with k by lia.
    rewrite !andb_true_iff, orb_true_iff, sevenDayConditionMet_spec.
    rewrite Nat.eqb_eq, length_zero_iff_nil. tauto. }
  split; [ | split; [ apply projection_condition | ] ].
  - destruct (entryConditions Date_new setMonthPlus6 pg dates dti sd
                (loopAt k) (S k)) eqn:C.
    + split; intros _; [ apply E; reflexivity | eexists; reflexivity ].
    + split.
      * intros [t H]. rewrite A in H. discriminate.
      * intros H. apply E in H. discriminate.
  - destruct (entryConditions Date_new setMonthPlus6 pg dates dti sd
                (loopAt k) (S k)) eqn:C.
    + simpl. intros t H. injection H as <-. simpl. repeat split.
    + intros t H. rewrite A in H. discriminate.
Qed.

End BacktestFacts.

(** In the example data day 1 lies in the second period. *)
Lemma exSevenDay_period (sd : Backtest.SevenDayDTIData) (p : nat) :
  Backtest.sevenDayData sd
  = [Backtest.mkPeriod 0 0; Backtest.mkPeriod 1 7; Backtest.mkPeriod 8 10] ->
  Spec.periodOf sd 1 (S p) -> p = 0%nat.
Proof.
  intros E [_ M]. destruct p as [|p]; [ reflexivity | ].
  exfalso. apply (M 1%nat (Backtest.mkPeriod 1 7)).
  - lia.
  - rewrite E. reflexivity.
  - split; simpl; lia.
Qed.

(** The first step of the example series meets the five conditions and
    opens a trade. *)
Lemma entry_iff_conditions_witness :
  exists t,
    Backtest.activeTrade
      (Backtest.loopUpTo Examples.exDate_new Examples.exSetMonthPlus6
         Examples.exPage Examples.exDates Examples.exPrices Examples.exDti
         Examples.exSevenDay 1) = Some t.
Proof.
  apply (proj2 (proj1 (entry_iff_conditions Examples.exDate_new
                  Examples.exSetMonthPlus6 Examples.exPage Examples.exDates
                  Examples.exPrices Examples.exDti Examples.exSevenDay 0
                  eq_refl))).
  repeat split; try (vm_compute; reflexivity).
  - intros _ p H.
    rewrite (exSevenDay_period Examples.exSevenDay p eq_refl H).
    vm_compute. reflexivity.
  - left. reflexivity.
Defined.

(** C2 fails as stated.  In this series day 1 lies in the second weekly
    period, whose weekly oscillator, -50, exceeds that of the first
    period, -60; the daily oscillator is below the threshold and above its
    value of the day before, no trade was completed and the warm-up period
    is over.  The five conditions of the claim hold, and no trade is
    opened: the daily projection holds -70 on day 1, and the loop compares
    the projection with the first period. *)
Lemma stale_projection_blocks_entry :
  let run :=
    Backtest.loopUpTo Examples.exDate_new Examples.exSetMonthPlus6
      Examples.exPage Examples.exDates Examples.exPrices Examples.exDti
      Examples.exSevenDayStale in
  Backtest.activeTrade (run 0%nat) = None
  /\ lt (nth 1 Examples.exDti NaN)
        (Backtest.entry_threshold Examples.exPage) = true
  /\ gt (nth 1 Examples.exDti NaN) (nth 0 Examples.exDti NaN) = true
  /\ Spec.weeklyOscillatorImproving Examples.exPage
       Examples.exSevenDayStale 1
  /\ Backtest.completedTrades (run 0%nat) = []
  /\ ge (Examples.exDate_new (nth 1 Examples.exDates EmptyString))
        (Examples.exSetMonthPlus6
           (Backtest.firstDate Examples.exDate_new Examples.exDates)) = true
  /\ Backtest.activeTrade (run 1%nat) = None.
Proof.
  repeat split; try (vm_compute; reflexivity).
  intros _ p H.
  rewrite (exSevenDay_period Examples.exSevenDayStale p eq_refl H).
  vm_compute. reflexivity.
Qed.

(** ** Trades of a run do not overlap *)

Section BacktestOrder.

Import Backtest Spec.

Variable Date_new : string -> num.
Variable setMonthPlus6 : num -> num.
Variable pg : Page.
Variable dates : list string.
Variables prices dti : list num.
Variable sd : SevenDayDTIData.

Local Notation "'loopAt'" :=
  (loopUpTo Date_new setMonthPlus6 pg dates prices dti sd).

(** The loop keeps its completed trades placed on increasing indices, and
    an open trade is entered after the last exit. *)
Lemma loop_placed (k : nat) :
  exists hi,
    Placed dates (completedTrades (loopAt k)) hi
    /\ (hi <= k)%nat
    /\ match activeTrade (loopAt k) with
       | None => True
       | Some t =>
           exists a, (hi < a)%nat /\ (a <= k)%nat
                     /\ entryDate t = nth a dates EmptyString
                     /\ exitDate t = None
       end.
Proof.
  induction k as [|k IH].
  - exists 0%nat. simpl. repeat split; [ constructor | lia ].
  - destruct IH as (hi & P & B & A).
    rewrite loopUpTo_S. unfold step.
    destruct (activeTrade (loopAt k)) as [t|] eqn:E.
    + destruct A as (a & Ha & Hk & He & Hx).
      repeat match goal with
             | |- context [if ?c then _ else _] => destruct c
             end; simpl;
        try (exists (S k); repeat split; try lia;
             eapply Placed_snoc with (a := a); eauto; lia).
      exists hi. repeat split; try lia; auto.
      exists a. repeat split; auto; lia.
    + destruct (entryConditions _ _ _ _ _ _ _ _); simpl.
      * exists hi. repeat split; auto; try lia.
        exists (S k). repeat split; auto; lia.
      * exists hi. rewrite E. repeat split; auto; lia.
Qed.

(** Every trade of a placed list lies between two indices. *)
Lemma Placed_In (ts : list Trade) (hi : nat) :
  Placed dates ts hi ->
  forall t, In t ts ->
    exists a b, (0 < a)%nat /\ (a < b)%nat /\ (b <= hi)%nat
                /\ entryDate t = nth a dates EmptyString
                /\ exitDate t = Some (nth b dates EmptyString).
Proof.
  induction 1 as [|ts hi t a b P IH Ha Hb He Hx]; intros u Hu.
  - destruct Hu.
  - apply in_app_or in Hu. destruct Hu as [Hu|[<-|[]]].
    + destruct (IH u Hu) as (a' & b' & ? & ? & ? & ? & ?).
      exists a', b'. repeat split; auto; lia.
    + exists a, b. repeat split; auto; lia.
Qed.

(** Of two trades of a placed list, the earlier one exits before the later
    one is entered. *)
Lemma Placed_nth (ts : list Trade) (hi : nat) :
  Placed dates ts hi ->
  forall p q t1 t2, (p < q)%nat ->
    nth_error ts p = Some t1 -> nth_error ts q = Some t2 ->
    exists a1 b1 a2 b2,
      (a1 < b1)%nat /\ (b1 < a2)%nat /\ (a2 < b2)%nat /\ (b2 <= hi)%nat
      /\ entryDate t1 = nth a1 dates EmptyString
      /\ exitDate t1 = Some (nth b1 dates EmptyString)
      /\ entryDate t2 = nth a2 dates EmptyString
      /\ exitDate t2 = Some (nth b2 dates EmptyString).
Proof.
  induction 1 as [|ts hi t a b P IH Ha Hb He Hx]; intros p q t1 t2 L H1 H2.
  - destruct p; discriminate.
  - assert (Q : (q < List.length (ts ++ [t]))%nat)
      by (apply nth_error_Some; congruence).
    rewrite length_app in Q. simpl in Q.
    rewrite nth_error_app1 in H1 by lia.
    destruct (Nat.eq_dec q (List.length ts)) as [->|N].
    + rewrite nth_error_app2, Nat.sub_diag in H2 by lia.
      injection H2 as <-.
      apply nth_error_In in H1.
      destruct (Placed_In _ _ P _ H1) as (a1 & b1 & ? & ? & ? & ? & ?).
      exists a1, b1, a, b. repeat split; auto; lia.
    + rewrite nth_error_app1 in H2 by lia.
      destruct (IH p q t1 t2 L H1 H2)
        as (a1 & b1 & a2 & b2 & ? & ? & ? & ? & ? & ? & ? & ?).
      exists a1, b1, a2, b2. repeat split; auto; lia.
Qed.

(** C3. On a series whose dates are in time order, the trades of a run
    (the completed trades, then the open trade if there is one) do not
    overlap: every completed trade has an exit date at or after its entry
    date, the one trade that may still be open is the last of the
    sequence, and of two trades of the sequence the earlier one has exited
    by the time the later one is entered, so that entry dates never
    decrease; when the dates strictly increase the exit is strictly before
    the next entry. *)
Theorem trades_do_not_overlap :
  datesNonDecreasing Date_new dates ->
  (forall t,
      In t (res_completedTrades
              (backtestWithActiveDetection Date_new setMonthPlus6 pg
                 (Some dates) (Some prices) (Some dti) (Some sd))) ->
      exists x, exitDate t = Some x
                /\ le (Date_new (entryDate t)) (Date_new x) = true)
  /\ (forall t,
        res_activeTrade
          (backtestWithActiveDetection Date_new setMonthPlus6 pg
             (Some dates) (Some prices) (Some dti) (Some sd)) = Some t ->
        exitDate t = None)
  /\ (forall p q t1 t2, (p < q)%nat ->
        nth_error (backtest Date_new setMonthPlus6 pg (Some dates)
                     (Some prices) (Some dti) (Some sd)) p = Some t1 ->
        nth_error (backtest Date_new setMonthPlus6 pg (Some dates)
                     (Some prices) (Some dti) (Some sd)) q = Some t2 ->
        exists x1,
          exitDate t1 = Some x1
          /\ le (Date_new x1) (Date_new (entryDate t2)) = true
          /\ le (Date_new (entryDate t1)) (Date_new (entryDate t2)) = true
          /\ (datesIncreasing Date_new dates ->
              lt (Date_new x1) (Date_new (entryDate t2)) = true)).
Proof.
  intros M. unfold backtest, backtestWithActiveDetection.
  destruct (negb (List.length dates =? List.length prices)%nat
            || negb (List.length dates =? List.length dti)%nat) eqn:V.
  { simpl. repeat split.
    - intros t [].
    - intros t H. discriminate.
    - intros [|p] q t1 t2 _ H; discriminate. }
  apply orb_false_iff in V. destruct V as [_ V].
  apply negb_false_iff, Nat.eqb_eq in V.
  simpl res_completedTrades. simpl res_activeTrade.
  destruct (loop_placed (List.length dti - 1)) as (hi & P & B & A).
  set (st := loopAt (List.length dti - 1)) in *.
  assert (IN : forall t, In t (completedTrades st) ->
             exists a b, (0 < a)%nat /\ (a < b)%nat /\ (b <= hi)%nat
               /\ (b < List.length dates)%nat
               /\ entryDate t = nth a dates EmptyString
               /\ exitDate t = Some (nth b dates EmptyString)).
  { intros t Ht. destruct (Placed_In _ _ P _ Ht) as (a & b & ? & ? & ? & ? & ?).
    exists a, b. repeat split; auto; lia. }
  repeat split.
  - intros t Ht. destruct (IN t Ht) as (a & b & ? & ? & ? & ? & He & Hx).
    eexists. split; [ exact Hx | ]. rewrite He. apply M; lia.
  - intros t Ht. rewrite Ht in A. destruct A as (a & _ & _ & _ & Hx).
    exact Hx.
  - intros p q t1 t2 L H1 H2.
    assert (Q : (q < List.length (completedTrades st)
                       + List.length (match activeTrade st with
                                      | Some t => [t] | None => [] end))%nat).
    { rewrite <- length_app. apply nth_error_Some. congruence. }
    rewrite nth_error_app1 in H1
      by (destruct (activeTrade st); simpl in Q; lia).
    destruct (Nat.lt_ge_cases q (List.length (completedTrades st)))
      as [C|C].
    + rewrite nth_error_app1 in H2 by lia.
      destruct (Placed_nth _ _ P _ _ _ _ L H1 H2)
        as (a1 & b1 & a2 & b2 & ? & ? & ? & ? & E1 & X1 & E2 & X2).
      exists (nth b1 dates EmptyString). rewrite E1, E2.
      repeat split; auto; try (apply M; lia).
      intros S. apply S; lia.
    + rewrite nth_error_app2 in H2 by lia.
      destruct (activeTrade st) as [t|]; simpl in Q.
      2:{ destruct (q - List.length (completedTrades st))%nat; discriminate. }
      replace (q - List.length (completedTrades st))%nat with 0%nat in H2
        by lia.
      injection H2 as <-.
      destruct A as (a & Ha & Hk & He & _).
      apply nth_error_In in H1.
      destruct (IN _ H1) as (a1 & b1 & ? & ? & ? & ? & E1 & X1).
      exists (nth b1 dates EmptyString). rewrite E1, He.
      repeat split; auto; try (apply M; lia).
      intros S. apply S; lia.
Qed.

End BacktestOrder.

(** Dates that are in order from each day to the next are in time order. *)
Lemma adjacent_nonDecreasing (Date_new : string -> num)
  (dates : list string) :
  forallb (fun i => le (Date_new (nth i dates EmptyString))
                       (Date_new (nth i dates EmptyString))
                    && le (Date_new (nth i dates EmptyString))
                          (Date_new (nth (S i) dates EmptyString)))
          (seq 0 (List.length dates - 1)) = true ->
  le (Date_new (nth (List.length dates - 1) dates EmptyString))
     (Date_new (nth (List.length dates - 1) dates EmptyString)) = true ->
  Spec.datesNonDecreasing Date_new dates.
Proof.
  intros A R i j Hij Hj.
  rewrite forallb_forall in A.
  assert (A' : forall m, (S m < List.length dates)%nat ->
             le (Date_new (nth m dates EmptyString))
                (Date_new (nth m dates EmptyString)) = true
             /\ le (Date_new (nth m dates EmptyString))
                   (Date_new (nth (S m) dates EmptyString)) = true).
  { intros m Hm. apply andb_true_iff, A, in_seq. lia. }
  induction Hij as [|j Hij IH].
  - destruct (Nat.eq_dec (S i) (List.length dates)) as [E|E].
    + replace i with (List.length dates - 1)%nat by lia. exact R.
    + apply A'. lia.
  - eapply le_trans; [ apply IH; lia | apply A'; lia ].
Qed.

(** The run over the example series, whose dates are in time order. *)
Lemma trades_do_not_overlap_witness :
  Spec.datesNonDecreasing Examples.exDate_new Examples.exDates
  /\ forall t,
      In t (Backtest.res_completedTrades
              (Backtest.backtestWithActiveDetection Examples.exDate_new
                 Examples.exSetMonthPlus6 Examples.exPage
                 (Some Examples.exDates) (Some Examples.exPrices)
                 (Some Examples.exDti) (Some Examples.exSevenDay))) ->
      exists x, Backtest.exitDate t = Some x
                /\ le (Examples.exDate_new (Backtest.entryDate t))
                      (Examples.exDate_new x) = true.
Proof.
  assert (M : Spec.datesNonDecreasing Examples.exDate_new Examples.exDates)
    by (apply adjacent_nonDecreasing; vm_compute; reflexivity).
  split; [ exact M | ].
  exact (proj1 (trades_do_not_overlap Examples.exDate_new
                  Examples.exSetMonthPlus6 Examples.exPage Examples.exDates
                  Examples.exPrices Examples.exDti Examples.exSevenDay M)).
Defined.

(** ** Rejected inputs and unchecked parameters *)

Section BacktestInputs.

Import Backtest Spec.

Variable Date_new : string -> num.
Variable setMonthPlus6 : num -> num.

(** The value returned is that of [backtestWithActiveDetection]. *)
Lemma snd_backtestWithActiveDetectionConsole (pg : Page)
  (dates : option (list string)) (prices dti : option (list num))
  (sd : option SevenDayDTIData) :
  snd (backtestWithActiveDetectionConsole Date_new setMonthPlus6 pg dates
         prices dti sd)
  = backtestWithActiveDetection Date_new setMonthPlus6 pg dates prices dti sd.
Proof.
  unfold backtestWithActiveDetectionConsole, backtestWithActiveDetection.
  destruct dates, prices, dti, sd; try reflexivity.
  match goal with |- context [if ?c then _ else _] => destruct c end;
    reflexivity.
Qed.

(** A run is rejected exactly on a missing argument or on sequences of
    different lengths. *)
Lemma rejected_iff (pg : Page)
  (dates : option (list string)) (prices dti : option (list num))
  (sd : option SevenDayDTIData) :
  (rejectedInputs dates prices dti sd ->
   backtestWithActiveDetectionConsole Date_new setMonthPlus6 pg dates prices
     dti sd = ([invalidInputsError], emptyResult))
  /\ (~ rejectedInputs dates prices dti sd ->
      fst (backtestWithActiveDetectionConsole Date_new setMonthPlus6 pg dates
             prices dti sd) = []).
Proof.
  unfold backtestWithActiveDetectionConsole, rejectedInputs.
  destruct dates as [ds|], prices as [ps|], dti as [xs|], sd as [d|];
    try (split; [ reflexivity | intros N; exfalso; apply N; tauto ]).
  destruct (negb (List.length ds =? List.length ps)%nat
            || negb (List.length ds =? List.length xs)%nat) eqn:V.
  - split; [ reflexivity | ]. intros N. exfalso. apply N.
    apply orb_true_iff in V. destruct V as [V|V];
      apply negb_true_iff, Nat.eqb_neq in V.
    + do 4 right. left. exists ds, ps. repeat split. exact V.
    + do 5 right. exists ds, xs. repeat split. exact V.
  - split; [ | reflexivity ].
    apply orb_false_iff in V. destruct V as [V1 V2].
    apply negb_false_iff, Nat.eqb_eq in V1, V2.
    intros [H|[H|[H|[H|[H|H]]]]]; try discriminate.
    + destruct H as (ds' & ps' & E1 & E2 & N).
      injection E1 as <-. injection E2 as <-. contradiction.
    + destruct H as (ds' & xs' & E1 & E2 & N).
      injection E1 as <-. injection E2 as <-. contradiction.
Qed.

(** C6, as the code has it.  A run with a missing argument or with
    sequences of different lengths is rejected: it writes the error
    "Invalid inputs for backtesting" and returns no completed trade and no
    open trade.  No other run is rejected, whatever the parameters on the
    page are: the run does not check them.  A run on an empty series is
    not rejected and writes nothing; its loop has no step and it returns
    no trade either.  The parameters are checked by [validateParameters],
    which reports an error when the entry threshold, the take-profit or
    the stop-loss parses to [NaN] or the holding period parses to no
    integer. *)
Theorem rejected_or_empty_inputs_give_no_trades
  (pg : Page) (dates : option (list string)) (prices dti : option (list num))
  (sd : option SevenDayDTIData) :
  let run :=
    backtestWithActiveDetectionConsole Date_new setMonthPlus6 pg dates prices
      dti sd in
  snd run
  = backtestWithActiveDetection Date_new setMonthPlus6 pg dates prices dti sd
  /\ (rejectedInputs dates prices dti sd ->
      fst run = [invalidInputsError] /\ snd run = emptyResult)
  /\ (~ rejectedInputs dates prices dti sd -> fst run = [])
  /\ (forall d,
        dates = Some [] -> prices = Some [] -> dti = Some [] ->
        sd = Some d ->
        fst run = [] /\ snd run = emptyResult)
  /\ (forall r s u,
        isNaN (parseFloat (entry_threshold pg)) = true
        \/ isNaN (parseFloat (take_profit pg)) = true
        \/ isNaN (parseFloat (stop_loss pg)) = true
        \/ isNaN (parseInt (max_days pg)) = true ->
        isValid (validateParameters r s u pg) = false).
Proof.
  cbv zeta. split; [ apply snd_backtestWithActiveDetectionConsole | ].
  destruct (rejected_iff pg dates prices dti sd) as [R N].
  split; [ intros H; rewrite (R H); split; reflexivity | ].
  split; [ exact N | ].
  split.
  - intros d -> -> -> ->. split; reflexivity.
  - intros r s u H. unfold validateParameters, isValid. cbv zeta.
    rewrite !length_app. apply Nat.eqb_neq.
    destruct H as [H|[H|[H|H]]]; rewrite H; cbn [orb List.length]; lia.
Qed.

End BacktestInputs.

(** A run whose price sequence is shorter than its dates. *)
Lemma rejected_or_empty_inputs_give_no_trades_witness :
  Backtest.backtestWithActiveDetectionConsole Examples.exDate_new
    Examples.exSetMonthPlus6 Examples.exPage (Some Examples.exDates)
    (Some [ofZ 100]) (Some Examples.exDti) (Some Examples.exSevenDay)
  = ([Backtest.invalidInputsError], Backtest.emptyResult).
Proof.
  destruct (rejected_or_empty_inputs_give_no_trades Examples.exDate_new
              Examples.exSetMonthPlus6 Examples.exPage
              (Some Examples.exDates) (Some [ofZ 100])
              (Some Examples.exDti) (Some Examples.exSevenDay))
    as (_ & R & _).
  apply injective_projections; apply R;
    do 4 right; left; exists Examples.exDates, [ofZ 100];
    repeat split; simpl; lia.
Defined.

(** C6 fails as stated, in two places.  With a take-profit that is not a
    number the run is not aborted: on the example series it writes no
    error, opens a trade and returns it.  And a run on an empty series
    reports no failure: it writes no error either, and returns the empty
    result as the value of a loop without steps. *)
Lemma unchecked_parameter_and_empty_series :
  isFinite (Backtest.take_profit Examples.exPageNaN) = false
  /\ fst (Backtest.backtestWithActiveDetectionConsole Examples.exDate_new
            Examples.exSetMonthPlus6 Examples.exPageNaN
            (Some Examples.exDates) (Some Examples.exPrices)
            (Some Examples.exDti) (Some Examples.exSevenDay)) = []
  /\ (exists t,
        Backtest.res_activeTrade
          (Backtest.backtestWithActiveDetection Examples.exDate_new
             Examples.exSetMonthPlus6 Examples.exPageNaN
             (Some Examples.exDates) (Some Examples.exPrices)
             (Some Examples.exDti) (Some Examples.exSevenDay)) = Some t
        /\ Backtest.entryDate t = "2024-01-02"%string)
  /\ Backtest.backtestWithActiveDetectionConsole Examples.exDate_new
       Examples.exSetMonthPlus6 Examples.exPage (Some []) (Some [])
       (Some []) (Some Examples.exSevenDay)
     = ([], Backtest.emptyResult).
Proof.
  split; [ reflexivity | ]. split; [ reflexivity | ].
  split; [ | reflexivity ].
  eexists. split; vm_compute; reflexivity.
Qed.

(** ** The parameter search *)

Section SearchFacts.

Import Backtest Optimizer.

Variable Date_new : string -> num.
Variable setMonthPlus6 : num -> num.
Variable calculateDTI : list num -> list num -> num -> num -> num -> list num.
Variable calculate7DayDTI :
  list string -> list num -> list num -> num -> num -> num -> SevenDayDTIData.
Variable pg : Page.
Variable dates : list string.
Variables high low close : list num.

(** The score of the initial [bestResult] is [-Infinity * 0 * 0], which is
    [NaN]. *)
Lemma score_initBest : score (metrics initBest) = NaN.
Proof. reflexivity. Qed.

(** No combination is ever kept: each score is compared with [NaN]. *)
Lemma visit_keeps_initBest (o : Outcome) (p : Params) :
  bestResult o = initBest ->
  bestResult (visit Date_new setMonthPlus6 calculateDTI calculate7DayDTI
                pg dates high low close o p) = initBest.
Proof.
  intros E. unfold visit. simpl. rewrite E, score_initBest, gt_NaN_r.
  reflexivity.
Qed.

Lemma search_keeps_initBest (ps : list Params) (o : Outcome) :
  bestResult o = initBest ->
  bestResult (fold_left
                (visit Date_new setMonthPlus6 calculateDTI calculate7DayDTI
                   pg dates high low close) ps o) = initBest.
Proof.
  revert o. induction ps as [|p ps IH]; intros o E; simpl.
  - exact E.
  - apply IH, visit_keeps_initBest, E.
Qed.

(** Whatever the grid and the series, [findOptimalParameters] returns its
    initial [bestResult], whose [params] is [null]. *)
Lemma findOptimalParameters_initBest (paramRanges : option Ranges) :
  bestResult (findOptimalParameters Date_new setMonthPlus6 calculateDTI
                calculate7DayDTI pg dates high low close paramRanges)
  = initBest.
Proof.
  unfold findOptimalParameters. apply search_keeps_initBest. reflexivity.
Qed.

End SearchFacts.

(** C5 fails on the code.  On the example series the one combination of
    the grid has six completed trades, at least the five required, and the
    score [45 * (250/3 / 100) * 10 = 375]; it is the best qualifying
    combination, and yet the search returns no parameters.  It never
    does: whatever the series, the indicator module and the grid,
    [bestResult.params] is [null]. *)
Theorem search_returns_no_parameters :
  (let o := Optimizer.findOptimalParameters Examples.exDate_new
              Examples.exSetMonthPlus6 Examples.exCalculateDTI
              Examples.exCalculate7DayDTI Examples.exPage Examples.exDates13
              [] [] Examples.exClose13 (Some Examples.exRanges) in
   (exists m,
       Optimizer.allResults o = [(Examples.exParams, m)]
       /\ Optimizer.totalTrades m = 6%nat
       /\ Optimizer.score m = ofZ 375)
   /\ Optimizer.params (Optimizer.bestResult o) = None)
  /\ (forall Date_new setMonthPlus6 calculateDTI calculate7DayDTI pg dates
        high low close paramRanges,
        Optimizer.params
          (Optimizer.bestResult
             (Optimizer.findOptimalParameters Date_new setMonthPlus6
                calculateDTI calculate7DayDTI pg dates high low close
                paramRanges)) = None).
Proof.
  split; [ split | ].
  - eexists. split; [ vm_compute; reflexivity | split; reflexivity ].
  - rewrite findOptimalParameters_initBest. reflexivity.
  - intros. rewrite findOptimalParameters_initBest. reflexivity.
Qed.

(** ** The store of trade objects *)

Section StoreFacts.

Import Ledger.

Lemma length_upd (h : list Trade) (r : nat) (t : Trade) :
  List.length (upd h r t) = List.length h.
Proof.
  revert r. induction h as [|x h IH]; intros [|r]; simpl; auto.
Qed.

Lemma get_upd_same (h : list Trade) (r : nat) (t : Trade) :
  (r < List.length h)%nat -> get (upd h r t) r = t.
Proof.
  unfold get. revert r. induction h as [|x h IH]; intros [|r] L;
    simpl in *; try lia; auto.
  apply IH. lia.
Qed.

Lemma heap_saveTradestoStorage (ok : bool) (s : State) :
  heap (fst (saveTradestoStorage ok s)) = heap s.
Proof. destruct ok; reflexivity. Qed.

Lemma closedTrades_saveTradestoStorage (ok : bool) (s : State) :
  closedTrades (fst (saveTradestoStorage ok s)) = closedTrades s.
Proof. destruct ok; reflexivity. Qed.

(** Sorting keeps the elements of an array. *)
Lemma In_insertBy (cmp : nat -> nat -> num) (x y : nat) (l : list nat) :
  In y (insertBy cmp x l) <-> y = x \/ In y l.
Proof.
  induction l as [|z l IH]; simpl.
  - intuition congruence.
  - destruct (gt (cmp x z) zero); simpl; rewrite ?IH.
    all: intuition congruence.
Qed.

Lemma In_sortBy (cmp : nat -> nat -> num) (y : nat) (l : list nat) :
  In y (sortBy cmp l) <-> In y l.
Proof.
  induction l as [|x l IH]; simpl.
  - reflexivity.
  - rewrite In_insertBy, IH. intuition congruence.
Qed.

(** The trade object that [closeTradeAutomatically] closes. *)
Lemma closeTradeAutomatically_trade (now : num) (ok : bool) (r : nat)
  (reason : string) (exitPrice : jsv) (s : State) :
  (r < List.length (heap s))%nat ->
  get (heap (closeTradeAutomatically now ok r reason exitPrice s)) r
  = setClosed (get (heap s) r) now exitPrice (Some reason)
      (notes (get (heap s) r))
      (mul (div (sub (toNum exitPrice) (toNum (entryPrice (get (heap s) r))))
              (toNum (entryPrice (get (heap s) r)))) (ofZ 100))
      (sub (mul (toNum (shares (get (heap s) r))) (toNum exitPrice))
           (mul (toNum (shares (get (heap s) r)))
              (toNum (entryPrice (get (heap s) r)))))
  /\ In r (closedTrades (closeTradeAutomatically now ok r reason exitPrice s)).
Proof.
  intros L. unfold closeTradeAutomatically.
  rewrite heap_saveTradestoStorage, closedTrades_saveTradestoStorage.
  simpl. split.
  - apply get_upd_same, L.
  - apply In_sortBy, in_or_app. right. left. reflexivity.
Qed.

End StoreFacts.

(** ** Exit priority of the two evaluators *)

Section ExitPriority.

Variable Date_new : string -> num.
Variable setMonthPlus6 : num -> num.

(** The exit taken by one step of the backtest on an open trade: the
    first of take-profit, stop-loss and time exit that holds. *)
Lemma step_exit (pg : Backtest.Page) (dates : list string)
  (prices dti : list num) (sd : Backtest.SevenDayDTIData)
  (st : Backtest.Loop) (i : nat) (t : Backtest.Trade) :
  Backtest.activeTrade st = Some t ->
  let plPercent :=
    mul (div (sub (nth i prices NaN) (Backtest.entryPrice t))
           (Backtest.entryPrice t)) (ofZ 100) in
  let holdingDays :=
    floor (div (sub (Date_new (nth i dates EmptyString))
                  (Date_new (Backtest.entryDate t))) msPerDay) in
  let st' := Backtest.step Date_new setMonthPlus6 pg dates prices dti sd st i in
  match Spec.firstSatisfied
          [ (ge plPercent (Backtest.take_profit pg), "Take Profit"%string);
            (le plPercent (neg (Backtest.stop_loss pg)), "Stop Loss"%string);
            (ge holdingDays (parseInt (Backtest.max_days pg)),
             "Time Exit"%string) ] with
  | Some reason =>
      exists t',
        Backtest.completedTrades st' = Backtest.completedTrades st ++ [t']
        /\ Backtest.exitReason t' = Some reason
        /\ Backtest.activeTrade st' = None
  | None =>
      Backtest.completedTrades st' = Backtest.completedTrades st
      /\ exists t', Backtest.activeTrade st' = Some t'
                    /\ Backtest.exitReason t' = Backtest.exitReason t
  end.
Proof.
  intros A plPercent holdingDays st'. subst st'.
  unfold Backtest.step, Spec.firstSatisfied, parseFloat. rewrite A.
  fold plPercent. fold holdingDays. cbn [find fst snd option_map].
  destruct (ge plPercent (Backtest.take_profit pg));
    [ eexists; repeat split | ].
  destruct (le plPercent (neg (Backtest.stop_loss pg)));
    [ eexists; repeat split | ].
  destruct (ge holdingDays (parseInt (Backtest.max_days pg)));
    [ eexists; repeat split | ].
  cbn. split; [ reflexivity | eexists; split; reflexivity ].
Qed.

(** The exit taken by [updateTradeStatus] on an active trade: the first
    of stop loss, target and square-off date that holds. *)
Lemma updateTradeStatus_exit (now : num) (ok : bool) (r : nat)
  (s : Ledger.State) :
  (r < List.length (Ledger.heap s))%nat ->
  Ledger.isActive (Ledger.get (Ledger.heap s) r) = true ->
  let trade := Ledger.get (Ledger.heap s) r in
  let currentPrice := Ledger.toNum (Ledger.currentPrice trade) in
  let trade' :=
    Ledger.get (Ledger.heap (Ledger.updateTradeStatus now ok r s)) r in
  match Spec.firstSatisfied
          [ (le currentPrice (Ledger.toNum (Ledger.stopLossPrice trade)),
             "Stop Loss Hit"%string);
            (ge currentPrice (Ledger.toNum (Ledger.targetPrice trade)),
             "Target Reached"%string);
            (ge now (Ledger.dateNum (Ledger.squareOffDate trade)),
             "Time Exit"%string) ] with
  | Some reason =>
      Ledger.status trade' = Some "closed"%string
      /\ Ledger.exitReason trade' = Some reason
      /\ Ledger.exitPrice trade' = Ledger.currentPrice trade
  | None =>
      Ledger.status trade' = Ledger.status trade
      /\ Ledger.exitReason trade' = Ledger.exitReason trade
  end.
Proof.
  intros L A. cbv zeta.
  unfold Ledger.updateTradeStatus, Spec.firstSatisfied.
  rewrite A. cbn [negb].
  set (trade := Ledger.get (Ledger.heap s) r).
  set (currentPrice := Ledger.toNum (Ledger.currentPrice trade)).
  cbn [find fst snd option_map].
  cbn [Ledger.stopLossPrice Ledger.targetPrice Ledger.squareOffDate
       Ledger.currentPrice Ledger.setCurrent].
  fold trade. fold currentPrice.
  match goal with
  | |- context [Ledger.closeTradeAutomatically _ _ _ _ _ ?s1] =>
      set (s1' := s1)
  end.
  assert (L1 : (r < List.length (Ledger.heap s1'))%nat)
    by (subst s1'; cbn; rewrite length_upd; exact L).
  assert (G : Ledger.get (Ledger.heap s1') r
              = Ledger.setCurrent trade
                  (mul (div (sub currentPrice
                               (Ledger.toNum (Ledger.entryPrice trade)))
                          (Ledger.toNum (Ledger.entryPrice trade))) (ofZ 100))
                  (sub (mul (Ledger.toNum (Ledger.shares trade)) currentPrice)
                       (mul (Ledger.toNum (Ledger.shares trade))
                          (Ledger.toNum (Ledger.entryPrice trade))))
                  (mul (Ledger.toNum (Ledger.shares trade)) currentPrice)
                  (floor (div (sub now
                                 (Ledger.dateNum (Ledger.entryDate trade)))
                            msPerDay)))
    by (subst s1'; cbn [Ledger.heap]; apply get_upd_same, L).
  destruct (le currentPrice (Ledger.toNum (Ledger.stopLossPrice trade))).
  { destruct (closeTradeAutomatically_trade now ok r "Stop Loss Hit"
                (Ledger.currentPrice trade) s1' L1) as [-> _].
    rewrite G. cbn. repeat split. }
  destruct (ge currentPrice (Ledger.toNum (Ledger.targetPrice trade))).
  { destruct (closeTradeAutomatically_trade now ok r "Target Reached"
                (Ledger.currentPrice trade) s1' L1) as [-> _].
    rewrite G. cbn. repeat split. }
  destruct (ge now (Ledger.dateNum (Ledger.squareOffDate trade))).
  { destruct (closeTradeAutomatically_trade now ok r "Time Exit"
                (Ledger.currentPrice trade) s1' L1) as [-> _].
    rewrite G. cbn. repeat split. }
  rewrite G. cbn. split; reflexivity.
Qed.

(** C1. Each evaluator fires the first condition that holds in its own
    order: the backtest take-profit, then stop-loss, then time exit; the
    ledger stop loss, then target, then square-off date.  So on a step
    where the profit of the open trade meets the take-profit threshold and
    the stop-loss threshold at once, the backtest closes the trade with
    reason "Take Profit"; and on an active trade whose current price is at
    or below its stop-loss price and at or above its target price,
    [updateTradeStatus] closes it with reason "Stop Loss Hit". *)
Theorem exit_priority (pg : Backtest.Page) (dates : list string)
  (prices dti : list num) (sd : Backtest.SevenDayDTIData)
  (st : Backtest.Loop) (i : nat) (t : Backtest.Trade)
  (now : num) (ok : bool) (r : nat) (s : Ledger.State) :
  Backtest.activeTrade st = Some t ->
  (r < List.length (Ledger.heap s))%nat ->
  Ledger.isActive (Ledger.get (Ledger.heap s) r) = true ->
  let plPercent :=
    mul (div (sub (nth i prices NaN) (Backtest.entryPrice t))
           (Backtest.entryPrice t)) (ofZ 100) in
  let holdingDays :=
    floor (div (sub (Date_new (nth i dates EmptyString))
                  (Date_new (Backtest.entryDate t))) msPerDay) in
  let st' := Backtest.step Date_new setMonthPlus6 pg dates prices dti sd st i in
  let trade := Ledger.get (Ledger.heap s) r in
  let currentPrice := Ledger.toNum (Ledger.currentPrice trade) in
  let trade' :=
    Ledger.get (Ledger.heap (Ledger.updateTradeStatus now ok r s)) r in
  match Spec.firstSatisfied
          [ (ge plPercent (Backtest.take_profit pg), "Take Profit"%string);
            (le plPercent (neg (Backtest.stop_loss pg)), "Stop Loss"%string);
            (ge holdingDays (parseInt (Backtest.max_days pg)),
             "Time Exit"%string) ] with
  | Some reason =>
      exists t',
        Backtest.completedTrades st' = Backtest.completedTrades st ++ [t']
        /\ Backtest.exitReason t' = Some reason
        /\ Backtest.activeTrade st' = None
  | None =>
      Backtest.completedTrades st' = Backtest.completedTrades st
      /\ exists t', Backtest.activeTrade st' = Some t'
                    /\ Backtest.exitReason t' = Backtest.exitReason t
  end
  /\ match Spec.firstSatisfied
            [ (le currentPrice (Ledger.toNum (Ledger.stopLossPrice trade)),
               "Stop Loss Hit"%string);
              (ge currentPrice (Ledger.toNum (Ledger.targetPrice trade)),
               "Target Reached"%string);
              (ge now (Ledger.dateNum (Ledger.squareOffDate trade)),
               "Time Exit"%string) ] with
     | Some reason =>
         Ledger.status trade' = Some "closed"%string
         /\ Ledger.exitReason trade' = Some reason
         /\ Ledger.exitPrice trade' = Ledger.currentPrice trade
     | None =>
         Ledger.status trade' = Ledger.status trade
         /\ Ledger.exitReason trade' = Ledger.exitReason trade
     end
  /\ (ge plPercent (Backtest.take_profit pg) = true ->
      le plPercent (neg (Backtest.stop_loss pg)) = true ->
      exists t',
        Backtest.completedTrades st' = Backtest.completedTrades st ++ [t']
        /\ Backtest.exitReason t' = Some "Take Profit"%string
        /\ Backtest.activeTrade st' = None)
  /\ (le currentPrice (Ledger.toNum (Ledger.stopLossPrice trade)) = true ->
      ge currentPrice (Ledger.toNum (Ledger.targetPrice trade)) = true ->
      Ledger.status trade' = Some "closed"%string
      /\ Ledger.exitReason trade' = Some "Stop Loss Hit"%string).
Proof.
  intros A L Act plPercent holdingDays st' trade currentPrice trade'.
  pose proof (step_exit pg dates prices dti sd st i t A) as B.
  pose proof (updateTradeStatus_exit now ok r s L Act) as U.
  cbv zeta in B, U.
  fold plPercent holdingDays st' in B. fold trade currentPrice trade' in U.
  split; [ exact B | split; [ exact U | split ] ].
  - intros T _. unfold Spec.firstSatisfied in B.
    cbn [find fst snd option_map] in B. rewrite T in B. exact B.
  - intros T _. unfold Spec.firstSatisfied in U.
    cbn [find fst snd option_map] in U. rewrite T in U.
    split; apply U.
Qed.

End ExitPriority.

(** An open trade entered at 100 with the price still at 100, under
    take-profit and stop-loss thresholds of zero; and an active ledger
    trade at 100 whose stop-loss price and target price are 100. *)
Lemma exit_priority_witness :
  (exists t',
      Backtest.completedTrades
        (Backtest.step Examples.exDate_new Examples.exSetMonthPlus6
           Examples.exPageZero Examples.exDates Examples.exPrices
           Examples.exDti Examples.exSevenDay Examples.exOpenLoop 3)
      = [t']
      /\ Backtest.exitReason t' = Some "Take Profit"%string)
  /\ Ledger.exitReason
       (Ledger.get
          (Ledger.heap
             (Ledger.updateTradeStatus Examples.exNow true 0
                Examples.exLedger)) 0)
     = Some "Stop Loss Hit"%string.
Proof.
  destruct (exit_priority Examples.exDate_new Examples.exSetMonthPlus6
              Examples.exPageZero Examples.exDates Examples.exPrices
              Examples.exDti Examples.exSevenDay Examples.exOpenLoop 3
              Examples.exOpenTrade Examples.exNow true 0 Examples.exLedger
              eq_refl (Nat.lt_0_succ 0) eq_refl) as (_ & _ & B & U).
  split.
  - destruct (B eq_refl eq_refl) as (t' & C & R & _).
    exists t'. split; [ exact C | exact R ].
  - exact (proj2 (U eq_refl eq_refl)).
Defined.

(** ** The value of a new trade *)

Section NewTrade.

Import Ledger Arithmetic.
Import PrimFloat.
Import JsNum.

Lemma get_app_length (h : list Trade) (t : Trade) :
  get (h ++ [t]) (List.length h) = t.
Proof.
  unfold get. rewrite app_nth2, Nat.sub_diag by lia. reflexivity.
Qed.

(** The trade object after [updateTradeStatus]: the values are
    recomputed, and the trade is closed or not. *)
Lemma updateTradeStatus_values (now : num) (ok : bool) (r : nat)
  (s : State) :
  (r < List.length (heap s))%nat ->
  isActive (get (heap s) r) = true ->
  let trade := get (heap s) r in
  let trade' := get (heap (updateTradeStatus now ok r s)) r in
  currentValue trade'
  = Num (mul (toNum (shares trade)) (toNum (currentPrice trade)))
  /\ shares trade' = shares trade
  /\ currentPrice trade' = currentPrice trade.
Proof.
  intros L A. cbv zeta. unfold updateTradeStatus. rewrite A. cbn [negb].
  set (trade := get (heap s) r).
  match goal with
  | |- context [closeTradeAutomatically _ _ _ _ _ ?s1] => set (s1' := s1)
  end.
  assert (L1 : (r < List.length (heap s1'))%nat)
    by (subst s1'; cbn; rewrite length_upd; exact L).
  assert (G : exists a b c d, get (heap s1') r = setCurrent trade a b c d
                              /\ c = mul (toNum (shares trade))
                                       (toNum (currentPrice trade))).
  { subst s1'. cbn [heap]. rewrite get_upd_same by exact L.
    do 4 eexists. split; reflexivity. }
  destruct G as (a & b & c & d & G & ->).
  repeat match goal with
         | |- context [if ?c then _ else _] => destruct c
         end;
    try (match goal with
         | |- context [closeTradeAutomatically ?n ?o ?r ?reason ?p ?s1] =>
             destruct (closeTradeAutomatically_trade n o r reason p s1 L1)
               as [-> _]
         end);
    rewrite G; cbn; repeat split.
Qed.

Lemma sgn_of_positive (p : Q) : 0 < p -> sgn p = Gt.
Proof.
  unfold sgn, Qlt. simpl. intros H. apply Z.compare_gt_iff. lia.
Qed.

(** At a positive price the value of the whole shares is at most the
    value of the shares. *)
Lemma floor_value_le (amount price : num) :
  isFinite amount = true -> isFinite price = true ->
  gt price zero = true ->
  le (newTradeCurrentValue exact amount price)
     (updatedCurrentValue exact (newTradeShares exact amount price) price)
  = true.
Proof.
  destruct amount as [| | |a]; try discriminate.
  destruct price as [| | |p]; try discriminate.
  intros _ _ P.
  assert (P0 : 0 < p).
  { unfold gt, lt, zero, ofZ in P. apply negb_true_iff in P.
    apply Qnot_le_lt. intros L. apply Qle_bool_iff in L.
    rewrite L in P. discriminate. }
  unfold newTradeCurrentValue, updatedCurrentValue, newTradeShares, exact.
  cbn [over times floorOf].
  unfold div. rewrite (sgn_of_positive p P0).
  unfold fin, floor, ofZ, mul, fin, le.
  apply Qle_bool_iff. apply Qred_le.
  apply Qmult_le_compat_r; [ apply Qfloor_le | apply Qlt_le_weak, P0 ].
Qed.

(** C10, as the code has it.  [addNewTrade] stores as [shares] the
    quotient [investmentAmount / entryPrice] and as [currentValue] the
    floor of this quotient times the entry price, which is also the
    current price of the new trade.  When the quotient is a whole number
    the current value is shares times current price.  When it is not, the
    two need not be equal: for 1000 at 300 the program computes a current
    value of 900 and shares times current price is 1000.  For a finite
    amount and a finite positive price the current value is at most
    shares times current price.  The first [updateTradeStatus] on the
    trade assigns shares times current price to the current value. *)
Theorem new_trade_current_value (Date_new : string -> num)
  (now : num) (ok : bool) (tradeId : string)
  (currentStockIndex : option string) (tradeData : TradeData) (s : State) :
  let s1 :=
    fst (addNewTrade Date_new now ok tradeId currentStockIndex tradeData s) in
  let r := List.length (heap s) in
  let trade := get (heap s1) r in
  let amount := toNum (td_investmentAmount tradeData) in
  let price := toNum (td_entryPrice tradeData) in
  In r (activeTrades s1)
  /\ shares trade = Num (newTradeShares exact amount price)
  /\ currentPrice trade = td_entryPrice tradeData
  /\ currentValue trade = Num (newTradeCurrentValue exact amount price)
  /\ (floorOf exact (newTradeShares exact amount price)
      = newTradeShares exact amount price ->
      toNum (currentValue trade)
      = updatedCurrentValue exact (toNum (shares trade))
          (toNum (currentPrice trade)))
  /\ (isFinite amount = true -> isFinite price = true ->
      gt price zero = true ->
      le (toNum (currentValue trade))
         (updatedCurrentValue exact (toNum (shares trade))
            (toNum (currentPrice trade))) = true)
  /\ (forall now' ok',
        let trade' := get (heap (updateTradeStatus now' ok' r s1)) r in
        toNum (currentValue trade')
        = updatedCurrentValue exact (toNum (shares trade'))
            (toNum (currentPrice trade')))
  /\ same64 (newTradeCurrentValue binary64 1000%float 300%float)
       900%float = true
  /\ same64 (updatedCurrentValue binary64
               (newTradeShares binary64 1000%float 300%float) 300%float)
       1000%float = true.
Proof.
  intros s1 r trade amount price.
  assert (H1 : heap s1 = heap s ++ [trade]).
  { subst trade s1. unfold addNewTrade. cbn [fst].
    rewrite heap_saveTradestoStorage. cbn [heap].
    subst r. rewrite get_app_length. reflexivity. }
  assert (T : trade = get (heap s ++ [trade]) r)
    by (rewrite <- H1; reflexivity).
  subst r. rewrite get_app_length in T.
  assert (A : In (List.length (heap s)) (activeTrades s1)).
  { subst s1. unfold addNewTrade. cbn [fst].
    destruct ok; cbn; apply In_sortBy, in_or_app; right; left; reflexivity. }
  assert (F : shares trade = Num (newTradeShares exact amount price)
              /\ currentPrice trade = td_entryPrice tradeData
              /\ currentValue trade
                 = Num (newTradeCurrentValue exact amount price)
              /\ isActive trade = true).
  { subst trade s1. unfold addNewTrade. cbn [fst].
    rewrite heap_saveTradestoStorage. cbn [heap].
    rewrite get_app_length. cbn. repeat split. }
  destruct F as (Fs & Fp & Fv & Fa).
  split; [ exact A | ].
  split; [ exact Fs | ]. split; [ exact Fp | ]. split; [ exact Fv | ].
  split; [ | split; [ | split; [ | split; reflexivity ] ] ].
  - intros W. rewrite Fv, Fs, Fp. cbn [toNum].
    unfold newTradeCurrentValue, updatedCurrentValue.
    fold (newTradeShares exact amount price). rewrite W. reflexivity.
  - intros Ha Hp P. rewrite Fv, Fs, Fp. cbn [toNum].
    apply floor_value_le; assumption.
  - intros now' ok'.
    assert (L : (List.length (heap s) < List.length (heap s1))%nat)
      by (rewrite H1, length_app; simpl; lia).
    destruct (updateTradeStatus_values now' ok' _ s1 L Fa) as (V & S & P).
    cbv zeta in V, S, P. cbv zeta. rewrite V, S, P. reflexivity.
Qed.

End NewTrade.

(** A new trade of 1000 at 300 in the exact arithmetic: the quotient is
    10/3, the current value 900, and shares times current price 1000. *)
Lemma new_trade_current_value_witness :
  let trade :=
    Ledger.get
      (Ledger.heap
         (fst (Ledger.addNewTrade Examples.exDate_new Examples.exNow true
                 "trade_2" None Examples.exTradeData Examples.exLedger)))
      1 in
  Ledger.shares trade = Ledger.Num (Fin (10 # 3))
  /\ Ledger.currentValue trade = Ledger.Num (ofZ 900)
  /\ mul (Ledger.toNum (Ledger.shares trade))
         (Ledger.toNum (Ledger.currentPrice trade)) = ofZ 1000.
Proof.
  destruct (new_trade_current_value Examples.exDate_new Examples.exNow true
              "trade_2" None Examples.exTradeData Examples.exLedger)
    as (_ & S & P & V & _).
  change (List.length (Ledger.heap Examples.exLedger)) with 1%nat in S, P, V.
  cbv zeta. rewrite S, P, V. repeat split; vm_compute; reflexivity.
Defined.

Section NewTradeBinary64.

Import PrimFloat.
Import JsNum.
#[local] Set Warnings "-inexact-float".

(** [Math.floor] on some binary64 numbers. *)
Lemma floor64_examples :
  forallb (fun p => Arithmetic.same64 (Arithmetic.floor64 (fst p)) (snd p))
    [ (3.7, 3); (3, 3); (0.5, 0); (-0.5, -1); (-3.2, -4); (-3, -3);
      (460.00000000000006, 460); (3.3333333333333335, 3);
      (4503599627370495.5, 4503599627370495); (1e300, 1e300);
      (infinity, infinity); (neg_infinity, neg_infinity) ]%float
  = true
  /\ is_nan (Arithmetic.floor64 nan) = true.
Proof.
  split; reflexivity.
Qed.

(** C10 fails as stated.  For an investment of 1058 at an entry price of
    2.3 the quotient that [addNewTrade] stores as [shares] is
    460.00000000000006 in binary64, which is no integer: its floor is 460.
    The current value, 460 times 2.3, and shares times current price both
    round to 1058: the new trade has
    [currentValue === shares * currentPrice]. *)
Lemma rounding_makes_the_new_value_equal :
  let shares :=
    Arithmetic.newTradeShares Arithmetic.binary64 1058%float 2.3%float in
  let currentValue :=
    Arithmetic.newTradeCurrentValue Arithmetic.binary64 1058%float
      2.3%float in
  Arithmetic.same64 shares 460.00000000000006%float = true
  /\ Arithmetic.same64 (Arithmetic.floor64 shares) 460%float = true
  /\ Arithmetic.same64 (Arithmetic.floor64 shares) shares = false
  /\ Arithmetic.same64 currentValue 1058%float = true
  /\ Arithmetic.same64 currentValue
       (Arithmetic.updatedCurrentValue Arithmetic.binary64 shares 2.3%float)
     = true.
Proof.
  repeat split; reflexivity.
Qed.

End NewTradeBinary64.

(** ** Profit and loss of a closed trade *)

Section ProfitAndLoss.

Import Ledger Arithmetic.
Import PrimFloat.
Import JsNum.
#[local] Set Warnings "-inexact-float".

(** In the exact arithmetic, on finite numbers, the profit that the code
    computes, [shares * exit - shares * entry], is the profit of the
    specification, [shares * (exit - entry)]. *)
Lemma mul_sub_distr (sh x e : Q) :
  closedPLValue exact (Fin sh) (Fin x) (Fin e)
  = statedPLValue exact (Fin sh) (Fin x) (Fin e).
Proof.
  unfold closedPLValue, statedPLValue, exact. cbn [minus times].
  unfold sub, mul, fin. f_equal. apply Qred_complete.
  rewrite !Qred_correct. ring.
Qed.

(** A number lies between its size and the opposite of its size, and a
    rounded number within the rounding error of the number. *)
Lemma abs_bounds (x : Q) : (- Qabs x <= x /\ x <= Qabs x)%Q.
Proof. apply Qabs_Qle_condition. apply Qle_refl. Qed.

Lemma rnd_bounds (u : Q) (rnd : Q -> Q) (x : Q) :
  roundsWithin u rnd x ->
  (- (u * Qabs x) <= rnd x - x /\ rnd x - x <= u * Qabs x)%Q.
Proof. intros R. apply Qabs_Qle_condition. apply R. Qed.

(** Where the two products and the difference are rounded with a
    relative error of at most [u], the profit that the code computes is
    within [(2 u + u^2) (|shares * exit| + |shares * entry|)] of the
    profit of the specification. *)
Lemma closedPLValue_rounded (u : Q) (rnd : Q -> Q) (sh x e : Q) :
  (0 <= u)%Q ->
  roundsWithin u rnd (sh * x) ->
  roundsWithin u rnd (sh * e) ->
  roundsWithin u rnd (rnd (sh * x) - rnd (sh * e)) ->
  (Qabs (closedPLValue (rounded rnd) sh x e - sh * (x - e))
   <= (2 * u + u * u) * (Qabs (sh * x) + Qabs (sh * e)))%Q.
Proof.
  intros U Wx We Wd.
  unfold closedPLValue, rounded. cbn [minus times].
  set (A := Qabs (sh * x)). set (B := Qabs (sh * e)).
  set (a := rnd (sh * x)%Q) in *. set (b := rnd (sh * e)%Q) in *.
  set (C := Qabs (a - b)).
  destruct (rnd_bounds u rnd (sh * x) Wx) as [a1 a2]. fold a A in a1, a2.
  destruct (rnd_bounds u rnd (sh * e) We) as [b1 b2]. fold b B in b1, b2.
  destruct (rnd_bounds u rnd (a - b) Wd) as [r1 r2]. fold C in r1, r2.
  destruct (abs_bounds (sh * x)) as [x1 x2]. fold A in x1, x2.
  destruct (abs_bounds (sh * e)) as [e1 e2]. fold B in e1, e2.
  assert (HC : (C <= (A + u * A) + (B + u * B))%Q).
  { unfold C. apply Qabs_Qle_condition. split; lra. }
  assert (HuC : (u * C <= u * ((A + u * A) + (B + u * B)))%Q).
  { rewrite (Qmult_comm u C), (Qmult_comm u (A + u * A + (B + u * B))).
    apply Qmult_le_compat_r; [ exact HC | exact U ]. }
  apply Qabs_Qle_condition. split; lra.
Qed.

(** The exact arithmetic is the arithmetic that rounds nothing. *)
Lemma roundsWithin_exact (x : Q) : roundsWithin 0 (fun y => y) x.
Proof.
  unfold roundsWithin.
  setoid_replace (x - x)%Q with 0%Q by ring. rewrite Qmult_0_l. apply Qle_refl.
Qed.

(** The trade object that [closeTrade] closes. *)
Lemma closeTrade_trade (now : num) (ok : bool) (tradeId : option string)
  (exitPrice : jsv) (reason notes : option string) (s : State) (r : nat) :
  (r < List.length (heap s))%nat ->
  findById (heap s) tradeId (activeTrades s) = Some r ->
  snd (closeTrade now ok tradeId exitPrice reason notes s) = true
  /\ In r (closedTrades (fst (closeTrade now ok tradeId exitPrice reason
                               notes s)))
  /\ get (heap (fst (closeTrade now ok tradeId exitPrice reason notes s))) r
     = setClosed (get (heap s) r) now exitPrice reason
         (if truthyOptStr notes then notes
          else Ledger.notes (get (heap s) r))
         (mul (div (sub (toNum exitPrice)
                      (toNum (entryPrice (get (heap s) r))))
                 (toNum (entryPrice (get (heap s) r)))) (ofZ 100))
         (sub (mul (toNum (shares (get (heap s) r))) (toNum exitPrice))
              (mul (toNum (shares (get (heap s) r)))
                 (toNum (entryPrice (get (heap s) r))))).
Proof.
  intros L F. unfold closeTrade. rewrite F. cbn [fst snd].
  rewrite heap_saveTradestoStorage, closedTrades_saveTradestoStorage.
  cbn [heap closedTrades]. repeat split.
  - apply In_sortBy, in_or_app. right. left. reflexivity.
  - apply get_upd_same, L.
Qed.

(** [prepareTrade] copies the recorded profit and loss and the exit
    price of a trade as they are. *)
Lemma prepareTrade_keeps_profit (Date_new : string -> num) (now : num)
  (currentStockIndex : option string) (t : Trade) :
  plValue (prepareTrade Date_new now currentStockIndex t) = plValue t
  /\ plPercent (prepareTrade Date_new now currentStockIndex t) = plPercent t
  /\ exitPrice (prepareTrade Date_new now currentStockIndex t) = exitPrice t
  /\ id (prepareTrade Date_new now currentStockIndex t) = id t
  /\ status (prepareTrade Date_new now currentStockIndex t) = status t.
Proof.
  unfold prepareTrade.
  repeat match goal with
         | |- context [if ?c then _ else _] => destruct c
         end; cbn; repeat split.
Qed.

(** C4, as the code has it.  A trade closed by [closeTradeAutomatically]
    or by [closeTrade] is in the closed set with a [plPercent] of
    [(exitPrice - entryPrice) / entryPrice * 100] and a [plValue] of
    [shares * exitPrice - shares * entryPrice], each the value of the
    expression as it is written.  In the exact arithmetic this [plValue]
    is the [shares * (exitPrice - entryPrice)] of the specification.
    Where the two products and the difference are rounded with a
    relative error of at most [u], as in binary64 ([u = 2^-53]) while
    none of the three overflows or underflows, it is within
    [(2 u + u^2) (|shares * exitPrice| + |shares * entryPrice|)] of it:
    for 3.3333333333333335 shares entered at 100 and closed at 110.1 the
    code computes 33.66666666666663 and the specification's expression
    gives 33.66666666666665.  Where the two products overflow the two
    differ altogether: for 1e308 shares entered and closed at 10 the
    code computes [NaN] and the specification's expression gives 0.
    [prepareTrade] computes neither: a trade of an import document keeps
    the [plValue] and [plPercent] recorded in the document. *)
Theorem closed_trade_profit_and_loss (Date_new : string -> num)
  (now : num) (ok : bool) (s : State) (r : nat) (autoReason : string)
  (tradeId : option string) (exitPrice : jsv) (reason notes : option string)
  (currentStockIndex : option string) :
  (r < List.length (heap s))%nat ->
  let trade := get (heap s) r in
  let s1 := closeTradeAutomatically now ok r autoReason exitPrice s in
  let s2 := fst (closeTrade now ok tradeId exitPrice reason notes s) in
  let value :=
    Num (closedPLValue exact (toNum (shares trade)) (toNum exitPrice)
           (toNum (entryPrice trade))) in
  let percent :=
    Num (closedPLPercent exact (toNum exitPrice)
           (toNum (entryPrice trade))) in
  (In r (closedTrades s1)
   /\ status (get (heap s1) r) = Some "closed"%string
   /\ Ledger.exitPrice (get (heap s1) r) = exitPrice
   /\ plValue (get (heap s1) r) = value
   /\ plPercent (get (heap s1) r) = percent)
  /\ (findById (heap s) tradeId (activeTrades s) = Some r ->
      In r (closedTrades s2)
      /\ status (get (heap s2) r) = Some "closed"%string
      /\ Ledger.exitPrice (get (heap s2) r) = exitPrice
      /\ plValue (get (heap s2) r) = value
      /\ plPercent (get (heap s2) r) = percent)
  /\ (forall t,
        plValue (prepareTrade Date_new now currentStockIndex t) = plValue t
        /\ plPercent (prepareTrade Date_new now currentStockIndex t)
           = plPercent t)
  /\ (forall sh x e : Q,
        closedPLValue exact (Fin sh) (Fin x) (Fin e)
        = statedPLValue exact (Fin sh) (Fin x) (Fin e))
  /\ (forall (u : Q) (rnd : Q -> Q) (sh x e : Q),
        (0 <= u)%Q ->
        roundsWithin u rnd (sh * x) ->
        roundsWithin u rnd (sh * e) ->
        roundsWithin u rnd (rnd (sh * x) - rnd (sh * e)) ->
        (Qabs (closedPLValue (rounded rnd) sh x e - sh * (x - e))
         <= (2 * u + u * u) * (Qabs (sh * x) + Qabs (sh * e)))%Q)
  /\ (same64 (closedPLValue binary64 3.3333333333333335%float 110.1%float
                100%float) 33.66666666666663%float = true
      /\ same64 (statedPLValue binary64 3.3333333333333335%float
                   110.1%float 100%float) 33.66666666666665%float = true)
  /\ (is_nan (closedPLValue binary64 1e308%float 10%float 10%float) = true
      /\ same64 (statedPLValue binary64 1e308%float 10%float 10%float)
           0%float = true).
Proof.
  intros L trade s1 s2 value percent.
  split; [ | split; [ | split; [ | split; [ exact mul_sub_distr | ] ] ] ].
  4: split; [ exact closedPLValue_rounded | repeat split; reflexivity ].
  - destruct (closeTradeAutomatically_trade now ok r autoReason exitPrice s L)
      as [G I].
    subst s1 value percent trade. rewrite G. cbn.
    repeat split. exact I.
  - intros F.
    destruct (closeTrade_trade now ok tradeId exitPrice reason notes s r L F)
      as (_ & I & G).
    subst s2 value percent trade. rewrite G. cbn.
    repeat split. exact I.
  - intros t.
    destruct (prepareTrade_keeps_profit Date_new now currentStockIndex t)
      as (V & P & _).
    split; assumption.
Qed.

End ProfitAndLoss.

(** The active trade of the example ledger, ten shares entered at 100,
    closed by hand at 110: a profit of 100, ten percent. *)
Lemma closed_trade_profit_and_loss_witness :
  Ledger.plValue
    (Ledger.get
       (Ledger.heap
          (fst (Ledger.closeTrade Examples.exNow true (Some "trade_1"%string)
                  (Ledger.Num (ofZ 110)) (Some "Manual"%string) None
                  Examples.exLedger))) 0)
  = Ledger.Num (ofZ 100)
  /\ Ledger.plPercent
       (Ledger.get
          (Ledger.heap
             (fst (Ledger.closeTrade Examples.exNow true
                     (Some "trade_1"%string) (Ledger.Num (ofZ 110))
                     (Some "Manual"%string) None Examples.exLedger))) 0)
     = Ledger.Num (ofZ 10).
Proof.
  destruct (closed_trade_profit_and_loss Examples.exDate_new Examples.exNow
              true Examples.exLedger 0 "Time Exit" (Some "trade_1"%string)
              (Ledger.Num (ofZ 110)) (Some "Manual"%string) None None
              (Nat.lt_0_succ 0))
    as (_ & M & _).
  destruct (M eq_refl) as (_ & _ & _ & V & P).
  split; [ rewrite V | rewrite P ]; vm_compute; reflexivity.
Defined.

Section ProfitNotAsStated.

Import PrimFloat.
Import JsNum.
#[local] Set Warnings "-inexact-float".

(** C4 fails as stated, in two places.  A closed trade that comes from an
    import document keeps the profit recorded there: after the import of
    the example document the closed set holds a trade of ten shares
    entered at 100 and exited at 110 whose [plValue] and [plPercent] are
    zero.  And the [plValue] that a close computes,
    [shares * exitPrice - shares * entryPrice], is not within a tolerance
    of [shares * (exitPrice - entryPrice)] where its two products
    overflow: for 1e308 shares entered and closed at 10 it is [NaN] in
    binary64, and the stated profit is 0. *)
Lemma closed_trade_profit_not_as_stated :
  (let s :=
     fst (Ledger.importTradesFromJSON Examples.exDate_new Examples.exNow true
            Examples.exNewIds None Examples.exDocument Ledger.defaultOptions
            Examples.exLedger) in
   let t := Ledger.get (Ledger.heap s) 1 in
   Ledger.closedTrades s = [1%nat]
   /\ Ledger.status t = Some "closed"%string
   /\ Ledger.plValue t = Ledger.Num zero
   /\ Ledger.plPercent t = Ledger.Num zero
   /\ mul (Ledger.toNum (Ledger.shares t))
          (sub (Ledger.toNum (Ledger.exitPrice t))
               (Ledger.toNum (Ledger.entryPrice t))) = ofZ 100
   /\ mul (div (sub (Ledger.toNum (Ledger.exitPrice t))
                    (Ledger.toNum (Ledger.entryPrice t)))
               (Ledger.toNum (Ledger.entryPrice t))) (ofZ 100) = ofZ 10
   /\ Ledger.toNum (Ledger.plValue t)
      <> mul (Ledger.toNum (Ledger.shares t))
             (sub (Ledger.toNum (Ledger.exitPrice t))
                  (Ledger.toNum (Ledger.entryPrice t)))
   /\ Ledger.toNum (Ledger.plPercent t)
      <> mul (div (sub (Ledger.toNum (Ledger.exitPrice t))
                       (Ledger.toNum (Ledger.entryPrice t)))
                  (Ledger.toNum (Ledger.entryPrice t))) (ofZ 100))
  /\ is_nan (Arithmetic.closedPLValue Arithmetic.binary64 1e308%float
               10%float 10%float) = true
  /\ Arithmetic.same64
       (Arithmetic.statedPLValue Arithmetic.binary64 1e308%float 10%float
          10%float) 0%float = true.
Proof.
  split; [ | split; reflexivity ].
  vm_compute. repeat split; intros E; discriminate E.
Qed.

End ProfitNotAsStated.

(** ** The cached series *)

Section Caches.

Import Ledger Spec.

Variable Date_new : string -> num.

(** A mutation whose write to the storage succeeds leaves no cached
    series; [clearTradeHistory] leaves none whether the write succeeds or
    not. *)
Lemma saved_mutation_clears_caches (now : num) (s : State) :
  (forall r reason exitPrice,
      noCache (closeTradeAutomatically now true r reason exitPrice s))
  /\ (forall tradeId exitPrice reason notes,
        snd (closeTrade now true tradeId exitPrice reason notes s) = true ->
        noCache (fst (closeTrade now true tradeId exitPrice reason notes s)))
  /\ (forall tradeId,
        snd (deleteTrade true tradeId s) = true ->
        noCache (fst (deleteTrade true tradeId s)))
  /\ (forall ok, noCache (fst (clearTradeHistory ok s)))
  /\ (forall newIds currentStockIndex data options,
        error (snd (importTradesFromJSON Date_new now true newIds
                      currentStockIndex data options s)) = None ->
        noCache (fst (importTradesFromJSON Date_new now true newIds
                        currentStockIndex data options s))).
Proof.
  repeat split.
  - unfold closeTrade in *.
    destruct (findById (heap s) tradeId (activeTrades s));
      [ reflexivity | discriminate ].
  - unfold closeTrade in *.
    destruct (findById (heap s) tradeId (activeTrades s));
      [ reflexivity | discriminate ].
  - unfold deleteTrade in *.
    destruct (findById (heap s) tradeId (allTrades s));
      [ reflexivity | discriminate ].
  - unfold deleteTrade in *.
    destruct (findById (heap s) tradeId (allTrades s));
      [ reflexivity | discriminate ].
  - destruct ok; reflexivity.
  - destruct ok; reflexivity.
  - unfold importTradesFromJSON, saveTradestoStorage in *.
    destruct (negb (validateImportData data)); [ discriminate | ].
    match goal with
    | |- context [let '(_, _) := ?x in _] => destruct x as [[? ?] ?]
    end.
    reflexivity.
  - unfold importTradesFromJSON, saveTradestoStorage in *.
    destruct (negb (validateImportData data)); [ discriminate | ].
    match goal with
    | |- context [let '(_, _) := ?x in _] => destruct x as [[? ?] ?]
    end.
    reflexivity.
Qed.

(** Without a cached series, the two getters compute their series from
    the trades of the state. *)
Lemma getters_recompute (now : num) (s : State) :
  noCache s ->
  fst (getEquityCurveData now s)
  = match closedTrades s with
    | [] => []
    | _ => computeEquityCurve now s
    end
  /\ fst (getDrawdownChartData now s)
     = match closedTrades s with
       | [] => []
       | _ => drawdownSeries zero (computeEquityCurve now s)
       end.
Proof.
  intros [E D]. unfold getDrawdownChartData, getEquityCurveData.
  rewrite E, D. destruct (closedTrades s); split; reflexivity.
Qed.

(** When the write to the storage fails, the mutations that rely on
    [saveTradestoStorage] for the reset keep the cached series, and the
    getters return them. *)
Lemma failed_save_keeps_caches (now : num) (s : State)
  (curve : list EquityPoint) (series : list DrawdownPoint) :
  equityCurveData s = Some curve ->
  drawdownData s = Some series ->
  (forall r reason exitPrice,
      fst (getEquityCurveData now
             (closeTradeAutomatically now false r reason exitPrice s))
      = curve
      /\ fst (getDrawdownChartData now
                (closeTradeAutomatically now false r reason exitPrice s))
         = series)
  /\ (forall tradeId exitPrice reason notes,
        fst (getEquityCurveData now
               (fst (closeTrade now false tradeId exitPrice reason notes s)))
        = curve
        /\ fst (getDrawdownChartData now
                  (fst (closeTrade now false tradeId exitPrice reason notes
                          s)))
           = series)
  /\ (forall tradeId,
        fst (getEquityCurveData now (fst (deleteTrade false tradeId s)))
        = curve
        /\ fst (getDrawdownChartData now (fst (deleteTrade false tradeId s)))
           = series).
Proof.
  intros E D. repeat split.
  - unfold getEquityCurveData, closeTradeAutomatically. cbn. rewrite E.
    reflexivity.
  - unfold getDrawdownChartData, closeTradeAutomatically. cbn. rewrite D.
    reflexivity.
  - unfold getEquityCurveData, closeTrade.
    destruct (findById (heap s) tradeId (activeTrades s)); cbn; rewrite E;
      reflexivity.
  - unfold getDrawdownChartData, closeTrade.
    destruct (findById (heap s) tradeId (activeTrades s)); cbn; rewrite D;
      reflexivity.
  - unfold getEquityCurveData, deleteTrade.
    destruct (findById (heap s) tradeId (allTrades s)) as [r|]; cbn;
      [ | rewrite E; reflexivity ].
    destruct (isActive (get (heap s) r)); cbn; rewrite E; reflexivity.
  - unfold getDrawdownChartData, deleteTrade.
    destruct (findById (heap s) tradeId (allTrades s)) as [r|]; cbn;
      [ | rewrite D; reflexivity ].
    destruct (isActive (get (heap s) r)); cbn; rewrite D; reflexivity.
Qed.

End Caches.

(** C8 fails on the code when the write to the storage fails.  On the
    example ledger the equity curve is read, which caches it; the active
    trade is then closed by hand while [localStorage.setItem] throws.  The
    closed set has grown to two trades, but both getters still return the
    series cached before, which differ from the series that the trades of
    the state give. *)
Theorem stale_series_after_failed_save :
  let '(curve0, s1) := Ledger.getEquityCurveData Examples.exLater
                         Examples.exLedger2 in
  let '(drawdown0, s2) := Ledger.getDrawdownChartData Examples.exLater s1 in
  let s3 :=
    fst (Ledger.closeTrade Examples.exLater false (Some "trade_1"%string)
           (Ledger.Num (ofZ 90)) (Some "Manual"%string) None s2) in
  Ledger.closedTrades s2 = [1%nat]
  /\ Ledger.closedTrades s3 = [0%nat; 1%nat]
  /\ fst (Ledger.getEquityCurveData Examples.exLater s3) = curve0
  /\ fst (Ledger.getDrawdownChartData Examples.exLater s3) = drawdown0
  /\ List.length curve0 = 3%nat
  /\ List.length (Ledger.computeEquityCurve Examples.exLater s3) = 3%nat
  /\ curve0 <> Ledger.computeEquityCurve Examples.exLater s3
  /\ drawdown0
     <> Ledger.drawdownSeries zero
          (Ledger.computeEquityCurve Examples.exLater s3).
Proof.
  vm_compute. repeat split; intros E; discriminate E.
Qed.

(** ** The Sharpe ratio *)

Section SharpeFacts.

Import Ledger.

Variable Math_pow : num -> num -> num.
Variable Math_sqrt : num -> num.

Lemma Qred_zero (x : Q) : x == 0 -> Qred x = 0.
Proof. intros E. apply (Qred_complete x 0 E). Qed.

Lemma sgn_Qred_pos (x : Q) : 0 < x -> sgn (Qred x) = Gt.
Proof.
  intros P. rewrite <- (Qred_correct x) in P.
  unfold sgn. unfold Qlt in P. simpl in P.
  apply Z.compare_gt_iff. lia.
Qed.

Lemma sgn_pos (x : Q) : 0 < x -> sgn x = Gt.
Proof.
  intros P. unfold sgn. unfold Qlt in P. simpl in P.
  apply Z.compare_gt_iff. lia.
Qed.

(** C7 fails on the code.  With one closed trade the deviation of the
    daily return rates is zero; when the daily rate of the trade is above
    the daily risk-free rate the quotient is [+Infinity], which [isNaN]
    does not catch: [getSharpeRatio] returns [+Infinity], not [0].  The
    hypotheses on [Math.pow] and [Math.sqrt] are that [0] squared is [0],
    that the square root of [0] is [0] and that the square root of 252 is
    positive. *)
Theorem sharpe_ratio_of_one_trade_is_infinite (riskFreeRate : num)
  (s : State) (r : nat) (d f a : Q) :
  closedTrades s = [r] ->
  dailyReturnRate Math_pow (get (heap s) r) = Fin d ->
  mul (sub (Math_pow (add (ofZ 1) riskFreeRate) (div (ofZ 1) (ofZ 365)))
         (ofZ 1)) (ofZ 100) = Fin f ->
  Math_pow zero (ofZ 2) = zero ->
  Math_sqrt zero = zero ->
  Math_sqrt (ofZ 252) = Fin a ->
  0 < a -> f < d ->
  getSharpeRatio Math_pow Math_sqrt riskFreeRate s = PInf
  /\ isFinite (getSharpeRatio Math_pow Math_sqrt riskFreeRate s) = false.
Proof.
  intros C D F P0 S0 S252 Pa Lt.
  assert (G : getSharpeRatio Math_pow Math_sqrt riskFreeRate s = PInf).
  { unfold getSharpeRatio, deref. rewrite C.
    cbn [map fold_left List.length Z.of_nat Pos.of_succ_nat].
    rewrite D, F, S252.
    set (avg := div (add zero (Fin d)) (ofZ 1)).
    assert (A : exists d', avg = Fin d' /\ d' == d).
    { subst avg. unfold add, div, zero, ofZ, fin, sgn. cbn [Qnum Z.compare].
      eexists. split; [ reflexivity | ].
      rewrite !Qred_correct. field. }
    destruct A as (d' & -> & Ed).
    assert (Z0 : sub (Fin d) (Fin d') = zero).
    { unfold sub, fin, zero, ofZ. f_equal. apply Qred_zero.
      rewrite Ed. ring. }
    rewrite Z0, P0.
    replace (div (add zero zero) (ofZ 1)) with zero by reflexivity.
    rewrite S0.
    assert (I : div (sub (Fin d') (Fin f)) zero = PInf).
    { unfold sub, div, zero, ofZ, fin. cbn [sgn Qnum Z.compare].
      rewrite sgn_Qred_pos; [ reflexivity | ].
      rewrite Ed. apply Qlt_minus_iff in Lt. exact Lt. }
    rewrite I. unfold mul. rewrite (sgn_pos a Pa). reflexivity. }
  rewrite G. split; reflexivity.
Qed.

End SharpeFacts.

(** The ledger whose only closed trade gained ten percent in one day. *)
Lemma sharpe_ratio_of_one_trade_is_infinite_witness :
  Ledger.getSharpeRatio Examples.exMath_pow Examples.exMath_sqrt
    Ledger.defaultRiskFreeRate Examples.exLedgerOneClosed = PInf.
Proof.
  apply (sharpe_ratio_of_one_trade_is_infinite Examples.exMath_pow
           Examples.exMath_sqrt Ledger.defaultRiskFreeRate
           Examples.exLedgerOneClosed 0 10 (27 # 5000)
           (15874508 # 1000000));
    reflexivity.
Defined.

(** ** Merging a document into the ledger *)

Section MergeFacts.

Import Ledger Spec.

Variable Date_new : string -> num.
Variable now : num.
Variable currentStockIndex : option string.

Local Notation "'prepare'" := (prepareTrade Date_new now currentStockIndex).

Lemma optStrEqb_eq (a b : option string) : optStrEqb a b = true <-> a = b.
Proof.
  destruct a as [x|], b as [y|]; simpl; split; intros H;
    try discriminate; try reflexivity.
  - apply String.eqb_eq in H. congruence.
  - injection H as ->. apply String.eqb_refl.
Qed.

Lemma optStrEqb_refl (a : option string) : optStrEqb a a = true.
Proof. apply optStrEqb_eq. reflexivity. Qed.

Lemma existsb_optStrEqb (i : option string) (l : list (option string)) :
  existsb (optStrEqb i) l = true <-> In i l.
Proof.
  rewrite existsb_exists. split.
  - intros (x & I & E). apply optStrEqb_eq in E. congruence.
  - intros I. exists i. split; [ exact I | apply optStrEqb_refl ].
Qed.

Lemma get_app_old (h : list Trade) (p : Trade) (r : nat) :
  (r < List.length h)%nat -> get (h ++ [p]) r = get h r.
Proof. intros L. unfold get. apply app_nth1, L. Qed.

Lemma deref_app_old (h : list Trade) (p : Trade) (l : list nat) :
  validRefs h l -> deref (h ++ [p]) l = deref h l.
Proof.
  unfold validRefs, deref. intros V. apply map_ext_in. intros r I.
  apply get_app_old. rewrite Forall_forall in V. apply V, I.
Qed.

Lemma validRefs_app (h : list Trade) (p : Trade) (l : list nat) :
  validRefs h l -> validRefs (h ++ [p]) l.
Proof.
  unfold validRefs. intros V. eapply Forall_impl; [ | exact V ].
  intros r L. cbv beta in *. rewrite length_app. simpl. lia.
Qed.

Lemma validRefs_push (h : list Trade) (p : Trade) (l : list nat) :
  validRefs h l -> validRefs (h ++ [p]) (l ++ [List.length h]).
Proof.
  intros V. apply Forall_app. split; [ apply validRefs_app, V | ].
  constructor; [ | constructor ]. rewrite length_app. simpl. lia.
Qed.

Lemma deref_push (h : list Trade) (p : Trade) (l : list nat) :
  validRefs h l ->
  deref (h ++ [p]) (l ++ [List.length h]) = deref h l ++ [p].
Proof.
  intros V. unfold deref. rewrite map_app. fold (deref (h ++ [p]) l).
  rewrite deref_app_old by exact V. simpl. rewrite get_app_length.
  reflexivity.
Qed.

(** [findIndex] followed by the assignment [allTrades[index] = ...], on
    the trades as values. *)
Lemma findIndex_replaceFirst (h : list Trade) (i : option string)
  (p : Trade) (l : list nat) :
  validRefs h l ->
  match findIndexById h i l with
  | Some k =>
      replaceFirst i p (deref h l)
      = Some (deref (h ++ [p]) (setNth l k (List.length h)))
      /\ validRefs (h ++ [p]) (setNth l k (List.length h))
  | None => replaceFirst i p (deref h l) = None
  end.
Proof.
  induction l as [|r l IH]; intros V; simpl.
  - reflexivity.
  - inversion V as [|? ? Hr Hl]; subst.
    destruct (optStrEqb (id (get h r)) i) eqn:E; simpl.
    + split.
      * rewrite get_app_length. fold (deref (h ++ [p]) l).
        rewrite deref_app_old by exact Hl. reflexivity.
      * constructor; [ rewrite length_app; simpl; lia | ].
        apply validRefs_app, Hl.
    + specialize (IH Hl).
      destruct (findIndexById h i l) as [k|]; simpl.
      * destruct IH as [R W]. rewrite R. simpl. split.
        -- rewrite get_app_old by exact Hr. reflexivity.
        -- constructor; [ rewrite length_app; simpl; lia | exact W ].
      * rewrite IH. reflexivity.
Qed.

(** One step of the merge, on the trades as values. *)
Lemma mergeOne_value (existing : list (option string)) (st : Importing)
  (t : Trade) :
  validRefs (i_heap st) (i_all st) ->
  validRefs (i_heap (mergeOne Date_new now currentStockIndex existing st t))
            (i_all (mergeOne Date_new now currentStockIndex existing st t))
  /\ deref (i_heap (mergeOne Date_new now currentStockIndex existing st t))
           (i_all (mergeOne Date_new now currentStockIndex existing st t))
     = mergeValue prepare existing (deref (i_heap st) (i_all st)) t.
Proof.
  intros V. unfold mergeOne, mergeValue.
  destruct (existsb (optStrEqb (id (prepare t))) existing).
  - pose proof (findIndex_replaceFirst (i_heap st) (id (prepare t))
                  (prepare t) (i_all st) V) as F.
    destruct (findIndexById (i_heap st) (id (prepare t)) (i_all st)).
    + destruct F as [R W]. rewrite R. simpl. split; [ exact W | reflexivity ].
    + rewrite F. simpl.
      split; [ apply validRefs_push, V | apply deref_push, V ].
  - simpl. split; [ apply validRefs_push, V | apply deref_push, V ].
Qed.

Lemma mergeFold_value (existing : list (option string)) (ts : list Trade)
  (st : Importing) :
  validRefs (i_heap st) (i_all st) ->
  validRefs
    (i_heap (fold_left (mergeOne Date_new now currentStockIndex existing)
               ts st))
    (i_all (fold_left (mergeOne Date_new now currentStockIndex existing)
              ts st))
  /\ deref
       (i_heap (fold_left (mergeOne Date_new now currentStockIndex existing)
                  ts st))
       (i_all (fold_left (mergeOne Date_new now currentStockIndex existing)
                 ts st))
     = fold_left (mergeValue prepare existing) ts
         (deref (i_heap st) (i_all st)).
Proof.
  revert st. induction ts as [|t ts IH]; intros st V; simpl.
  - split; [ exact V | reflexivity ].
  - destruct (mergeOne_value existing st t V) as [W E].
    destruct (IH _ W) as [W' E']. split; [ exact W' | ].
    rewrite E', E. reflexivity.
Qed.


(** *** The merge on values *)

Lemma replaceFirst_ids (i : option string) (p : Trade)
  (vals vals' : list Trade) :
  id p = i -> replaceFirst i p vals = Some vals' ->
  map id vals' = map id vals.
Proof.
  intros Ep. revert vals'. induction vals as [|v vals IH]; intros vals' R;
    simpl in R.
  - discriminate.
  - destruct (optStrEqb (id v) i) eqn:E.
    + injection R as <-. apply optStrEqb_eq in E. simpl. congruence.
    + destruct (replaceFirst i p vals) as [w|]; [ | discriminate ].
      injection R as <-. simpl. rewrite (IH w eq_refl). reflexivity.
Qed.

Lemma replaceFirst_In (i : option string) (p : Trade)
  (vals vals' : list Trade) :
  replaceFirst i p vals = Some vals' ->
  In p vals' /\ forall v, In v vals -> id v <> i -> In v vals'.
Proof.
  revert vals'. induction vals as [|v vals IH]; intros vals' R; simpl in R.
  - discriminate.
  - destruct (optStrEqb (id v) i) eqn:E.
    + injection R as <-. apply optStrEqb_eq in E. split.
      * left. reflexivity.
      * intros u [<-|I] N; [ contradiction | right; exact I ].
    + destruct (replaceFirst i p vals) as [w|]; [ | discriminate ].
      injection R as <-. destruct (IH w eq_refl) as [Ip Io]. split.
      * right. exact Ip.
      * intros u [<-|I] N; [ left; reflexivity | right; apply Io; assumption ].
Qed.

Lemma replaceFirst_found (i : option string) (p : Trade)
  (vals : list Trade) :
  In i (map id vals) -> exists vals', replaceFirst i p vals = Some vals'.
Proof.
  induction vals as [|v vals IH]; simpl; intros I.
  - destruct I.
  - destruct (optStrEqb (id v) i) eqn:E.
    + eexists. reflexivity.
    + destruct I as [I|I].
      * apply optStrEqb_eq in I. congruence.
      * destruct (IH I) as [w ->]. eexists. reflexivity.
Qed.

(** With identifiers that are all different, a trade overwrites
    itself. *)
Lemma replaceFirst_self (p : Trade) (vals : list Trade) :
  NoDup (map id vals) -> In p vals ->
  replaceFirst (id p) p vals = Some vals.
Proof.
  induction vals as [|v vals IH]; simpl; intros N I.
  - destruct I.
  - inversion N as [|? ? Nv Nr]; subst.
    destruct I as [->|I].
    + rewrite optStrEqb_refl. reflexivity.
    + destruct (optStrEqb (id v) (id p)) eqn:E.
      * apply optStrEqb_eq in E. exfalso. apply Nv. rewrite E.
        apply in_map, I.
      * rewrite (IH Nr I). reflexivity.
Qed.

Lemma NoDup_snoc (A : Type) (l : list A) (a : A) :
  NoDup l -> ~ In a l -> NoDup (l ++ [a]).
Proof.
  induction l as [|x l IH]; simpl; intros N I.
  - constructor; [ intros [] | constructor ].
  - inversion N as [|? ? Nx Nl]; subst. constructor.
    + intros J. apply in_app_or in J. destruct J as [J|[J|[]]].
      * contradiction.
      * apply I. left. symmetry. exact J.
    + apply IH; [ exact Nl | ]. intros J. apply I. right. exact J.
Qed.

Lemma prepare_id (t : Trade) : id (prepare t) = id t.
Proof.
  apply (prepareTrade_keeps_profit Date_new now currentStockIndex t).
Qed.

(** The first merge: the identifiers stay all different, and every trade
    of the document is in the result, prepared. *)
Lemma first_merge (existing : list (option string))
  (todo done vals : list Trade) :
  NoDup (map id (done ++ todo)) ->
  NoDup (map id vals) ->
  incl existing (map id vals) ->
  (forall j, In j (map id vals) -> In j existing \/ In j (map id done)) ->
  (forall t, In t done -> In (prepare t) vals) ->
  NoDup (map id (fold_left (mergeValue prepare existing) todo vals))
  /\ forall t, In t (done ++ todo) ->
       In (prepare t) (fold_left (mergeValue prepare existing) todo vals).
Proof.
  revert done vals. induction todo as [|t todo IH];
    intros done vals ND NV IE IJ IDn; simpl.
  - rewrite app_nil_r. split; assumption.
  - assert (Nt : ~ In (id t) (map id done)).
    { rewrite map_app in ND. simpl in ND.
      apply NoDup_remove_2 in ND. intros I. apply ND, in_or_app. left.
      exact I. }
    assert (Nd : forall u, In u done -> id (prepare u) <> id (prepare t)).
    { intros u Iu E. rewrite !prepare_id in E. apply Nt. rewrite <- E.
      apply in_map, Iu. }
    replace (done ++ t :: todo) with ((done ++ [t]) ++ todo) in *
      by (rewrite <- app_assoc; reflexivity).
    unfold mergeValue at 2 4.
    destruct (existsb (optStrEqb (id (prepare t))) existing) eqn:X.
    + apply existsb_optStrEqb in X.
      destruct (replaceFirst_found (id (prepare t)) (prepare t) vals
                  (IE _ X)) as [w R].
      rewrite R.
      pose proof (replaceFirst_ids _ _ _ w eq_refl R) as W.
      destruct (replaceFirst_In _ _ _ _ R) as [Ip Io].
      apply IH.
      * exact ND.
      * rewrite W. exact NV.
      * rewrite W. exact IE.
      * intros j Ij. rewrite W in Ij. destruct (IJ j Ij) as [H|H].
        -- left. exact H.
        -- right. rewrite map_app. apply in_or_app. left. exact H.
      * intros u Iu. apply in_app_or in Iu. destruct Iu as [Iu|[<-|[]]].
        -- apply Io; [ apply IDn, Iu | apply Nd, Iu ].
        -- exact Ip.
    + assert (Nx : ~ In (id (prepare t)) existing).
      { intros I. apply existsb_optStrEqb in I. congruence. }
      apply IH.
      * exact ND.
      * rewrite map_app. simpl. apply NoDup_snoc; [ exact NV | ].
        intros I. destruct (IJ _ I) as [H|H].
        -- contradiction.
        -- rewrite prepare_id in H. contradiction.
      * intros j Ij. rewrite map_app. apply in_or_app. left. apply IE, Ij.
      * intros j Ij. rewrite map_app in Ij. apply in_app_or in Ij.
        destruct Ij as [Ij|[<-|[]]].
        -- destruct (IJ j Ij) as [H|H]; [ left; exact H | right ].
           rewrite map_app. apply in_or_app. left. exact H.
        -- right. rewrite map_app. apply in_or_app. right. left.
           symmetry. apply prepare_id.
      * intros u Iu. apply in_or_app. apply in_app_or in Iu.
        destruct Iu as [Iu|[<-|[]]].
        -- left. apply IDn, Iu.
        -- right. left. reflexivity.
Qed.


(** A trade of the document that is already in the ledger, prepared,
    overwrites itself and is counted as updated. *)
Lemma mergeOne_self (vals : list Trade) (st : Importing) (t : Trade) :
  validRefs (i_heap st) (i_all st) ->
  deref (i_heap st) (i_all st) = vals ->
  NoDup (map id vals) ->
  In (prepare t) vals ->
  validRefs
    (i_heap (mergeOne Date_new now currentStockIndex (map id vals) st t))
    (i_all (mergeOne Date_new now currentStockIndex (map id vals) st t))
  /\ deref
       (i_heap (mergeOne Date_new now currentStockIndex (map id vals) st t))
       (i_all (mergeOne Date_new now currentStockIndex (map id vals) st t))
     = vals
  /\ i_updated (mergeOne Date_new now currentStockIndex (map id vals) st t)
     = S (i_updated st)
  /\ i_added (mergeOne Date_new now currentStockIndex (map id vals) st t)
     = i_added st.
Proof.
  intros V E N I. unfold mergeOne.
  assert (X : existsb (optStrEqb (id (prepare t))) (map id vals) = true)
    by (apply existsb_optStrEqb, in_map, I).
  rewrite X.
  pose proof (findIndex_replaceFirst (i_heap st) (id (prepare t))
                (prepare t) (i_all st) V) as F.
  rewrite E, (replaceFirst_self _ _ N I) in F.
  destruct (findIndexById (i_heap st) (id (prepare t)) (i_all st)).
  - destruct F as [R W]. simpl. injection R as <-. repeat split. exact W.
  - discriminate.
Qed.

Lemma second_merge (vals : list Trade) (ts : list Trade) (st : Importing) :
  validRefs (i_heap st) (i_all st) ->
  deref (i_heap st) (i_all st) = vals ->
  NoDup (map id vals) ->
  (forall t, In t ts -> In (prepare t) vals) ->
  validRefs
    (i_heap (fold_left (mergeOne Date_new now currentStockIndex
                          (map id vals)) ts st))
    (i_all (fold_left (mergeOne Date_new now currentStockIndex
                         (map id vals)) ts st))
  /\ deref
       (i_heap (fold_left (mergeOne Date_new now currentStockIndex
                             (map id vals)) ts st))
       (i_all (fold_left (mergeOne Date_new now currentStockIndex
                            (map id vals)) ts st))
     = vals
  /\ i_updated (fold_left (mergeOne Date_new now currentStockIndex
                             (map id vals)) ts st)
     = (i_updated st + List.length ts)%nat
  /\ i_added (fold_left (mergeOne Date_new now currentStockIndex
                           (map id vals)) ts st)
     = i_added st.
Proof.
  revert st. induction ts as [|t ts IH]; intros st V E N I; simpl.
  - repeat split; auto.
  - destruct (mergeOne_self vals st t V E N (I t (or_introl eq_refl)))
      as (V1 & E1 & U1 & A1).
    destruct (IH _ V1 E1 N (fun u Iu => I u (or_intror Iu)))
      as (V2 & E2 & U2 & A2).
    repeat split; auto; try congruence. rewrite U2, U1. lia.
Qed.

(** *** Sorting on values *)

Lemma deref_insertBy (h : list Trade) (x : nat) (l : list nat) :
  deref h (insertBy (byStatusThenDate h) x l)
  = insertValue statusThenDate (get h x) (deref h l).
Proof.
  induction l as [|y l IH].
  - reflexivity.
  - cbn [insertBy]. unfold deref at 2. cbn [map insertValue].
    change (byStatusThenDate h x y)
      with (statusThenDate (get h x) (get h y)).
    destruct (gt (statusThenDate (get h x) (get h y)) zero).
    + change (deref h (y :: insertBy (byStatusThenDate h) x l))
        with (get h y :: deref h (insertBy (byStatusThenDate h) x l)).
      rewrite IH. reflexivity.
    + reflexivity.
Qed.

Lemma deref_sortBy (h : list Trade) (l : list nat) :
  deref h (sortBy (byStatusThenDate h) l)
  = sortValues statusThenDate (deref h l).
Proof.
  induction l as [|x l IH].
  - reflexivity.
  - change (sortBy (byStatusThenDate h) (x :: l))
      with (insertBy (byStatusThenDate h) x (sortBy (byStatusThenDate h) l)).
    rewrite deref_insertBy, IH. reflexivity.
Qed.

Lemma validRefs_sortBy (h : list Trade) (cmp : nat -> nat -> num)
  (l : list nat) :
  validRefs h l -> validRefs h (sortBy cmp l).
Proof.
  unfold validRefs. rewrite !Forall_forall. intros V r I.
  apply V, (In_sortBy cmp), I.
Qed.

Lemma insertValue_perm (cmp : Trade -> Trade -> num) (x : Trade)
  (l : list Trade) :
  Permutation (x :: l) (insertValue cmp x l).
Proof.
  induction l as [|y l IH]; cbn [insertValue].
  - apply Permutation_refl.
  - destruct (gt (cmp x y) zero).
    + eapply perm_trans; [ apply perm_swap | apply perm_skip, IH ].
    + apply Permutation_refl.
Qed.

Lemma sortValues_perm (cmp : Trade -> Trade -> num) (l : list Trade) :
  Permutation l (sortValues cmp l).
Proof.
  induction l as [|x l IH]; cbn [sortValues fold_right].
  - apply Permutation_refl.
  - eapply perm_trans; [ apply perm_skip, IH | apply insertValue_perm ].
Qed.

Section Order.

Variable cmp : Trade -> Trade -> num.
Hypothesis cmp_asym :
  forall x y, gt (cmp x y) zero = true -> gt (cmp y x) zero = false.

Lemma insertValue_inOrder (x : Trade) (l : list Trade) :
  inOrder cmp l -> inOrder cmp (insertValue cmp x l).
Proof.
  induction l as [|y l IH]; intros O; cbn [insertValue].
  - simpl. auto.
  - destruct (gt (cmp x y) zero) eqn:G.
    + destruct O as [Oy Ol]. specialize (IH Ol).
      cbn [inOrder]. split; [ | exact IH ].
      destruct l as [|z l]; cbn [insertValue] in *.
      * apply cmp_asym, G.
      * destruct (gt (cmp x z) zero); [ exact Oy | apply cmp_asym, G ].
    + cbn [inOrder]. split; [ exact G | exact O ].
Qed.

Lemma sortValues_inOrder (l : list Trade) : inOrder cmp (sortValues cmp l).
Proof.
  induction l as [|x l IH]; cbn [sortValues fold_right].
  - exact I.
  - apply insertValue_inOrder, IH.
Qed.

Lemma sortValues_fixed (l : list Trade) :
  inOrder cmp l -> sortValues cmp l = l.
Proof.
  induction l as [|x l IH]; intros O; cbn [sortValues fold_right].
  - reflexivity.
  - destruct O as [Ox Ol]. fold (sortValues cmp l). rewrite (IH Ol).
    destruct l as [|y l]; cbn [insertValue]; [ reflexivity | ].
    rewrite Ox. reflexivity.
Qed.

End Order.


Lemma gt_sub_asym (a b : num) :
  gt (sub a b) zero = true -> gt (sub b a) zero = false.
Proof.
  destruct a as [| | |x], b as [| | |y]; try (cbv; congruence).
  unfold gt, lt, sub, fin, zero, ofZ.
  rewrite negb_true_iff, negb_false_iff. intros H.
  apply Qle_bool_iff. rewrite Qred_correct.
  assert (P : ~ Qred (x - y) <= 0)
    by (intros L; apply Qle_bool_iff in L; congruence).
  rewrite Qred_correct in P. lra.
Qed.

Lemma statusThenDate_asym (x y : Trade) :
  gt (statusThenDate x y) zero = true ->
  gt (statusThenDate y x) zero = false.
Proof.
  unfold statusThenDate.
  destruct (isActive x), (isActive y); cbn [andb negb];
    try apply gt_sub_asym; cbv; congruence.
Qed.

Lemma Permutation_filter' (f : Trade -> bool) (l l' : list Trade) :
  Permutation l l' -> Permutation (filter f l) (filter f l').
Proof.
  induction 1 as [|x l l' P IH|x y l|l l' l'' P1 IH1 P2 IH2]; simpl.
  - constructor.
  - destruct (f x); [ apply perm_skip | ]; exact IH.
  - destruct (f x), (f y); try apply Permutation_refl. apply perm_swap.
  - eapply perm_trans; eassumption.
Qed.

Lemma deref_filter (f : Trade -> bool) (h : list Trade) (l : list nat) :
  deref h (filter (fun r => f (get h r)) l) = filter f (deref h l).
Proof.
  induction l as [|r l IH]; simpl.
  - reflexivity.
  - destruct (f (get h r)); simpl; rewrite <- IH; reflexivity.
Qed.

(** An import in merge mode of a valid document, when the write to the
    storage succeeds. *)
Lemma import_merge_success (newIds : nat -> string) (data : Document)
  (ts : list Trade) (s : State) :
  validateImportData data = true ->
  trades data = Some ts ->
  importTradesFromJSON Date_new now true newIds currentStockIndex data
    defaultOptions s
  = let st :=
      fold_left
        (mergeOne Date_new now currentStockIndex
           (map id (deref (heap s) (allTrades s))))
        ts (mkImporting (heap s) (allTrades s) 0 0) in
    (mkState (i_heap st)
       (sortBy (byStatusThenDate (i_heap st)) (i_all st))
       (filter (fun r => isActive (get (i_heap st) r)) (i_all st))
       (filter (fun r => negb (isActive (get (i_heap st) r))) (i_all st))
       None None,
     mkResults (i_added st) (i_updated st) 0 0 (List.length ts) 0 None).
Proof.
  intros V T. unfold importTradesFromJSON. rewrite V, T.
  unfold deref. rewrite map_map. reflexivity.
Qed.

(** Two imports in merge mode of the same valid document, whose
    identifiers are all different, into a ledger whose identifiers are all
    different, at the same reading of the clock: the second import counts
    every trade as updated and leaves the trades of [allTrades] as the
    first import left them, in the same order; the active and the closed
    trades are the same up to their order. *)
Lemma import_merge_twice (newIds newIds' : nat -> string) (data : Document)
  (ts : list Trade) (s : State) :
  validRefs (heap s) (allTrades s) ->
  NoDup (map id (deref (heap s) (allTrades s))) ->
  validateImportData data = true ->
  trades data = Some ts ->
  NoDup (map id ts) ->
  let r1 :=
    importTradesFromJSON Date_new now true newIds currentStockIndex data
      defaultOptions s in
  let r2 :=
    importTradesFromJSON Date_new now true newIds' currentStockIndex data
      defaultOptions (fst r1) in
  snd r2 = mkResults 0 (List.length ts) 0 0 (List.length ts) 0 None
  /\ deref (heap (fst r2)) (allTrades (fst r2))
     = deref (heap (fst r1)) (allTrades (fst r1))
  /\ Permutation (deref (heap (fst r2)) (activeTrades (fst r2)))
                 (deref (heap (fst r1)) (activeTrades (fst r1)))
  /\ Permutation (deref (heap (fst r2)) (closedTrades (fst r2)))
                 (deref (heap (fst r1)) (closedTrades (fst r1))).
Proof.
  intros V N Val T ND r1 r2. subst r2 r1.
  rewrite (import_merge_success newIds data ts s Val T). cbv zeta.
  set (st1 := fold_left _ ts (mkImporting (heap s) (allTrades s) 0 0)).
  cbn [fst].
  destruct (mergeFold_value (map id (deref (heap s) (allTrades s))) ts
              (mkImporting (heap s) (allTrades s) 0 0) V) as [V1 E1].
  fold st1 in V1, E1. cbn [i_heap i_all] in E1.
  destruct (first_merge (map id (deref (heap s) (allTrades s))) ts []
              (deref (heap s) (allTrades s)) ND N (incl_refl _)
              (fun j Ij => or_introl Ij)
              (fun t (F : In t []) => match F with end))
    as [N1 I1].
  rewrite <- E1 in N1, I1. cbn [app] in I1.
  set (h1 := i_heap st1) in *. set (l1 := i_all st1) in *.
  set (vals := deref h1 (sortBy (byStatusThenDate h1) l1)).
  assert (Ev : vals = sortValues statusThenDate (deref h1 l1))
    by (subst vals; apply deref_sortBy).
  assert (Pv : Permutation (deref h1 l1) vals)
    by (rewrite Ev; apply sortValues_perm).
  assert (Nv : NoDup (map id vals)).
  { eapply Permutation_NoDup; [ apply Permutation_map, Pv | exact N1 ]. }
  assert (Iv : forall t, In t ts -> In (prepare t) vals).
  { intros t It. eapply Permutation_in; [ exact Pv | apply I1, It ]. }
  rewrite (import_merge_success newIds' data ts _ Val T). cbv zeta.
  cbn [heap allTrades activeTrades closedTrades fst snd].
  fold vals.
  destruct (second_merge vals ts
              (mkImporting h1 (sortBy (byStatusThenDate h1) l1) 0 0)
              (validRefs_sortBy h1 _ l1 V1) eq_refl Nv Iv)
    as (V2 & E2 & U2 & A2).
  set (st2 := fold_left _ ts
                (mkImporting h1 (sortBy (byStatusThenDate h1) l1) 0 0)) in *.
  cbn [i_updated i_added] in U2, A2.
  assert (S2 : deref (i_heap st2)
                 (sortBy (byStatusThenDate (i_heap st2)) (i_all st2)) = vals).
  { rewrite deref_sortBy, E2, Ev.
    apply sortValues_fixed, sortValues_inOrder, statusThenDate_asym. }
  split; [ | split; [ | split ] ].
  - rewrite U2, A2. reflexivity.
  - exact S2.
  - rewrite (deref_filter isActive), (deref_filter isActive), E2.
    apply Permutation_filter', Permutation_sym, Pv.
  - rewrite (deref_filter (fun t => negb (isActive t))),
            (deref_filter (fun t => negb (isActive t))), E2.
    apply Permutation_filter', Permutation_sym, Pv.
Qed.

Lemma jsonTrade_ids (Date_toISOString : num -> string) (vals : list Trade) :
  map id (map (jsonTrade Date_toISOString) vals) = map id vals.
Proof. rewrite map_map. apply map_ext. intros t. reflexivity. Qed.

(** C9, as the code has it.  A ledger whose identifiers are all
    different is exported, and the document (which the import accepts) is
    imported twice in merge mode, both imports reading the same clock and
    writing to the storage with success.  The second import reports every
    trade as updated, none as added and no error, and leaves the trades of
    the ledger ([allTrades]) unchanged, fields and order; the active
    trades and the closed trades are the same as after the first
    import. *)
Theorem second_import_of_export_changes_nothing
  (Date_toISOString : num -> string) (exportTime : num)
  (newIds newIds' : nat -> string) (s : State) :
  validRefs (heap s) (allTrades s) ->
  NoDup (map id (deref (heap s) (allTrades s))) ->
  validateImportData (exportAllTradesJSON Date_toISOString exportTime s)
  = true ->
  let data := exportAllTradesJSON Date_toISOString exportTime s in
  let r1 :=
    importTradesFromJSON Date_new now true newIds currentStockIndex data
      defaultOptions s in
  let r2 :=
    importTradesFromJSON Date_new now true newIds' currentStockIndex data
      defaultOptions (fst r1) in
  snd r2
  = mkResults 0 (List.length (allTrades s)) 0 0 (List.length (allTrades s))
      0 None
  /\ deref (heap (fst r2)) (allTrades (fst r2))
     = deref (heap (fst r1)) (allTrades (fst r1))
  /\ Permutation (deref (heap (fst r2)) (activeTrades (fst r2)))
                 (deref (heap (fst r1)) (activeTrades (fst r1)))
  /\ Permutation (deref (heap (fst r2)) (closedTrades (fst r2)))
                 (deref (heap (fst r1)) (closedTrades (fst r1))).
Proof.
  intros V N Val data r1 r2.
  pose proof (import_merge_twice newIds newIds' data
                (map (jsonTrade Date_toISOString)
                   (deref (heap s) (allTrades s))) s V N Val eq_refl) as M.
  rewrite jsonTrade_ids in M. specialize (M N). cbv zeta in M.
  unfold deref at 1 2 in M. rewrite !length_map in M. exact M.
Qed.

End MergeFacts.

(** The ledger of two active trades, exported, and the document imported
    twice on 6 January 2024. *)
Lemma second_import_of_export_changes_nothing_witness :
  snd (Ledger.importTradesFromJSON Examples.exDate_new Examples.exLater true
         Examples.exNewIds None
         (Ledger.exportAllTradesJSON Examples.exDate_toISOString
            Examples.exLater Examples.exLedger3)
         Ledger.defaultOptions
         (fst (Ledger.importTradesFromJSON Examples.exDate_new
                 Examples.exLater true Examples.exNewIds None
                 (Ledger.exportAllTradesJSON Examples.exDate_toISOString
                    Examples.exLater Examples.exLedger3)
                 Ledger.defaultOptions Examples.exLedger3)))
  = Ledger.mkResults 0 2 0 0 2 0 None.
Proof.
  refine (proj1 (second_import_of_export_changes_nothing Examples.exDate_new
                   Examples.exLater None Examples.exDate_toISOString
                   Examples.exLater Examples.exNewIds Examples.exNewIds
                   Examples.exLedger3 _ _ eq_refl)).
  - repeat constructor.
  - repeat constructor; simpl; intuition discriminate.
Defined.

(** C9 fails as stated, in two ways.  When the two imports read the
    clock on different days, the holding days of the active trades are
    computed anew and the trades of the ledger differ after the second
    import.  And at one reading of the clock, [activeTrades], which the
    import filters from [allTrades] before it sorts [allTrades], is in the
    order of the document after the first import and newest first after
    the second. *)
Lemma second_import_changes_ledger :
  let data :=
    Ledger.exportAllTradesJSON Examples.exDate_toISOString Examples.exLater
      Examples.exLedger3 in
  let s1 :=
    fst (Ledger.importTradesFromJSON Examples.exDate_new Examples.exLater
           true Examples.exNewIds None data Ledger.defaultOptions
           Examples.exLedger3) in
  let s2 :=
    fst (Ledger.importTradesFromJSON Examples.exDate_new Examples.exLater
           true Examples.exNewIds None data Ledger.defaultOptions s1) in
  let s2' :=
    fst (Ledger.importTradesFromJSON Examples.exDate_new Examples.exLater2
           true Examples.exNewIds None data Ledger.defaultOptions s1) in
  Ledger.deref (Ledger.heap s2') (Ledger.allTrades s2')
  <> Ledger.deref (Ledger.heap s1) (Ledger.allTrades s1)
  /\ map Ledger.id (Ledger.deref (Ledger.heap s1) (Ledger.activeTrades s1))
     = [Some "trade_1"; Some "trade_2"]%string
  /\ map Ledger.id (Ledger.deref (Ledger.heap s2) (Ledger.activeTrades s2))
     = [Some "trade_2"; Some "trade_1"]%string
  /\ Ledger.deref (Ledger.heap s2) (Ledger.activeTrades s2)
     <> Ledger.deref (Ledger.heap s1) (Ledger.activeTrades s1).
Proof.
  vm_compute. repeat split; intros E; discriminate E.
Qed.

(* ================================================================== *)
(** * Further properties *)
(* ================================================================== *)

(** ** What a run of the backtest records *)

Section BacktestRuns.

Import Backtest Props.

Variable Date_new : string -> num.
Variable setMonthPlus6 : num -> num.
Variable pg : Page.
Variable dates : list string.
Variables prices dti : list num.
Variable sd : SevenDayDTIData.

Local Notation "'loopAt'" :=
  (loopUpTo Date_new setMonthPlus6 pg dates prices dti sd).
Local Notation "'run'" :=
  (backtestWithActiveDetection Date_new setMonthPlus6 pg (Some dates)
     (Some prices) (Some dti) (Some sd)).

Local Ltac split_ifs :=
  repeat match goal with
         | |- context [if ?c then _ else _] => destruct c
         end.

(** What the loop keeps in its trades: a completed trade holds the bars of
    its entry and of its exit, and the open trade the bar of its entry and
    the price of the current bar. *)
Lemma loop_records (k : nat) :
  Forall (fun t => exists a b, (0 < a)%nat /\ (a < b)%nat /\ (b <= k)%nat
                               /\ exitRecorded dates prices t a b)
    (completedTrades (loopAt k))
  /\ match activeTrade (loopAt k) with
     | None => True
     | Some t =>
         stillOpen t
         /\ currentPrice t = nth k prices NaN
         /\ exists a, (0 < a)%nat /\ (a <= k)%nat
                      /\ entryDate t = nth a dates EmptyString
                      /\ entryPrice t = nth a prices NaN
     end.
Proof.
  induction k as [|k [C A]].
  - split; [ constructor | exact I ].
  - rewrite loopUpTo_S. unfold step.
    assert (C' : Forall
                   (fun t => exists a b,
                        (0 < a)%nat /\ (a < b)%nat /\ (b <= S k)%nat
                        /\ exitRecorded dates prices t a b)
                   (completedTrades (loopAt k))).
    { eapply Forall_impl; [ | exact C ].
      intros t (a & b & ? & ? & ? & ?). exists a, b.
      split; [ assumption | ]. split; [ assumption | ].
      split; [ lia | assumption ]. }
    destruct (activeTrade (loopAt k)) as [t|] eqn:E.
    + destruct A as ((X1 & X2 & X3 & X4) & _ & a & Ha & Hk & Hd & Hp).
      split_ifs; simpl; (split; [ | try exact I ]);
        try (apply Forall_app; split; [ exact C' | ];
             constructor; [ | constructor ];
             exists a, (S k); unfold exitRecorded; simpl; rewrite Hp;
             repeat split; auto; lia);
        try exact C'.
      repeat split; auto.
      exists a. repeat split; auto.
    + destruct (entryConditions _ _ _ _ _ _ _ _); simpl.
      * split; [ exact C' | ].
        repeat split.
        exists (S k). repeat split; auto; lia.
      * rewrite E. split; [ exact C' | exact I ].
Qed.

(** The trades and the bars: two bars at least for a completed trade and
    one for the open trade. *)
Lemma loop_count (k : nat) :
  (2 * List.length (completedTrades (loopAt k))
   + openCount (activeTrade (loopAt k)) <= k)%nat.
Proof.
  induction k as [|k IH].
  - simpl. lia.
  - rewrite loopUpTo_S. unfold step.
    destruct (activeTrade (loopAt k)) as [t|] eqn:E; simpl in IH.
    + split_ifs; simpl; rewrite ?length_app; simpl; lia.
    + destruct (entryConditions _ _ _ _ _ _ _ _); simpl.
      * lia.
      * rewrite E. simpl. lia.
Qed.

(** Every trade of the loop was entered on a date that is not before the
    end of the warm-up period, and holds the time value of that date. *)
Lemma loop_warmup (k : nat) :
  Forall (fun t =>
            signalDate t = Date_new (entryDate t)
            /\ ge (Date_new (entryDate t))
                  (earliestAllowableDate Date_new setMonthPlus6 dates) = true)
    (completedTrades (loopAt k)
     ++ match activeTrade (loopAt k) with Some t => [t] | None => [] end).
Proof.
  induction k as [|k IH].
  - constructor.
  - rewrite loopUpTo_S. unfold step.
    destruct (activeTrade (loopAt k)) as [t|] eqn:E.
    + apply Forall_app in IH. destruct IH as [C A].
      inversion A as [|? ? [S G] _]; subst.
      split_ifs; simpl; rewrite ?app_nil_r;
        apply Forall_app; split; auto.
    + destruct (entryConditions _ _ _ _ _ _ _ _) eqn:C; simpl.
      * rewrite app_nil_r in IH. apply Forall_app. split; [ exact IH | ].
        constructor; [ | constructor ]. simpl. split; [ reflexivity | ].
        unfold entryConditions in C.
        rewrite !andb_true_iff in C. apply C.
      * rewrite E. exact IH.
Qed.

(** X1. Every completed trade of a run was entered at a bar [a] and exited
    at a later bar [b] of the series: it holds the dates and the prices of
    these two bars, its [plPercent] is the change from the entry price to
    the exit price in percent, and its exit reason is "Take Profit",
    "Stop Loss" or "Time Exit". *)
Theorem completed_trades_record_their_exit :
  Forall (fun t => exists a b,
              (0 < a)%nat /\ (a < b)%nat /\ (b < List.length dates)%nat
              /\ exitRecorded dates prices t a b)
    (res_completedTrades run).
Proof.
  unfold backtestWithActiveDetection.
  destruct (negb (List.length dates =? List.length prices)%nat
            || negb (List.length dates =? List.length dti)%nat) eqn:L.
  - constructor.
  - apply orb_false_elim in L. destruct L as [_ L].
    apply negb_false_iff, Nat.eqb_eq in L. simpl.
    eapply Forall_impl; [ | apply loop_records ].
    intros t (a & b & ? & ? & ? & ?). exists a, b.
    split; [ assumption | ]. split; [ assumption | ].
    split; [ lia | assumption ].
Qed.

(** X2. The trade that a run returns as open has none of its exit fields
    set, was entered at a bar of the series, and holds as current price the
    price of the last bar. *)
Theorem open_trade_is_marked_to_last_bar (t : Trade) :
  res_activeTrade run = Some t ->
  stillOpen t
  /\ currentPrice t = nth (List.length prices - 1) prices NaN
  /\ exists a, (0 < a)%nat /\ (a < List.length dates)%nat
               /\ entryDate t = nth a dates EmptyString
               /\ entryPrice t = nth a prices NaN.
Proof.
  unfold backtestWithActiveDetection.
  destruct (negb (List.length dates =? List.length prices)%nat
            || negb (List.length dates =? List.length dti)%nat) eqn:L.
  - discriminate.
  - apply orb_false_elim in L. destruct L as [L1 L2].
    apply negb_false_iff, Nat.eqb_eq in L1, L2. simpl.
    intros A.
    pose proof (proj2 (loop_records (List.length dti - 1))) as R.
    rewrite A in R. destruct R as (O & P & a & ? & ? & ? & ?).
    split; [ exact O | ]. split; [ rewrite <- L1, L2; exact P | ].
    exists a. repeat split; auto. lia.
Qed.

(** X3. A run on [n] bars never yields more than [(n - 1) / 2] completed
    trades: a trade takes one bar to enter and a later bar to exit, the
    first bar is never used, and an open trade has taken one more bar. *)
Theorem trades_need_two_bars :
  (2 * List.length (res_completedTrades run)
   + openCount (res_activeTrade run) <= List.length dates - 1)%nat.
Proof.
  unfold backtestWithActiveDetection.
  destruct (negb (List.length dates =? List.length prices)%nat
            || negb (List.length dates =? List.length dti)%nat) eqn:L.
  - simpl. lia.
  - apply orb_false_elim in L. destruct L as [_ L].
    apply negb_false_iff, Nat.eqb_eq in L. simpl.
    rewrite L. apply loop_count.
Qed.

End BacktestRuns.

(** X4. No trade that [backtest] returns, completed or open, was entered
    before the end of the warm-up period: the time value of its entry date
    is at least that of the first date moved six months on, and it is the
    value kept in [signalDate]. *)
Theorem no_trade_enters_during_warmup (Date_new : string -> num)
  (setMonthPlus6 : num -> num) (pg : Backtest.Page)
  (ds : option (list string)) (ps xs : option (list num))
  (sdd : option Backtest.SevenDayDTIData) :
  Forall (fun t =>
            Backtest.signalDate t = Date_new (Backtest.entryDate t)
            /\ ge (Date_new (Backtest.entryDate t))
                  (setMonthPlus6
                     (Backtest.firstDate Date_new
                        (match ds with Some l => l | None => [] end)))
               = true)
    (Backtest.backtest Date_new setMonthPlus6 pg ds ps xs sdd).
Proof.
  unfold Backtest.backtest, Backtest.backtestWithActiveDetection.
  destruct ds as [ds'|], ps as [ps'|], xs as [xs'|], sdd as [sd'|];
    try constructor.
  destruct (negb (List.length ds' =? List.length ps')%nat
            || negb (List.length ds' =? List.length xs')%nat).
  - constructor.
  - simpl.
    exact (loop_warmup Date_new setMonthPlus6 pg ds' ps' xs' sd'
             (List.length xs' - 1)).
Qed.

(** On the first two bars of the example series the run enters a trade at
    the second bar and returns it as open. *)
Lemma open_trade_is_marked_to_last_bar_witness :
  exists t,
    Backtest.res_activeTrade
      (Backtest.backtestWithActiveDetection Examples.exDate_new
         Examples.exSetMonthPlus6 Examples.exPage
         (Some (firstn 2 Examples.exDates))
         (Some (firstn 2 Examples.exPrices))
         (Some (firstn 2 Examples.exDti)) (Some Examples.exSevenDay))
    = Some t
    /\ Props.stillOpen t
    /\ Backtest.currentPrice t = ofZ 100.
Proof.
  eexists. split; [ vm_compute; reflexivity | ].
  destruct (open_trade_is_marked_to_last_bar Examples.exDate_new
              Examples.exSetMonthPlus6 Examples.exPage
              (firstn 2 Examples.exDates) (firstn 2 Examples.exPrices)
              (firstn 2 Examples.exDti) Examples.exSevenDay _ eq_refl)
    as (O & P & _).
  split; [ exact O | exact P ].
Defined.

(** ** The metrics of a run *)

Section MetricsFacts.

Import Backtest Optimizer Props.

Variable Date_new : string -> num.

Local Notation "'accountAll'" := (fold_left (account Date_new)).

(** The loop counts each trade once as winning or losing, and adds one
    point to the equity curve. *)
Lemma account_counts (ts : list Trade) (a : Acc) :
  (a_winningTrades (accountAll ts a) + a_losingTrades (accountAll ts a)
   = a_winningTrades a + a_losingTrades a + List.length ts)%nat
  /\ (List.length (a_equityCurve (accountAll ts a))
      = List.length (a_equityCurve a) + List.length ts)%nat.
Proof.
  revert a. induction ts as [|t ts IH]; intros a; simpl.
  - lia.
  - destruct (IH (account Date_new a t)) as [-> ->].
    unfold account; simpl. rewrite length_app. simpl.
    destruct (gt _ _); lia.
Qed.

(** The four counters of exit reasons, on trades that hold one of the
    three reasons of the loop. *)
Lemma account_reasons (ts : list Trade) (a : Acc) :
  Forall (fun t => exitReason t = Some "Take Profit"%string
                   \/ exitReason t = Some "Stop Loss"%string
                   \/ exitReason t = Some "Time Exit"%string) ts ->
  (a_takeProfitCount (accountAll ts a) + a_stopLossCount (accountAll ts a)
   + a_timeExitCount (accountAll ts a)
   = a_takeProfitCount a + a_stopLossCount a + a_timeExitCount a
     + List.length ts)%nat
  /\ a_endOfDataCount (accountAll ts a) = a_endOfDataCount a.
Proof.
  intros F. revert a. induction F as [|t ts R _ IH]; intros a; simpl.
  - lia.
  - destruct (IH (account Date_new a t)) as [-> ->].
    unfold account; simpl.
    destruct R as [-> | [-> | ->]]; simpl; lia.
Qed.

(** X5. [calculatePerformanceMetrics] counts every trade that it keeps
    either as winning or as losing, never as both and never as neither
    (a trade whose [plPercent] is [NaN] or absent is a losing one); and the
    equity curve that it returns has one point more than there are such
    trades. *)
Theorem metrics_count_each_trade_once (trades : option (list Trade)) :
  let m := calculatePerformanceMetrics Date_new trades in
  (winningTrades m + losingTrades m = totalTrades m)%nat
  /\ match equityCurve m with
     | Some curve => List.length curve = S (totalTrades m)
     | None => trades = None \/ trades = Some []
     end.
Proof.
  destruct trades as [[|t ts]|]; [ simpl; auto | | simpl; auto ].
  unfold calculatePerformanceMetrics. cbv zeta.
  cbn [winningTrades losingTrades totalTrades equityCurve].
  destruct (account_counts (filter isCompleted (t :: ts)) initAcc) as [W E].
  rewrite W, E. simpl. lia.
Qed.

End MetricsFacts.

Section SearchCounts.

Import Backtest Optimizer Props.

Variable Date_new : string -> num.
Variable setMonthPlus6 : num -> num.
Variable calculateDTI : list num -> list num -> num -> num -> num -> list num.
Variable calculate7DayDTI :
  list string -> list num -> list num -> num -> num -> num -> SevenDayDTIData.
Variable pg : Page.
Variable dates : list string.
Variables high low close : list num.

Local Notation "'search'" :=
  (findOptimalParameters Date_new setMonthPlus6 calculateDTI calculate7DayDTI
     pg dates high low close).

(** X6. In the parameter search every trade counted in the metrics of a
    combination was closed by take-profit, stop-loss or time exit: the
    three counters add up to [totalTrades], and [endOfDataCount] is [0]
    for every combination. *)
Theorem search_metrics_count_three_exit_reasons (p : Params) :
  let m := evaluate Date_new setMonthPlus6 calculateDTI calculate7DayDTI pg
             dates high low close p in
  (takeProfitCount m + stopLossCount m + timeExitCount m = totalTrades m)%nat
  /\ endOfDataCount m = 0%nat.
Proof.
  unfold evaluate.
  set (pg' := mkPage _ _ _ _ _).
  set (dti := calculateDTI _ _ _ _ _).
  set (sd := calculate7DayDTI _ _ _ _ _ _).
  assert (R : Forall
                (fun t => exitReason t = Some "Take Profit"%string
                          \/ exitReason t = Some "Stop Loss"%string
                          \/ exitReason t = Some "Time Exit"%string)
                (res_completedTrades
                   (backtestWithActiveDetection Date_new setMonthPlus6 pg'
                      (Some dates) (Some close) (Some dti) (Some sd)))).
  { unfold backtestWithActiveDetection.
    destruct (_ || _); simpl; [ constructor | ].
    eapply Forall_impl;
      [ | apply (loop_records Date_new setMonthPlus6 pg' dates close dti sd) ].
    intros t (a & b & _ & _ & _ & X). apply X. }
  destruct (res_completedTrades _) as [|t ts] eqn:E.
  - split; reflexivity.
  - unfold calculatePerformanceMetrics. cbv zeta.
    cbn [takeProfitCount stopLossCount timeExitCount endOfDataCount
         totalTrades].
    assert (F : Forall
                  (fun t => exitReason t = Some "Take Profit"%string
                            \/ exitReason t = Some "Stop Loss"%string
                            \/ exitReason t = Some "Time Exit"%string)
                  (filter isCompleted (t :: ts))).
    { apply Forall_forall. intros x Hx. apply filter_In in Hx.
      rewrite Forall_forall in R. apply R, Hx. }
    destruct (account_reasons Date_new _ initAcc F) as [C Z].
    split; [ rewrite C; simpl; lia | rewrite Z; reflexivity ].
Qed.

Lemma length_flat_map_const (A B : Type) (f : A -> list B) (n : nat)
  (l : list A) :
  (forall x, List.length (f x) = n) ->
  List.length (flat_map f l) = (List.length l * n)%nat.
Proof.
  intros H. induction l as [|x l IH]; simpl.
  - reflexivity.
  - rewrite length_app, H, IH. reflexivity.
Qed.

Lemma length_combinations (ranges : Ranges) :
  List.length (combinations ranges)
  = (List.length (rg_r ranges) * (List.length (rg_s ranges)
     * (List.length (rg_u ranges) * (List.length (rg_entryThreshold ranges)
     * (List.length (rg_takeProfitPercent ranges)
     * (List.length (rg_stopLossPercent ranges)
     * List.length (rg_maxHoldingDays ranges)))))))%nat.
Proof.
  unfold combinations.
  repeat (erewrite length_flat_map_const; [ f_equal | intros ? ]).
  apply length_map.
Qed.

Lemma search_results (ps : list Params) (o : Outcome) :
  map fst
    (allResults
       (fold_left
          (visit Date_new setMonthPlus6 calculateDTI calculate7DayDTI pg
             dates high low close) ps o))
  = map fst (allResults o) ++ ps.
Proof.
  revert o. induction ps as [|p ps IH]; intros o; simpl.
  - rewrite app_nil_r. reflexivity.
  - rewrite IH. simpl. rewrite map_app, <- app_assoc. reflexivity.
Qed.

(** X7. The search runs the backtest once for every combination of the
    grid and returns one result for each, in the order of the seven nested
    loops: their number is the product of the lengths of the seven ranges,
    which is [2187] for the default ranges. *)
Theorem search_returns_one_result_per_combination
  (paramRanges : option Ranges) :
  let ranges :=
    match paramRanges with Some r => r | None => defaultRanges end in
  map fst (allResults (search paramRanges)) = combinations ranges
  /\ List.length (allResults (search paramRanges))
     = (List.length (rg_r ranges) * (List.length (rg_s ranges)
        * (List.length (rg_u ranges)
        * (List.length (rg_entryThreshold ranges)
        * (List.length (rg_takeProfitPercent ranges)
        * (List.length (rg_stopLossPercent ranges)
        * List.length (rg_maxHoldingDays ranges)))))))%nat
  /\ List.length (allResults (search None)) = 2187%nat.
Proof.
  assert (M : forall r,
             map fst (allResults (search r))
             = combinations
                 (match r with Some r => r | None => defaultRanges end)).
  { intros r. unfold findOptimalParameters. rewrite search_results.
    reflexivity. }
  assert (L : forall r,
             List.length (allResults (search r))
             = List.length
                 (combinations
                    (match r with Some r => r | None => defaultRanges end))).
  { intros r. rewrite <- M, length_map. reflexivity. }
  split; [ apply M | ]. split.
  - rewrite L. apply length_combinations.
  - rewrite L, length_combinations. reflexivity.
Qed.

End SearchCounts.

(** ** The validation of the parameters *)

Section Validation.

Import Backtest.

(** A value fails the test of a positive number, [isNaN(x) || x <= 0],
    exactly when it does not compare greater than [0]. *)
Lemma not_positive (x : num) : isNaN x || le x zero = negb (gt x zero).
Proof.
  destruct x as [| | |q]; try reflexivity.
  unfold le, gt, lt, zero, ofZ. simpl. rewrite negb_involutive. reflexivity.
Qed.

(** X8. [validateParameters] reports no error exactly when [parseInt] of
    the three EMA periods and of the holding period compares greater than
    [0], the take-profit and the stop-loss compare greater than [0], and
    the entry threshold is a number.  It asks for nothing else: an entry
    threshold of any sign and size passes, and so does a take-profit or
    stop-loss of [Infinity]. *)
Theorem parameters_are_valid_iff_positive (r s u : num) (pg : Page) :
  isValid (validateParameters r s u pg) = true
  <-> gt (parseInt r) zero = true
      /\ gt (parseInt s) zero = true
      /\ gt (parseInt u) zero = true
      /\ isNaN (entry_threshold pg) = false
      /\ gt (take_profit pg) zero = true
      /\ gt (stop_loss pg) zero = true
      /\ gt (parseInt (max_days pg)) zero = true.
Proof.
  unfold validateParameters, isValid, parseFloat. cbv zeta.
  rewrite !not_positive.
  destruct (gt (parseInt r) zero), (gt (parseInt s) zero),
    (gt (parseInt u) zero), (isNaN (entry_threshold pg)),
    (gt (take_profit pg) zero), (gt (stop_loss pg) zero),
    (gt (parseInt (max_days pg)) zero);
    simpl; split; intros H; repeat split;
    try reflexivity; try discriminate;
    repeat match goal with
           | H : _ /\ _ |- _ => destruct H
           end; discriminate.
Qed.

End Validation.

(** ** Lists and sorted arrays *)

Section ListFacts.

Import Ledger.

Lemma Permutation_filter_gen (A : Type) (f : A -> bool) (l l' : list A) :
  Permutation l l' -> Permutation (filter f l) (filter f l').
Proof.
  induction 1 as [|x l l' P IH|x y l|l l' l'' P1 IH1 P2 IH2]; simpl.
  - constructor.
  - destruct (f x); [ constructor | ]; exact IH.
  - destruct (f x), (f y); try reflexivity. apply perm_swap.
  - eapply perm_trans; eauto.
Qed.

Lemma insertBy_perm (cmp : nat -> nat -> num) (x : nat) (l : list nat) :
  Permutation (insertBy cmp x l) (x :: l).
Proof.
  induction l as [|y l IH]; simpl.
  - reflexivity.
  - destruct (gt (cmp x y) zero).
    + eapply perm_trans; [ apply perm_skip, IH | apply perm_swap ].
    + reflexivity.
Qed.

Lemma sortBy_perm (cmp : nat -> nat -> num) (l : list nat) :
  Permutation (sortBy cmp l) l.
Proof.
  induction l as [|x l IH].
  - reflexivity.
  - change (sortBy cmp (x :: l)) with (insertBy cmp x (sortBy cmp l)).
    eapply perm_trans; [ apply insertBy_perm | apply perm_skip, IH ].
Qed.

Lemma length_filter_deref (f : Trade -> bool) (h : list Trade)
  (l : list nat) :
  List.length (filter f (deref h l))
  = List.length (filter (fun r => f (get h r)) l).
Proof.
  unfold deref. induction l as [|r l IH]; simpl.
  - reflexivity.
  - destruct (f (get h r)); simpl; rewrite IH; reflexivity.
Qed.

(** The trades of a sorted array are those of the array. *)
Lemma deref_sortBy_perm (h : list Trade) (cmp : nat -> nat -> num)
  (l : list nat) :
  Permutation (deref h (sortBy cmp l)) (deref h l).
Proof. apply Permutation_map, sortBy_perm. Qed.

Lemma find_none_filter (A : Type) (f : A -> bool) (l : list A) :
  find f (filter (fun x => negb (f x)) l) = None.
Proof.
  induction l as [|x l IH]; simpl.
  - reflexivity.
  - destruct (f x) eqn:E; simpl; [ exact IH | rewrite E; exact IH ].
Qed.

Lemma find_none_perm (A : Type) (f : A -> bool) (l l' : list A) :
  Permutation l l' -> find f l = None -> find f l' = None.
Proof.
  intros P H.
  destruct (find f l') as [x|] eqn:E; [ | reflexivity ].
  apply find_some in E. destruct E as [I F].
  apply (Permutation_in _ (Permutation_sym P)) in I.
  rewrite (find_none _ _ H _ I) in F. discriminate.
Qed.

End ListFacts.

(** ** The statistics *)

Section CountFacts.

Import Ledger Statistics.

(** A comparison with a number that is not [NaN]. *)
Lemma gt_or_le (x c : num) :
  isNaN x = false -> isNaN c = false -> gt x c = negb (le x c).
Proof.
  destruct x as [| | |a], c as [| | |b]; intros X C;
    try discriminate; reflexivity.
Qed.

Lemma gt_le_NaN (c : num) : gt NaN c = false /\ le NaN c = false.
Proof. split; destruct c; reflexivity. Qed.

(** The loop of [getTradeStatistics] counts the trades that gained as
    winning and all others as losing. *)
Lemma tally_counts (ts : list Trade) (a : Tally) :
  t_winningTrades (fold_left tally ts a)
  = (t_winningTrades a + List.length (filter isProfitable ts))%nat
  /\ t_losingTrades (fold_left tally ts a)
     = (t_losingTrades a
        + List.length (filter (fun t => negb (isProfitable t)) ts))%nat.
Proof.
  revert a. induction ts as [|t ts IH]; intros a; simpl.
  - lia.
  - destruct (IH (tally a t)) as [-> ->].
    unfold tally, isProfitable.
    destruct (gt (plOf t) zero); simpl; lia.
Qed.

Lemma length_filter_split (A : Type) (f : A -> bool) (l : list A) :
  (List.length (filter f l)
   + List.length (filter (fun x => negb (f x)) l) = List.length l)%nat.
Proof.
  induction l as [|x l IH]; simpl.
  - reflexivity.
  - destruct (f x); simpl; lia.
Qed.

(** A trade that did not gain has lost or broken even, or its
    [plPercent] is no number. *)
Lemma not_profitable_split (ts : list Trade) :
  List.length (filter (fun t => negb (isProfitable t)) ts)
  = (List.length (filter isLosing ts)
     + List.length (filter (fun t => isNaN (plOf t)) ts))%nat.
Proof.
  induction ts as [|t ts IH]; simpl.
  - reflexivity.
  - unfold isProfitable, isLosing in *.
    destruct (isNaN (plOf t)) eqn:N.
    + destruct (plOf t); try discriminate. simpl. lia.
    + rewrite (gt_or_le _ zero N eq_refl), negb_involutive.
      destruct (le (plOf t) zero); simpl; lia.
Qed.

(** X9. [getTradeStatistics] counts every closed trade once, as winning or
    as losing.  The winning trades are those that [getTrades] returns as
    profitable; the losing trades are those that it returns as not
    profitable together with the closed trades whose [plPercent] is no
    number, which the statistics count as losing and which [getTrades]
    returns under neither filter. *)
Theorem statistics_count_each_closed_trade_once (s : State) :
  let st := getTradeStatistics s in
  (winningTrades st + losingTrades st = totalClosed st)%nat
  /\ winningTrades st
     = List.length (getTrades (Some "closed"%string) (Some true) s)
  /\ losingTrades st
     = (List.length (getTrades (Some "closed"%string) (Some false) s)
        + List.length
            (filter (fun r => isNaN (plOf (get (heap s) r)))
               (closedTrades s)))%nat.
Proof.
  unfold getTradeStatistics, statisticsOf, getTrades. cbv zeta.
  cbn [winningTrades losingTrades totalClosed String.eqb Ascii.eqb
       Bool.eqb negb].
  destruct (tally_counts (deref (heap s) (closedTrades s))
              (mkTally 0 0 zero zero zero)) as [-> ->].
  cbn [t_winningTrades t_losingTrades Nat.add].
  rewrite not_profitable_split, !length_filter_deref.
  pose proof (length_filter_split _ isProfitable
                (deref (heap s) (closedTrades s))) as L.
  rewrite not_profitable_split, !length_filter_deref in L.
  repeat split. exact L.
Qed.

End CountFacts.

(** *** Holding periods *)

Section HoldingPeriods.

Import Ledger Statistics.

Lemma calcStats_count (ts : list Trade) :
  ps_count (calcStats ts) = List.length ts.
Proof. destruct ts; reflexivity. Qed.

(** A number of days is in one of the three ranges, and in none when it
    is [NaN]. *)
Lemma one_range (x : num) :
  ((if le x (ofZ 7) then 1 else 0)
   + (if gt x (ofZ 7) && le x (ofZ 21) then 1 else 0)
   + (if gt x (ofZ 21) then 1 else 0)
   = if isNaN x then 0 else 1)%nat.
Proof.
  destruct (isNaN x) eqn:N.
  - destruct x; try discriminate. reflexivity.
  - rewrite (gt_or_le x (ofZ 7) N eq_refl), (gt_or_le x (ofZ 21) N eq_refl).
    destruct (le x (ofZ 7)) eqn:A; simpl.
    + rewrite (le_trans x (ofZ 7) (ofZ 21) A eq_refl). reflexivity.
    + destruct (le x (ofZ 21)); reflexivity.
Qed.

Lemma ranges_split (ts : list Trade) :
  (List.length (filter (fun t => le (holdingDaysOf t) (ofZ 7)) ts)
   + List.length
       (filter (fun t => gt (holdingDaysOf t) (ofZ 7)
                         && le (holdingDaysOf t) (ofZ 21)) ts)
   + List.length (filter (fun t => gt (holdingDaysOf t) (ofZ 21)) ts)
   = List.length (filter (fun t => negb (isNaN (holdingDaysOf t))) ts))%nat.
Proof.
  induction ts as [|t ts IH]; simpl.
  - reflexivity.
  - pose proof (one_range (holdingDaysOf t)) as R.
    destruct (le (holdingDaysOf t) (ofZ 7)),
      (gt (holdingDaysOf t) (ofZ 7) && le (holdingDaysOf t) (ofZ 21)),
      (gt (holdingDaysOf t) (ofZ 21)),
      (isNaN (holdingDaysOf t)); simpl in *; lia.
Qed.

(** X10. The three holding periods of [getHoldingPeriodStats] (up to 7
    days, 8 to 21 days, more than 21 days) never share a trade, and
    together they hold the closed trades whose number of days between
    entry and exit is a number.  A closed trade with an invalid entry or
    exit date is in none of the three. *)
Theorem holding_periods_partition_the_dated_trades (s : State) :
  let stats := getHoldingPeriodStats s in
  (ps_count (shortTerm stats) + ps_count (mediumTerm stats)
   + ps_count (longTerm stats)
   = List.length
       (filter (fun t => negb (isNaN (holdingDaysOf t)))
          (deref (heap s) (closedTrades s))))%nat.
Proof.
  unfold getHoldingPeriodStats. cbv zeta.
  destruct (deref (heap s) (closedTrades s)) as [|t ts] eqn:E.
  - reflexivity.
  - cbn [shortTerm mediumTerm longTerm]. rewrite !calcStats_count.
    apply ranges_split.
Qed.

End HoldingPeriods.

(** *** The distribution of profit and loss *)

Section Distribution.

Import Ledger Statistics.

Lemma increment_sum (cs : list nat) (i : nat) :
  (i < List.length cs)%nat ->
  list_sum (increment cs i) = S (list_sum cs)
  /\ List.length (increment cs i) = List.length cs.
Proof.
  revert i. induction cs as [|c cs IH]; intros i L; simpl in L.
  - lia.
  - destruct i as [|i]; simpl.
    + split; reflexivity.
    + destruct (IH i) as [-> ->]; [ lia | ]. split; lia.
Qed.

(** The index of a whole number of bins, brought into the range of the
    bins. *)
Lemma clamp_whole (z : Z) :
  min (count (numBins - 1)) (max zero (ofZ z))
  = ofZ (Z.min 19 (Z.max 0 z)).
Proof.
  unfold min, max, count, zero, ofZ, lt, numBins, Qle_bool. simpl.
  rewrite Z.mul_1_r.
  destruct (Z.leb_spec z 0) as [L|L]; simpl.
  - rewrite Z.max_l, Z.min_r by lia. reflexivity.
  - rewrite Z.mul_1_r. rewrite Z.max_r by lia.
    destruct (Z.leb_spec 19 z) as [M|M]; simpl.
    + rewrite Z.min_l by lia. reflexivity.
    + rewrite Z.min_r by lia. reflexivity.
Qed.

(** The bin of a trade is a whole number below [numBins], or [NaN] when
    [plPercent] is no number. *)
Lemma binIndex_range (t : Trade) :
  (isNaN (plOf t) = true /\ binIndex t = NaN)
  \/ (isNaN (plOf t) = false
      /\ exists k, (k < numBins)%nat /\ binIndex t = count k).
Proof.
  unfold binIndex.
  destruct (plOf t) as [| | |q] eqn:E.
  - left. split; reflexivity.
  - right. split; [ reflexivity | ]. exists 19%nat. split; [ | reflexivity ].
    unfold numBins. lia.
  - right. split; [ reflexivity | ]. exists 0%nat. split; [ | reflexivity ].
    unfold numBins. lia.
  - right. split; [ reflexivity | ].
    assert (F : exists z, floor ((Fin q - minBin) / binSize)%js = ofZ z).
    { unfold sub, minBin, binSize, div, ofZ, fin, floor. simpl.
      eexists. reflexivity. }
    destruct F as [z ->]. rewrite clamp_whole.
    exists (Z.to_nat (Z.min 19 (Z.max 0 z))). split.
    + unfold numBins. lia.
    + unfold count. rewrite Z2Nat.id by lia. reflexivity.
Qed.

Lemma countAt_count (cs : list nat) (k : nat) :
  countAt cs (count k) = increment cs k.
Proof.
  unfold countAt, count, ofZ.
  change (Z.of_nat k # 1) with (inject_Z (Z.of_nat k)).
  rewrite Qfloor_Z.
  replace (Qeq_bool (inject_Z (Z.of_nat k)) (inject_Z (Z.of_nat k)))
    with true by (symmetry; apply Qeq_bool_iff; reflexivity).
  replace (0 <=? Z.of_nat k)%Z with true by (symmetry; apply Z.leb_le; lia).
  simpl. rewrite Nat2Z.id. reflexivity.
Qed.

Lemma distribution_loop (ts : list Trade) (cs : list nat) :
  List.length cs = numBins ->
  list_sum
    (fold_left (fun counts trade => countAt counts (binIndex trade)) ts cs)
  = (list_sum cs
     + List.length (filter (fun t => negb (isNaN (plOf t))) ts))%nat
  /\ List.length
       (fold_left (fun counts trade => countAt counts (binIndex trade)) ts cs)
     = numBins.
Proof.
  revert cs. induction ts as [|t ts IH]; intros cs L; simpl.
  - split; [ lia | exact L ].
  - destruct (binIndex_range t) as [[N ->] | [N (k & K & ->)]]; rewrite N.
    + simpl. apply IH, L.
    + rewrite countAt_count.
      destruct (increment_sum cs k) as [S' L']; [ lia | ].
      destruct (IH (increment cs k)) as [-> ->]; [ lia | ].
      rewrite S'. simpl. split; lia.
Qed.

(** X11. The histogram of [getPLDistributionData] has 20 bins, from -50
    in steps of 5, and its counts add up to the number of closed trades
    whose [plPercent] is a number: such a trade is counted in exactly one
    bin (a value below -50 in the first, a value of 45 or more, or
    [Infinity], in the last), and a trade whose [plPercent] is [NaN] or
    absent is counted in none. *)
Theorem distribution_counts_each_trade_with_a_number (s : State) :
  let d := getPLDistributionData s in
  list_sum (counts d)
  = List.length
      (filter (fun t => negb (isNaN (plOf t)))
         (deref (heap s) (closedTrades s)))
  /\ (closedTrades s = []
      \/ (List.length (counts d) = 20%nat
          /\ bins d = map ofZ [-50; -45; -40; -35; -30; -25; -20; -15; -10;
                               -5; 0; 5; 10; 15; 20; 25; 30; 35; 40; 45]%Z)).
Proof.
  unfold getPLDistributionData. cbv zeta.
  destruct (closedTrades s) as [|r rs] eqn:E.
  - simpl. split; [ reflexivity | left; reflexivity ].
  - set (closed := deref (heap s) (r :: rs)).
    assert (C : closed = get (heap s) r :: deref (heap s) rs) by reflexivity.
    destruct closed as [|t ts]; [ discriminate | ].
    cbn [counts bins].
    destruct (distribution_loop (t :: ts) (repeat 0%nat numBins))
      as [S' L']; [ reflexivity | ].
    split.
    + rewrite S'. reflexivity.
    + right. split; [ exact L' | reflexivity ].
Qed.

End Distribution.

(** *** Performance by market *)

Section Markets.

Import Ledger Statistics.

Variable CURRENCY_SYMBOL : string.

Lemma marketNameOf_cases (c : string) :
  In (marketNameOf c)
    ["US Market"; "UK Market"; "India Market"; "Other"]%string.
Proof.
  unfold marketNameOf.
  destruct (String.eqb c "$"); [ simpl; auto | ].
  destruct (String.eqb c poundSign); [ simpl; auto | ].
  destruct (String.eqb c rupeeSign); simpl; auto.
Qed.

Lemma countIn_names (ms : list Market) (name currency : string)
  (t : Trade) :
  map m_name (countIn ms name currency t)
  = if existsb (String.eqb name) (map m_name ms)
    then map m_name ms else map m_name ms ++ [name].
Proof.
  induction ms as [|m ms IH]; simpl.
  - reflexivity.
  - rewrite (String.eqb_sym name). destruct (String.eqb (m_name m) name).
    + reflexivity.
    + simpl. rewrite IH. destruct (existsb _ _); reflexivity.
Qed.

Lemma countIn_sum (ms : list Market) (name currency : string) (t : Trade) :
  list_sum (map m_trades (countIn ms name currency t))
  = S (list_sum (map m_trades ms)).
Proof.
  induction ms as [|m ms IH]; simpl.
  - reflexivity.
  - destruct (String.eqb (m_name m) name); simpl.
    + reflexivity.
    + rewrite IH. lia.
Qed.

Lemma countIn_rows (ms : list Market) (name currency : string) (t : Trade) :
  Forall (fun m => (m_wins m + m_losses m = m_trades m)%nat
                   /\ (0 < m_trades m)%nat) ms ->
  Forall (fun m => (m_wins m + m_losses m = m_trades m)%nat
                   /\ (0 < m_trades m)%nat)
    (countIn ms name currency t).
Proof.
  induction 1 as [|m ms [W P] F IH]; simpl.
  - constructor; [ | constructor ]. simpl.
    destruct (gt (plOf t) zero); lia.
  - destruct (String.eqb (m_name m) name).
    + constructor; [ | exact F ]. simpl.
      destruct (gt (plOf t) zero); lia.
    + constructor; [ split; assumption | exact IH ].
Qed.

Lemma existsb_eqb_false (name : string) (l : list string) :
  existsb (String.eqb name) l = false -> ~ In name l.
Proof.
  intros E I.
  assert (X : existsb (String.eqb name) l = true).
  { apply existsb_exists. exists name. split; [ exact I | ].
    apply String.eqb_refl. }
  congruence.
Qed.

Lemma market_loop (ts : list Trade) (ms : list Market) :
  let names := ["US Market"; "UK Market"; "India Market"; "Other"]%string in
  Forall (fun m => (m_wins m + m_losses m = m_trades m)%nat
                   /\ (0 < m_trades m)%nat) ms ->
  NoDup (map m_name ms) ->
  incl (map m_name ms) names ->
  let ms' := fold_left (marketStep CURRENCY_SYMBOL) ts ms in
  list_sum (map m_trades ms')
  = (list_sum (map m_trades ms) + List.length ts)%nat
  /\ Forall (fun m => (m_wins m + m_losses m = m_trades m)%nat
                      /\ (0 < m_trades m)%nat) ms'
  /\ NoDup (map m_name ms')
  /\ incl (map m_name ms') names.
Proof.
  intros names. revert ms.
  induction ts as [|t ts IH]; intros ms F N I; simpl.
  - repeat split; auto.
  - unfold marketStep at 2 4 6 8.
    set (c := currencyOf CURRENCY_SYMBOL t).
    destruct (IH (countIn ms (marketNameOf c) c t)) as (S' & F' & N' & I').
    + apply countIn_rows, F.
    + rewrite countIn_names.
      destruct (existsb _ _) eqn:E; [ exact N | ].
      apply NoDup_app; [ exact N | constructor; [ intros [] | constructor ] | ].
      intros x Hx [<-|[]]. exact (existsb_eqb_false _ _ E Hx).
    + rewrite countIn_names.
      destruct (existsb _ _); [ exact I | ].
      apply incl_app; [ exact I | ].
      intros x [<-|[]]. apply marketNameOf_cases.
    + rewrite S', countIn_sum. repeat split; auto; lia.
Qed.

(** X12. [getPerformanceByMarket] puts every closed trade into exactly
    one market: the numbers of trades of its rows add up to the number of
    closed trades.  Each row holds at least one trade, its wins and losses
    add up to its trades, no two rows have the same name, and there are at
    most four rows. *)
Theorem markets_account_for_every_closed_trade (s : State) :
  let rows := getPerformanceByMarket CURRENCY_SYMBOL s in
  list_sum (map (fun r => m_trades (market r)) rows)
  = List.length (closedTrades s)
  /\ Forall (fun r =>
               (m_wins (market r) + m_losses (market r)
                = m_trades (market r))%nat
               /\ (0 < m_trades (market r))%nat) rows
  /\ NoDup (map (fun r => m_name (market r)) rows)
  /\ (List.length rows <= 4)%nat.
Proof.
  unfold getPerformanceByMarket. cbv zeta.
  destruct (deref (heap s) (closedTrades s)) as [|t ts] eqn:E.
  - destruct (closedTrades s); [ | discriminate ].
    simpl. repeat split; try constructor. lia.
  - rewrite <- E.
    destruct (market_loop (deref (heap s) (closedTrades s)) [])
      as (S' & F' & N' & I');
      [ constructor | constructor | intros x [] | ].
    rewrite !map_map. cbn [market]. rewrite length_map.
    change (fun x : Market => m_trades x) with m_trades.
    change (fun x : Market => m_name x) with m_name.
    split; [ | split; [ | split ] ].
    + rewrite S'. unfold deref. rewrite length_map. reflexivity.
    + apply Forall_map. exact F'.
    + exact N'.
    + rewrite <- (length_map m_name).
      apply (NoDup_incl_length N') in I'. exact I'.
Qed.

End Markets.

(** ** Finite numbers and their values *)

Section Values.

Import Props.

Lemma hasValue_fin (q : Q) : hasValue (fin q) q.
Proof. apply Qred_correct. Qed.

Lemma normal_fin (q : Q) : normal (fin q).
Proof. apply Qred_complete, Qred_correct. Qed.

Lemma hasValue_ofZ (z : Z) : hasValue (ofZ z) (inject_Z z).
Proof. reflexivity. Qed.

Lemma hasValue_valueOf (x : num) : isFinite x = true -> hasValue x (valueOf x).
Proof. destruct x; try discriminate. intros _. simpl. reflexivity. Qed.

Lemma hasValue_eq (x : num) (a b : Q) : hasValue x a -> a == b -> hasValue x b.
Proof.
  destruct x; simpl; try tauto. intros H E. rewrite H. exact E.
Qed.

(** Two normal numbers of the same value are the same number. *)
Lemma value_unique (x y : num) (q : Q) :
  hasValue x q -> hasValue y q -> normal x -> normal y -> x = y.
Proof.
  destruct x as [| | |a], y as [| | |b]; simpl; try tauto.
  intros A B Na Nb. rewrite <- Na, <- Nb. f_equal.
  apply Qred_complete. rewrite A, B. reflexivity.
Qed.

Lemma hasValue_add (x y : num) (a b : Q) :
  hasValue x a -> hasValue y b -> hasValue (add x y) (a + b).
Proof.
  destruct x as [| | |p], y as [| | |q]; simpl; try tauto. intros A B.
  change (Qred (p + q) == a + b). rewrite Qred_correct, A, B. reflexivity.
Qed.

Lemma hasValue_sub (x y : num) (a b : Q) :
  hasValue x a -> hasValue y b -> hasValue (sub x y) (a - b).
Proof.
  destruct x as [| | |p], y as [| | |q]; simpl; try tauto. intros A B.
  change (Qred (p - q) == a - b). rewrite Qred_correct, A, B. reflexivity.
Qed.

Lemma hasValue_mul (x y : num) (a b : Q) :
  hasValue x a -> hasValue y b -> hasValue (mul x y) (a * b).
Proof.
  destruct x as [| | |p], y as [| | |q]; simpl; try tauto. intros A B.
  change (Qred (p * q) == a * b). rewrite Qred_correct, A, B. reflexivity.
Qed.

Lemma sgn_zero (b : Q) : sgn b = Eq <-> b == 0.
Proof.
  unfold sgn, Qeq. simpl. rewrite Z.compare_eq_iff. lia.
Qed.

Lemma hasValue_div (x y : num) (a b : Q) :
  hasValue x a -> hasValue y b -> ~ b == 0 -> hasValue (div x y) (a / b).
Proof.
  destruct x as [| | |p], y as [| | |q]; simpl; try tauto. intros A B N.
  unfold div.
  destruct (sgn q) eqn:S.
  - apply sgn_zero in S. rewrite S in B. symmetry in B. tauto.
  - change (Qred (p / q) == a / b). rewrite Qred_correct, A, B. reflexivity.
  - change (Qred (p / q) == a / b). rewrite Qred_correct, A, B. reflexivity.
Qed.

Lemma hasValue_abs (x : num) (a : Q) :
  hasValue x a -> hasValue (abs x) (Qabs a).
Proof.
  destruct x as [| | |p]; simpl; try tauto. intros A.
  change (Qred (Qabs p) == Qabs a). rewrite Qred_correct, A. reflexivity.
Qed.

Lemma normal_add (x y : num) : normal (add x y).
Proof. destruct x, y; try exact I. apply normal_fin. Qed.

Lemma normal_sub (x y : num) : normal (sub x y).
Proof. destruct x, y; try exact I. apply normal_fin. Qed.

Lemma normal_div (x y : num) : normal (div x y).
Proof.
  destruct x as [| | |p], y as [| | |q]; try exact I; unfold div.
  - destruct (sgn q); exact I.
  - destruct (sgn q); exact I.
  - reflexivity.
  - reflexivity.
  - destruct (sgn q); [ destruct (sgn p); exact I | | ]; apply normal_fin.
Qed.

(** Comparisons of finite numbers. *)
Lemma gt_value (x y : num) (a b : Q) :
  hasValue x a -> hasValue y b -> (gt x y = true <-> b < a).
Proof.
  destruct x as [| | |p], y as [| | |q]; simpl; try tauto. intros A B.
  unfold gt, lt. rewrite negb_true_iff, <- A, <- B.
  split.
  - intros H. apply Qnot_le_lt. intros L.
    apply Qle_bool_iff in L. congruence.
  - intros H. destruct (Qle_bool p q) eqn:E; [ | reflexivity ].
    apply Qle_bool_iff in E. exfalso. exact (Qlt_not_le _ _ H E).
Qed.

Lemma le_value (x y : num) (a b : Q) :
  hasValue x a -> hasValue y b -> (le x y = true <-> a <= b).
Proof.
  destruct x as [| | |p], y as [| | |q]; simpl; try tauto. intros A B.
  unfold le. rewrite Qle_bool_iff, A, B. reflexivity.
Qed.

End Values.

(** *** Counts as numbers *)

Section Counts.

Lemma inject_nat_pos (n : nat) : (0 < n)%nat -> 0 < inject_Z (Z.of_nat n).
Proof.
  intros H. change 0 with (inject_Z 0). rewrite <- Zlt_Qlt. lia.
Qed.

Lemma inject_nat_nonzero (n : nat) :
  (0 < n)%nat -> ~ inject_Z (Z.of_nat n) == 0.
Proof.
  intros H E. pose proof (inject_nat_pos n H) as P. rewrite E in P.
  exact (Qlt_irrefl _ P).
Qed.

End Counts.

(** *** The win rate and the maximum drawdown *)

Section RateAndDrawdown.

Import Ledger Statistics Props.

(** X14. The win rate of [getTradeStatistics] is a percentage: a number
    from 0 to 100, whatever the trades hold. *)
Theorem win_rate_is_a_percentage (s : State) :
  le zero (winRate (getTradeStatistics s)) = true
  /\ le (winRate (getTradeStatistics s)) (ofZ 100) = true.
Proof.
  unfold getTradeStatistics, statisticsOf. cbv zeta. cbn [winRate].
  set (closed := deref (heap s) (closedTrades s)).
  destruct (tally_counts closed (mkTally 0 0 zero zero zero)) as [-> _].
  cbn [t_winningTrades Nat.add].
  pose proof (length_filter_split _ isProfitable closed) as L.
  set (w := List.length (filter isProfitable closed)) in *.
  set (n := List.length closed) in *.
  destruct (Nat.ltb_spec 0 n) as [Npos|_]; [ | split; reflexivity ].
  pose proof (inject_nat_pos n Npos) as Pn.
  pose proof (inject_nat_nonzero n Npos) as Nq.
  assert (V : hasValue (mul (div (count w) (count n)) (ofZ 100))
                (inject_Z (Z.of_nat w) / inject_Z (Z.of_nat n) * 100)).
  { apply hasValue_mul; [ | reflexivity ].
    apply hasValue_div;
      [ apply hasValue_ofZ | apply hasValue_ofZ | exact Nq ]. }
  assert (W0 : 0 <= inject_Z (Z.of_nat w)).
  { change 0 with (inject_Z 0). rewrite <- Zle_Qle. lia. }
  assert (Wn : inject_Z (Z.of_nat w) <= inject_Z (Z.of_nat n)).
  { rewrite <- Zle_Qle. lia. }
  split.
  - apply (le_value _ _ 0 _ (hasValue_ofZ 0) V).
    apply Qmult_le_0_compat; [ | discriminate ].
    apply Qle_shift_div_l; [ exact Pn | ]. rewrite Qmult_0_l. exact W0.
  - apply (le_value _ _ _ 100 V (hasValue_ofZ 100)).
    setoid_replace 100 with (1 * 100) at 2 by ring.
    apply Qmult_le_compat_r; [ | discriminate ].
    apply Qle_shift_div_r; [ exact Pn | ]. rewrite Qmult_1_l. exact Wn.
Qed.

Lemma lt_le (x y : num) : lt x y = true -> le x y = true.
Proof.
  destruct x as [| | |a], y as [| | |b]; simpl; try discriminate; auto.
  unfold lt, le. rewrite negb_true_iff. intros H.
  apply Qle_bool_iff, Qlt_le_weak, Qnot_le_lt. intros L.
  apply Qle_bool_iff in L. congruence.
Qed.

Lemma drawdown_loop_nonneg (ts : list Trade) (a : DrawdownLoop) :
  le zero (maxDrawdown a) = true ->
  le zero (maxDrawdown (fold_left drawdownStep ts a)) = true.
Proof.
  revert a. induction ts as [|t ts IH]; intros a H; simpl.
  - exact H.
  - apply IH. unfold drawdownStep. cbv zeta.
    destruct (gt _ (peak a)); [ exact H | ].
    match goal with
    | |- context [gt ?x (maxDrawdown a)] =>
        destruct (gt x (maxDrawdown a)) eqn:G
    end; [ | exact H ].
    cbn [maxDrawdown].
    eapply le_trans; [ exact H | apply lt_le; exact G ].
Qed.

(** X15. The maximum drawdown of [getMaxDrawdown] is never negative and
    never [NaN], whatever the closed trades hold: a drawdown replaces the
    maximum only when it compares greater. *)
Theorem max_drawdown_is_never_negative (s : State) :
  le zero (percentage (getMaxDrawdown s)) = true.
Proof.
  unfold getMaxDrawdown.
  destruct (closedTrades s); [ reflexivity | ].
  cbv zeta. cbn [percentage].
  apply drawdown_loop_nonneg. reflexivity.
Qed.

(** While every trade gains, the equity is at its peak and no drawdown is
    recorded. *)
Lemma drawdown_loop_gains (ts : list Trade) (a : DrawdownLoop) :
  Forall (fun t => gt (toNum (plValue t)) zero = true
                   /\ isFinite (toNum (plValue t)) = true) ts ->
  isFinite (currentEquity a) = true ->
  peak a = currentEquity a ->
  le zero (currentEquity a) = true ->
  maxDrawdown a = zero -> maxDrawdownStartDate a = DNull ->
  maxDrawdownEndDate a = DNull ->
  maxDrawdown (fold_left drawdownStep ts a) = zero
  /\ maxDrawdownStartDate (fold_left drawdownStep ts a) = DNull
  /\ maxDrawdownEndDate (fold_left drawdownStep ts a) = DNull.
Proof.
  intros F. revert a.
  induction F as [|t ts [G V] _ IH]; intros a E P' N M S1 S2; simpl.
  - auto.
  - assert (X : gt (add (currentEquity a) (toNum (plValue t))) (peak a)
                = true).
    { rewrite P'.
      apply hasValue_valueOf in E, V.
      apply (gt_value _ _ _ _ (hasValue_add _ _ _ _ E V) E).
      apply (gt_value _ _ _ _ V (hasValue_ofZ 0)) in G.
      change (inject_Z 0) with 0 in G.
      rewrite <- (Qplus_0_r (valueOf (currentEquity a))) at 1.
      apply Qplus_lt_r. exact G. }
    apply IH; unfold drawdownStep; cbv zeta; rewrite X; cbn; auto.
    + destruct (currentEquity a), (toNum (plValue t)); try discriminate.
      reflexivity.
    + eapply le_trans; [ exact N | ]. apply lt_le. rewrite P' in X. exact X.
Qed.

(** X16. When every closed trade has a finite positive [plValue], the
    equity rises with each trade and [getMaxDrawdown] reports no drawdown:
    the percentage and the duration are 0 and the two dates are [null]. *)
Theorem no_drawdown_when_every_trade_gains (s : State) :
  Forall (fun t => gt (toNum (plValue t)) zero = true
                   /\ isFinite (toNum (plValue t)) = true)
    (deref (heap s) (closedTrades s)) ->
  getMaxDrawdown s = mkMaxDrawdown zero zero DNull DNull.
Proof.
  intros F. unfold getMaxDrawdown.
  destruct (closedTrades s) as [|r rs] eqn:E; [ reflexivity | ].
  cbv zeta.
  destruct (drawdown_loop_gains
              (deref (heap s) (sortBy (byExitDateAsc (heap s)) (r :: rs)))
              initDrawdownLoop) as (-> & -> & ->); try reflexivity.
  eapply Permutation_Forall; [ | exact F ].
  apply Permutation_sym, deref_sortBy_perm.
Qed.

End RateAndDrawdown.

(** *** Streaks *)

Section Streaks.

Import Ledger Statistics Props.

Lemma list_sum_snoc (l : list nat) (x : nat) :
  list_sum (l ++ [x]) = (list_sum l + x)%nat.
Proof. rewrite list_sum_app. simpl. lia. Qed.

Lemma streak_step (a : StreakLoop) (t : Trade) (w l : nat) :
  streaksAddUp a w l ->
  streaksAddUp (streakStep a t)
    (if isProfitable t then S w else w)
    (if isProfitable t then l else S l)
  /\ currentStreakType (streakStep a t) <> None.
Proof.
  unfold streaksAddUp, streakStep, isProfitable. cbv zeta.
  intros (I & LW & LL).
  destruct (currentStreakType a) as [ty|] eqn:T.
  - destruct I as [C [(-> & W & L) | (-> & W & L)]];
      destruct (gt (plOf t) zero); simpl; rewrite ?T; simpl;
      rewrite ?list_sum_snoc;
      (split; [ | discriminate ]); (split; [ split; [ lia | ] | lia ]);
      solve [ left; repeat split; lia | right; repeat split; lia ].
  - destruct I as (-> & -> & W & L). rewrite W, L in *. simpl in LW, LL.
    destruct (gt (plOf t) zero); simpl;
      (split; [ | discriminate ]); (split; [ split; [ lia | ] | lia ]);
      solve [ left; repeat split; lia | right; repeat split; lia ].
Qed.

Lemma streak_loop (ts : list Trade) (a : StreakLoop) (w l : nat) :
  streaksAddUp a w l ->
  streaksAddUp (fold_left streakStep ts a)
    (w + List.length (filter isProfitable ts))
    (l + List.length (filter (fun t => negb (isProfitable t)) ts))
  /\ (ts <> [] -> currentStreakType (fold_left streakStep ts a) <> None).
Proof.
  revert a w l. induction ts as [|t ts IH]; intros a w l I.
  - simpl. rewrite !Nat.add_0_r. split; [ exact I | congruence ].
  - destruct (streak_step a t w l I) as [S1 S2].
    destruct (IH _ _ _ S1) as [I1 I2].
    simpl. split.
    + destruct (isProfitable t); simpl in *;
        rewrite <- ?plus_n_Sm; exact I1.
    + intros _. destruct ts as [|t' ts]; [ exact S2 | ].
      apply I2. discriminate.
Qed.

(** X17. The streaks of [getStreakInfo] are made of the closed trades:
    the longest winning streak is not longer than the number of winning
    trades of [getTradeStatistics] and the longest losing streak not longer
    than the number of losing trades; the current streak is not longer
    than the longer of the two, and it holds a trade as soon as there is a
    closed trade. *)
Theorem streaks_are_bounded_by_the_trade_counts (s : State) :
  let info := getStreakInfo s in
  let stats := getTradeStatistics s in
  (longestWinStreak info <= winningTrades stats)%nat
  /\ (longestLossStreak info <= losingTrades stats)%nat
  /\ (streakCount (currentStreak info)
      <= Nat.max (longestWinStreak info) (longestLossStreak info))%nat
  /\ (closedTrades s = []
      \/ (1 <= streakCount (currentStreak info))%nat).
Proof.
  unfold getStreakInfo, getTradeStatistics, statisticsOf. cbv zeta.
  cbn [winningTrades losingTrades].
  destruct (tally_counts (deref (heap s) (closedTrades s))
              (mkTally 0 0 zero zero zero)) as [-> ->].
  cbn [t_winningTrades t_losingTrades Nat.add].
  destruct (closedTrades s) as [|r rs] eqn:E.
  - simpl. repeat split; auto.
  - cbn [longestWinStreak longestLossStreak currentStreak streakCount].
    set (sorted := deref (heap s) (sortBy (byExitDateAsc (heap s)) (r :: rs))).
    assert (P : Permutation sorted (deref (heap s) (r :: rs)))
      by apply deref_sortBy_perm.
    rewrite <- (Permutation_length
                  (Permutation_filter_gen _ isProfitable _ _ P)).
    rewrite <- (Permutation_length
                  (Permutation_filter_gen _ (fun t => negb (isProfitable t))
                     _ _ P)).
    destruct (streak_loop sorted initStreakLoop 0 0) as [(I & LW & LL) N].
    { unfold streaksAddUp. simpl. repeat split; lia. }
    assert (NE : sorted <> []).
    { intros Z. rewrite Z in P. apply Permutation_nil in P. discriminate. }
    specialize (N NE). simpl in I.
    set (a := fold_left streakStep sorted initStreakLoop) in *.
    unfold finalStreak.
    destruct (currentStreakType a) as [ty|]; [ | congruence ].
    destruct I as [C [(-> & W & L) | (-> & W & L)]]; simpl.
    + repeat split; lia.
    + repeat split; lia.
Qed.

End Streaks.

(** ** The consistency of the ledger *)

Section Consistency.

Import Ledger Statistics Spec Props.

Lemma get_upd_other (h : list Trade) (r x : nat) (t : Trade) :
  x <> r -> get (upd h r t) x = get h x.
Proof.
  unfold get. revert r x. induction h as [|y h IH]; intros [|r] [|x] N;
    simpl; auto; try congruence.
Qed.

Lemma NoDup_refs (h : list Trade) (l : list nat) :
  NoDup (idsOf h l) -> NoDup l.
Proof. apply NoDup_map_inv. Qed.

(** In an array of trades with different identifiers, the trades of a
    given identifier are the one trade that has it. *)
Lemma same_id_same_ref (h : list Trade) (l : list nat) (r x : nat) :
  NoDup (idsOf h l) -> In r l -> In x l ->
  id (get h x) = id (get h r) -> x = r.
Proof.
  unfold idsOf. induction l as [|y l IH]; simpl; intros N Ir Ix E.
  - destruct Ir.
  - inversion N as [|? ? Ny Nl]; subst.
    destruct Ir as [->|Ir], Ix as [->|Ix]; auto.
    + exfalso. apply Ny. rewrite <- E. apply in_map_iff. eauto.
    + exfalso. apply Ny. rewrite E. apply in_map_iff. eauto.
Qed.

Lemma filter_remove_one (f : nat -> bool) (l : list nat) (r : nat) :
  NoDup l -> In r l -> f r = false ->
  (forall x, In x l -> x <> r -> f x = true) ->
  Permutation l (r :: filter f l).
Proof.
  induction l as [|y l IH]; simpl; intros N I F T.
  - destruct I.
  - inversion N as [|? ? Ny Nl]; subst.
    destruct I as [->|I].
    + rewrite F. apply perm_skip.
      rewrite (forallb_filter_id f l); [ reflexivity | ].
      apply forallb_forall. intros x Hx. apply T; [ auto | ].
      intros ->. contradiction.
    + rewrite (T y); [ | auto | intros ->; contradiction ].
      eapply perm_trans; [ apply perm_skip, IH; auto | apply perm_swap ].
Qed.

Lemma filter_all (f : nat -> bool) (l : list nat) :
  (forall x, In x l -> f x = true) -> filter f l = l.
Proof.
  intros T. apply forallb_filter_id, forallb_forall, T.
Qed.

Lemma consistent_save (ok : bool) (s : State) :
  consistent s -> consistent (fst (saveTradestoStorage ok s)).
Proof. destruct ok; auto. Qed.

Lemma consistent_In (s : State) (r : nat) :
  consistent s ->
  (In r (activeTrades s) -> In r (allTrades s))
  /\ (In r (closedTrades s) -> In r (allTrades s))
  /\ (In r (allTrades s) ->
      if isActive (get (heap s) r) then In r (activeTrades s)
      else In r (closedTrades s)).
Proof.
  intros (V & N & P & A & C). repeat split.
  - intros I. apply (Permutation_in _ P), in_or_app. auto.
  - intros I. apply (Permutation_in _ P), in_or_app. auto.
  - intros I. apply (Permutation_in _ (Permutation_sym P)) in I.
    apply in_app_or in I. rewrite Forall_forall in A, C.
    destruct I as [I|I].
    + rewrite (A r I). exact I.
    + rewrite (C r I). exact I.
Qed.

(** The identifiers of an array after an update of the store that keeps
    the identifier of the object. *)
Lemma idsOf_upd (h : list Trade) (r : nat) (t : Trade) (l : list nat) :
  id t = id (get h r) -> (r < List.length h)%nat ->
  idsOf (upd h r t) l = idsOf h l.
Proof.
  intros E L. unfold idsOf. apply map_ext. intros x.
  destruct (Nat.eq_dec x r) as [->|N].
  - rewrite get_upd_same by exact L. exact E.
  - rewrite get_upd_other by exact N. reflexivity.
Qed.

Lemma validRefs_upd (h : list Trade) (r : nat) (t : Trade) (l : list nat) :
  validRefs h l -> validRefs (upd h r t) l.
Proof. unfold validRefs. rewrite length_upd. auto. Qed.

(** An update of the store that keeps the identifier and the status of
    the object keeps the ledger consistent. *)
Lemma consistent_upd (s : State) (r : nat) (t : Trade)
  (e : option (list EquityPoint)) (d : option (list DrawdownPoint)) :
  consistent s -> (r < List.length (heap s))%nat ->
  id t = id (get (heap s) r) ->
  isActive t = isActive (get (heap s) r) ->
  consistent
    (mkState (upd (heap s) r t) (allTrades s) (activeTrades s)
       (closedTrades s) e d).
Proof.
  intros (V & N & P & A & C) L I S. unfold consistent. simpl.
  assert (G : forall x, isActive (get (upd (heap s) r t) x)
                        = isActive (get (heap s) x)).
  { intros x. destruct (Nat.eq_dec x r) as [->|Nx].
    - rewrite get_upd_same by exact L. exact S.
    - rewrite get_upd_other by exact Nx. reflexivity. }
  repeat split.
  - apply validRefs_upd, V.
  - rewrite idsOf_upd by assumption. exact N.
  - exact P.
  - eapply Forall_impl; [ | exact A ]. intros x. cbv beta. rewrite G. auto.
  - eapply Forall_impl; [ | exact C ]. intros x. cbv beta. rewrite G. auto.
Qed.

(** The move of an active trade to the closed trades. *)
Lemma consistent_move (s : State) (r : nat) (t : Trade)
  (cmpA cmpC : nat -> nat -> num)
  (e : option (list EquityPoint)) (d : option (list DrawdownPoint)) :
  consistent s -> In r (activeTrades s) ->
  id t = id (get (heap s) r) -> isActive t = false ->
  consistent
    (mkState (upd (heap s) r t) (allTrades s)
       (sortBy cmpA
          (filter (fun x => negb (optStrEqb (id (get (upd (heap s) r t) x))
                                    (id t)))
             (activeTrades s)))
       (sortBy cmpC (closedTrades s ++ [r])) e d).
Proof.
  intros K I E S.
  pose proof (proj1 (consistent_In s r K) I) as Iall.
  destruct K as (V & N & P & A & C).
  assert (L : (r < List.length (heap s))%nat).
  { unfold validRefs in V. rewrite Forall_forall in V. apply V, Iall. }
  assert (ND : NoDup (activeTrades s ++ closedTrades s)).
  { eapply Permutation_NoDup; [ apply Permutation_sym, P | ].
    eapply NoDup_refs, N. }
  assert (NA : NoDup (activeTrades s)) by (eapply NoDup_app_remove_r, ND).
  assert (NC : ~ In r (closedTrades s)).
  { intros J. rewrite Forall_forall in A, C.
    specialize (A r I). specialize (C r J). congruence. }
  set (h := upd (heap s) r t).
  set (f := fun x => negb (optStrEqb (id (get h x)) (id t))).
  assert (Fr : f r = false).
  { unfold f, h. rewrite get_upd_same by exact L.
    rewrite optStrEqb_refl. reflexivity. }
  assert (Fx : forall x, In x (activeTrades s) -> x <> r -> f x = true).
  { intros x Ix Nx. unfold f, h. rewrite get_upd_other by exact Nx.
    destruct (optStrEqb (id (get (heap s) x)) (id t)) eqn:Q;
      [ | reflexivity ].
    apply optStrEqb_eq in Q. rewrite E in Q. exfalso. apply Nx.
    apply (same_id_same_ref (heap s) (allTrades s)); auto.
    apply (Permutation_in _ P), in_or_app. auto. }
  pose proof (filter_remove_one f (activeTrades s) r NA I Fr Fx) as PA.
  unfold consistent. simpl. fold h.
  repeat split.
  - apply validRefs_upd, V.
  - unfold h. rewrite idsOf_upd by assumption. exact N.
  - eapply perm_trans; [ apply Permutation_app; apply sortBy_perm | ].
    rewrite app_assoc.
    eapply perm_trans; [ apply Permutation_sym, Permutation_cons_append | ].
    eapply perm_trans; [ | exact P ].
    change (Permutation ((r :: filter f (activeTrades s)) ++ closedTrades s)
              (activeTrades s ++ closedTrades s)).
    apply Permutation_app_tail, Permutation_sym, PA.
  - apply Forall_forall. intros x Ix. apply In_sortBy, filter_In in Ix.
    destruct Ix as [Ix Fx'].
    assert (Nx : x <> r) by (intros ->; congruence).
    unfold h. rewrite get_upd_other by exact Nx.
    rewrite Forall_forall in A. apply A, Ix.
  - apply Forall_forall. intros x Ix. apply In_sortBy, in_app_or in Ix.
    destruct Ix as [Ix|[<-|[]]].
    + assert (Nx : x <> r) by (intros ->; contradiction).
      unfold h. rewrite get_upd_other by exact Nx.
      rewrite Forall_forall in C. apply C, Ix.
    + unfold h. rewrite get_upd_same by exact L. exact S.
Qed.

Lemma find_id_none (h : list Trade) (i : option string) (l : list nat) :
  find (fun r => optStrEqb (id (get h r)) i) l = None <-> ~ In i (idsOf h l).
Proof.
  unfold idsOf. split.
  - intros F I. apply in_map_iff in I. destruct I as (x & E & I).
    pose proof (find_none _ _ F x I) as Q. cbv beta in Q.
    rewrite E, optStrEqb_refl in Q. discriminate.
  - intros N. destruct (find _ l) as [x|] eqn:F; [ | reflexivity ].
    apply find_some in F. destruct F as [I E]. apply optStrEqb_eq in E.
    exfalso. apply N. rewrite <- E. apply in_map_iff. eauto.
Qed.

Lemma find_app_none (A : Type) (f : A -> bool) (l l' : list A) :
  find f l = None -> find f (l ++ l') = find f l'.
Proof.
  induction l as [|x l IH]; simpl; [ reflexivity | ].
  destruct (f x); [ discriminate | exact IH ].
Qed.

(** X18. [addNewTrade] keeps a consistent ledger consistent when the new
    identifier is not that of a trade of the ledger: the new trade is one
    more trade of [allTrades] and of [activeTrades], found under its
    identifier, and the closed trades are left as they are. *)
Theorem adding_a_trade_keeps_the_ledger_consistent
  (Date_new : string -> num) (now : num) (ok : bool) (tradeId : string)
  (currentStockIndex : option string) (tradeData : TradeData) (s : State) :
  consistent s ->
  getTradeById (Some tradeId) s = None ->
  let s' :=
    fst (addNewTrade Date_new now ok tradeId currentStockIndex tradeData s) in
  consistent s'
  /\ getTradeById (Some tradeId) s' = Some (List.length (heap s))
  /\ In (List.length (heap s)) (activeTrades s')
  /\ List.length (allTrades s') = S (List.length (allTrades s))
  /\ closedTrades s' = closedTrades s.
Proof.
  intros K Fresh. pose proof K as (V & N & P & A & C).
  apply find_id_none in Fresh.
  unfold addNewTrade. cbv zeta. cbn [fst].
  set (newTrade := mkTrade (Some tradeId) _ _ _ _ _ _ _ _ _ _ _ _ _ _ _ _ _
                     _ _ _ _ _ _ _).
  set (r := List.length (heap s)).
  set (h := heap s ++ [newTrade]).
  assert (Old : forall x, In x (allTrades s) -> get h x = get (heap s) x).
  { intros x I. apply get_app_old. unfold validRefs in V.
    rewrite Forall_forall in V. apply V, I. }
  assert (Ids : idsOf h (allTrades s ++ [r])
                = idsOf (heap s) (allTrades s) ++ [Some tradeId]).
  { unfold idsOf. rewrite map_app. f_equal.
    - apply map_ext_in. intros x I. rewrite Old by exact I. reflexivity.
    - simpl. unfold h, r. rewrite get_app_length. reflexivity. }
  split; [ | split; [ | split; [ | split ] ] ].
  - apply consistent_save. unfold consistent. simpl.
    repeat split.
    + apply validRefs_push, V.
    + fold h r. rewrite Ids. apply NoDup_snoc; assumption.
    + eapply perm_trans;
        [ apply Permutation_app_tail, sortBy_perm | ].
      rewrite <- app_assoc.
      eapply perm_trans;
        [ apply Permutation_app_head, Permutation_app_comm | ].
      rewrite app_assoc. apply Permutation_app_tail, P.
    + apply Forall_forall. intros x I. apply In_sortBy, in_app_or in I.
      destruct I as [I|[<-|[]]].
      * fold h. rewrite Old.
        -- rewrite Forall_forall in A. apply A, I.
        -- apply (proj1 (consistent_In s x K)), I.
      * fold h. unfold r, h. rewrite get_app_length. reflexivity.
    + apply Forall_forall. intros x I. fold h. rewrite Old.
      * rewrite Forall_forall in C. apply C, I.
      * apply (proj1 (proj2 (consistent_In s x K))), I.
  - unfold getTradeById. rewrite heap_saveTradestoStorage.
    replace (allTrades (fst (saveTradestoStorage ok _)))
      with (allTrades s ++ [r]) by (destruct ok; reflexivity).
    cbn [heap]. fold h.
    rewrite find_app_none.
    + simpl. unfold h, r. rewrite get_app_length. simpl.
      rewrite String.eqb_refl. reflexivity.
    + apply find_id_none. intros I. apply Fresh.
      unfold idsOf in *. apply in_map_iff in I. destruct I as (x & E & I).
      apply in_map_iff. exists x. split; [ | exact I ].
      rewrite <- (Old x I). exact E.
  - replace (activeTrades (fst (saveTradestoStorage ok _)))
      with (sortBy (byEntryDateDesc h) (activeTrades s ++ [r]))
      by (destruct ok; reflexivity).
    apply In_sortBy, in_or_app. right. left. reflexivity.
  - replace (allTrades (fst (saveTradestoStorage ok _)))
      with (allTrades s ++ [r]) by (destruct ok; reflexivity).
    rewrite length_app. simpl. lia.
  - destruct ok; reflexivity.
Qed.

(** [updateTradeStatus], on a trade of the ledger, keeps a consistent
    ledger consistent. *)
Lemma consistent_updateTradeStatus (now : num) (ok : bool) (r : nat)
  (s : State) :
  consistent s -> In r (allTrades s) ->
  consistent (updateTradeStatus now ok r s).
Proof.
  intros K I. unfold updateTradeStatus.
  destruct (isActive (get (heap s) r)) eqn:S; [ | exact K ].
  cbn [negb]. cbv zeta.
  pose proof (proj2 (proj2 (consistent_In s r K)) I) as Ia.
  rewrite S in Ia.
  assert (L : (r < List.length (heap s))%nat).
  { destruct K as (V & _). unfold validRefs in V.
    rewrite Forall_forall in V. apply V, I. }
  set (trade' := setCurrent _ _ _ _ _).
  assert (K' : consistent
                 (mkState (upd (heap s) r trade') (allTrades s)
                    (activeTrades s) (closedTrades s)
                    (equityCurveData s) (drawdownData s))).
  { apply consistent_upd; auto. }
  assert (M : forall reason price,
             consistent
               (closeTradeAutomatically now ok r reason price
                  (mkState (upd (heap s) r trade') (allTrades s)
                     (activeTrades s) (closedTrades s)
                     (equityCurveData s) (drawdownData s)))).
  { intros reason price. unfold closeTradeAutomatically. cbv zeta.
    apply consistent_save.
    cbn [heap allTrades activeTrades closedTrades equityCurveData
         drawdownData].
    set (t := setClosed _ _ _ _ _ _ _).
    apply (consistent_move _ r t _ _ _ _ K' Ia); reflexivity. }
  destruct (le _ _); [ apply M | ].
  destruct (ge _ _); [ apply M | ].
  destruct (ge _ _); [ apply M | exact K' ].
Qed.

(** X19. Closing a trade keeps a consistent ledger consistent, whether it
    is closed by hand ([closeTrade]) or by [updateTradeStatus] when a
    stop-loss, target or square-off date is reached: the trade leaves
    [activeTrades] for [closedTrades] and stays in [allTrades]. *)
Theorem closing_a_trade_keeps_the_ledger_consistent
  (now : num) (ok : bool) (s : State) :
  consistent s ->
  (forall tradeId exitPrice reason notes,
      consistent (fst (closeTrade now ok tradeId exitPrice reason notes s)))
  /\ (forall r, In r (allTrades s) ->
        consistent (updateTradeStatus now ok r s)).
Proof.
  intros K. split.
  - intros tradeId exitPrice reason nts. unfold closeTrade.
    destruct (findById (heap s) tradeId (activeTrades s)) as [r|] eqn:F;
      [ | exact K ].
    apply find_some in F. destruct F as [I E]. apply optStrEqb_eq in E.
    cbv zeta. cbn [fst]. apply consistent_save.
    unfold removeId. subst tradeId.
    set (t := setClosed _ _ _ _ _ _ _).
    change (id (get (heap s) r)) with (id t).
    apply (consistent_move s r t _ _ _ _ K I); reflexivity.
  - intros r I. apply consistent_updateTradeStatus; assumption.
Qed.

Lemma NoDup_map_filter (A B : Type) (g : A -> B) (f : A -> bool)
  (l : list A) :
  NoDup (map g l) -> NoDup (map g (filter f l)).
Proof.
  induction l as [|x l IH]; simpl; intros N; [ constructor | ].
  inversion N as [|? ? Nx Nl]; subst.
  destruct (f x); simpl; [ constructor | ]; auto.
  intros I. apply Nx. apply in_map_iff in I. destruct I as (y & E & I).
  apply filter_In in I. apply in_map_iff. exists y. tauto.
Qed.

(** X20. [deleteTrade] keeps a consistent ledger consistent.  Afterwards
    no trade of the ledger has the identifier, whether a trade was deleted
    or none was found; every other trade is kept, and the call returns
    [true] exactly when the ledger held a trade under the identifier. *)
Theorem deleting_a_trade_keeps_the_ledger_consistent
  (ok : bool) (tradeId : option string) (s : State) :
  consistent s ->
  let s' := fst (deleteTrade ok tradeId s) in
  consistent s'
  /\ getTradeById tradeId s' = None
  /\ allTrades s'
     = filter (fun r => negb (optStrEqb (id (get (heap s) r)) tradeId))
         (allTrades s)
  /\ heap s' = heap s
  /\ snd (deleteTrade ok tradeId s)
     = match getTradeById tradeId s with Some _ => true | None => false end.
Proof.
  intros K. unfold deleteTrade, getTradeById, findById.
  set (g := fun r => optStrEqb (id (get (heap s) r)) tradeId).
  destruct (find g (allTrades s)) as [r|] eqn:F; cbv zeta; cbn [fst snd].
  - set (f := fun x => negb (g x)).
    change (removeId (heap s) tradeId) with (filter f).
    pose proof (find_some _ _ F) as [I E]. unfold g in E.
    apply optStrEqb_eq in E.
    pose proof K as (V & N & P & A & C).
    assert (Fr : f r = false).
    { unfold f, g. rewrite E, optStrEqb_refl. reflexivity. }
    assert (Fx : forall x, In x (allTrades s) -> x <> r -> f x = true).
    { intros x Ix Nx. unfold f, g.
      destruct (optStrEqb (id (get (heap s) x)) tradeId) eqn:Q;
        [ | reflexivity ].
      apply optStrEqb_eq in Q. exfalso. apply Nx.
      apply (same_id_same_ref (heap s) (allTrades s)); auto. congruence. }
    assert (S' : forall a c e d,
               a = filter f (activeTrades s) -> c = filter f (closedTrades s) ->
               consistent (mkState (heap s) (filter f (allTrades s)) a c e d)).
    { intros a c e d -> ->. unfold consistent. simpl. repeat split.
      - unfold validRefs in *. rewrite Forall_forall in *.
        intros x Ix. apply filter_In in Ix. apply V, Ix.
      - apply NoDup_map_filter, N.
      - rewrite <- filter_app. apply Permutation_filter_gen, P.
      - rewrite Forall_forall in *. intros x Ix. apply filter_In in Ix.
        apply A, Ix.
      - rewrite Forall_forall in *. intros x Ix. apply filter_In in Ix.
        apply C, Ix. }
    pose proof (proj2 (proj2 (consistent_In s r K)) I) as Ir.
    assert (Keep : forall l, ~ In r l -> incl l (allTrades s) ->
                             filter f l = l).
    { intros l Nr Il. apply filter_all. intros x Ix. apply Fx; auto.
      intros ->. contradiction. }
    assert (AC : forall x, In x (activeTrades s) -> In x (closedTrades s) ->
                           False).
    { intros x Ia Ic. rewrite Forall_forall in A, C.
      specialize (A x Ia). specialize (C x Ic). congruence. }
    assert (IA : incl (activeTrades s) (allTrades s)).
    { intros x Ix. apply (proj1 (consistent_In s x K)), Ix. }
    assert (IC : incl (closedTrades s) (allTrades s)).
    { intros x Ix. apply (proj1 (proj2 (consistent_In s x K))), Ix. }
    split; [ | split; [ | split; [ | split ] ] ].
    + apply consistent_save.
      destruct (isActive (get (heap s) r)).
      * apply S'; [ reflexivity | ]. symmetry. apply Keep; [ | exact IC ].
        intros J. exact (AC r Ir J).
      * apply S'; [ | reflexivity ]. symmetry. apply Keep; [ | exact IA ].
        intros J. exact (AC r J Ir).
    + rewrite heap_saveTradestoStorage.
      replace (allTrades (fst (saveTradestoStorage ok _)))
        with (filter f (allTrades s))
        by (destruct ok, (isActive (get (heap s) r)); reflexivity).
      replace (heap _) with (heap s)
        by (destruct (isActive (get (heap s) r)); reflexivity).
      apply find_none_filter.
    + destruct ok, (isActive (get (heap s) r)); reflexivity.
    + destruct ok, (isActive (get (heap s) r)); reflexivity.
    + reflexivity.
  - split; [ exact K | ]. split; [ exact F | ].
    split; [ | split; reflexivity ].
    pose proof (find_none _ _ F) as F'. symmetry. apply filter_all.
    intros x Ix. fold (g x). rewrite (F' x Ix). reflexivity.
Qed.

(** X21. [clearTradeHistory] keeps a consistent ledger consistent: the
    closed trades are gone from [closedTrades] and from [allTrades], which
    is left with the active trades, and both cached series are dropped
    whether the write to the storage succeeds or not. *)
Theorem clearing_the_history_keeps_the_ledger_consistent
  (ok : bool) (s : State) :
  consistent s ->
  let s' := fst (clearTradeHistory ok s) in
  consistent s'
  /\ closedTrades s' = []
  /\ allTrades s' = activeTrades s
  /\ activeTrades s' = activeTrades s
  /\ equityCurveData s' = None /\ drawdownData s' = None.
Proof.
  intros K. pose proof K as (V & N & P & A & C).
  unfold clearTradeHistory. cbv zeta. cbn [fst].
  split; [ | destruct ok; repeat split ].
  apply consistent_save. unfold consistent. simpl. repeat split.
  - unfold validRefs in *. rewrite Forall_forall in *. intros x Ix.
    apply V, (proj1 (consistent_In s x K)), Ix.
  - assert (Q : NoDup (idsOf (heap s) (activeTrades s ++ closedTrades s))).
    { eapply Permutation_NoDup; [ | exact N ].
      apply Permutation_map, Permutation_sym, P. }
    unfold idsOf in Q. rewrite map_app in Q.
    eapply NoDup_app_remove_r, Q.
  - rewrite app_nil_r. reflexivity.
  - exact A.
  - constructor.
Qed.

End Consistency.

(** ** Import *)

Section ImportFacts.

Import Ledger Statistics Spec Props.

Variable Date_new : string -> num.
Variable now : num.
Variable currentStockIndex : option string.

Lemma filter_partition_perm (A : Type) (f : A -> bool) (l : list A) :
  Permutation (filter f l ++ filter (fun x => negb (f x)) l) l.
Proof.
  induction l as [|x l IH]; simpl.
  - constructor.
  - destruct (f x); simpl.
    + apply perm_skip, IH.
    + eapply perm_trans; [ apply Permutation_sym, Permutation_middle | ].
      apply perm_skip, IH.
Qed.

Lemma length_setNth (l : list nat) (k r : nat) :
  List.length (setNth l k r) = List.length l.
Proof.
  revert k. induction l as [|x l IH]; intros [|k]; simpl; auto.
Qed.

(** Every trade of a document is counted once, as added or as updated,
    and [allTrades] grows by the trades added. *)
Lemma merge_counts (existing : list (option string)) (ts : list Trade)
  (st : Importing) :
  let st' := fold_left (mergeOne Date_new now currentStockIndex existing)
               ts st in
  (i_added st' + i_updated st'
   = i_added st + i_updated st + List.length ts)%nat
  /\ (List.length (i_all st') + i_added st
      = List.length (i_all st) + i_added st')%nat.
Proof.
  revert st. induction ts as [|t ts IH]; intros st; simpl.
  - lia.
  - destruct (IH (mergeOne Date_new now currentStockIndex existing st t))
      as [E1 E2].
    cbv zeta in *. rewrite E1. clear E1.
    unfold mergeOne in *. cbv zeta in *.
    destruct (existsb _ existing);
      [ destruct (findIndexById _ _ _) | ];
      simpl in *; rewrite ?length_setNth, ?length_app in *; simpl in *; lia.
Qed.

Lemma add_counts (l : list (Trade * string)) (st : Importing) :
  let st' := fold_left (addOne Date_new now currentStockIndex) l st in
  i_added st' = (i_added st + List.length l)%nat
  /\ i_updated st' = i_updated st
  /\ List.length (i_all st') = (List.length (i_all st) + List.length l)%nat.
Proof.
  revert st. induction l as [|x l IH]; intros st; simpl.
  - lia.
  - destruct (IH (addOne Date_new now currentStockIndex st x))
      as (-> & -> & ->).
    unfold addOne. simpl. rewrite length_app. simpl. lia.
Qed.

Lemma length_sortBy (cmp : nat -> nat -> num) (l : list nat) :
  List.length (sortBy cmp l) = List.length l.
Proof. apply Permutation_length, sortBy_perm. Qed.

Variable ok : bool.
Variable newIds : nat -> string.
Variable data : Document.
Variable options : Options.
Variable s : State.

Local Notation "'imported'" :=
  (importTradesFromJSON Date_new now ok newIds currentStockIndex data
     options s).

(** The arrays after the import of a valid document, whether the write to
    the storage succeeds or not. *)
Lemma import_arrays :
  validateImportData data = true ->
  exists h all results,
    heap (fst imported) = h
    /\ allTrades (fst imported) = sortBy (byStatusThenDate h) all
    /\ activeTrades (fst imported) = filter (fun r => isActive (get h r)) all
    /\ closedTrades (fst imported)
       = filter (fun r => negb (isActive (get h r))) all
    /\ (ok = true -> snd imported = results)
    /\ total results = List.length
                         (match trades data with Some l => l | None => [] end)
    /\ (added results + updated results = total results)%nat
    /\ (if String.eqb (mode options) "replace"
        then List.length all = (added results + kept results)%nat
        else List.length all
             = (List.length (allTrades s) + added results)%nat).
Proof.
  intros V. unfold importTradesFromJSON. rewrite V. cbn [negb]. cbv zeta.
  set (ts := match trades data with Some l => l | None => [] end).
  destruct (String.eqb (mode options) "replace") eqn:R.
  - unfold replaceAll.
    eexists _, _, _. unfold saveTradestoStorage.
    destruct ok; cbn [fst snd heap allTrades activeTrades closedTrades].
    + repeat split; try reflexivity.
      * cbn [added updated total]. lia.
      * rewrite length_app, length_seq. cbn [added kept]. reflexivity.
    + repeat split; try reflexivity.
      * intros Q; discriminate Q.
      * cbn [added updated total]. lia.
      * rewrite length_app, length_seq. cbn [added kept]. reflexivity.
  - destruct (String.eqb (mode options) "add") eqn:A.
    + destruct (add_counts (combine ts (map newIds (seq 0 (List.length ts))))
                  (mkImporting (heap s) (allTrades s) 0 0)) as (C1 & C2 & C3).
      cbv zeta in *. cbn [i_added i_updated i_all] in *.
      assert (Lc : List.length
                     (combine ts (map newIds (seq 0 (List.length ts))))
                   = List.length ts).
      { rewrite length_combine, length_map, length_seq. lia. }
      rewrite Lc in *.
      eexists _, _, _. unfold saveTradestoStorage.
      destruct ok; cbn [fst snd heap allTrades activeTrades closedTrades];
        (repeat split; try reflexivity; try (intros Q; discriminate Q);
         cbn [added updated total]; try lia).
    + destruct (merge_counts
                  (map (fun r => id (get (heap s) r)) (allTrades s)) ts
                  (mkImporting (heap s) (allTrades s) 0 0)) as (C1 & C2).
      cbv zeta in *. cbn [i_added i_updated i_all] in *.
      eexists _, _, _. unfold saveTradestoStorage.
      destruct ok; cbn [fst snd heap allTrades activeTrades closedTrades];
        (repeat split; try reflexivity; try (intros Q; discriminate Q);
         cbn [added updated total]; try lia).
Qed.

(** X22. After the import of a valid document, in any of the three
    modes and whether or not the write to the storage succeeds,
    [activeTrades] and [closedTrades] share out the trades of [allTrades]:
    together they hold the same objects, the trades of [activeTrades] have
    the status ["active"] and those of [closedTrades] any other status. *)
Theorem import_shares_out_the_trades :
  validateImportData data = true ->
  let s' := fst imported in
  Permutation (activeTrades s' ++ closedTrades s') (allTrades s')
  /\ Forall (fun r => isActive (get (heap s') r) = true) (activeTrades s')
  /\ Forall (fun r => isActive (get (heap s') r) = false) (closedTrades s').
Proof.
  intros V. cbv zeta.
  destruct (import_arrays V) as (h & all & results & -> & -> & -> & -> & _).
  split; [ | split ].
  - eapply perm_trans;
      [ apply filter_partition_perm | apply Permutation_sym, sortBy_perm ].
  - apply Forall_forall. intros r I. apply filter_In in I. apply I.
  - apply Forall_forall. intros r I. apply filter_In in I.
    apply negb_true_iff, I.
Qed.

(** X23. The counts that a successful import reports add up: every trade
    of the document is counted once, as added or as updated.  In the modes
    ["add"] and ["merge"] the ledger grows by the number of trades added;
    in the mode ["replace"] it holds the trades added and the active
    trades kept. *)
Theorem import_counts_add_up :
  validateImportData data = true -> ok = true ->
  let results := snd imported in
  error results = None
  /\ total results
     = List.length (match trades data with Some l => l | None => [] end)
  /\ (added results + updated results = total results)%nat
  /\ (if String.eqb (mode options) "replace"
      then List.length (allTrades (fst imported))
           = (added results + kept results)%nat
      else List.length (allTrades (fst imported))
           = (List.length (allTrades s) + added results)%nat).
Proof.
  intros V O. cbv zeta.
  destruct (import_arrays V)
    as (h & all & results & _ & -> & _ & _ & E & T & C & L).
  rewrite (E O), length_sortBy.
  split; [ | split; [ exact T | split; [ exact C | exact L ] ] ].
  revert E. rewrite O. unfold importTradesFromJSON. rewrite V.
  cbn [negb]. cbv zeta. unfold saveTradestoStorage.
  destruct (String.eqb (mode options) "replace");
    [ | destruct (String.eqb (mode options) "add") ];
    unfold replaceAll; cbn [fst snd]; intros E; rewrite <- (E eq_refl);
    reflexivity.
Qed.

End ImportFacts.

(** ** Currency symbols and prepared trades *)

Section Prepared.

Import Ledger Statistics Spec Props.

Lemma currencyOfString_cases (m : string) :
  currencyOfString m = "$"%string \/ currencyOfString m = poundSign
  \/ currencyOfString m = rupeeSign.
Proof.
  unfold currencyOfString.
  repeat match goal with
         | |- context [if ?c then _ else _] => destruct c
         end; auto.
Qed.

(** X24. [getCurrencySymbol] returns the dollar, the pound or the rupee
    sign, and nothing else: a market or symbol that it does not know, and
    a missing one, get the rupee sign or the dollar sign. *)
Theorem currency_symbol_is_one_of_three (currentStockIndex : option string)
  (market : option string) :
  In (getCurrencySymbol currentStockIndex market)
    ["$"%string; poundSign; rupeeSign].
Proof.
  assert (C : forall m, In (currencyOfString m)
                          ["$"%string; poundSign; rupeeSign]).
  { intros m. destruct (currencyOfString_cases m) as [-> | [-> | ->]];
      simpl; auto. }
  unfold getCurrencySymbol.
  destruct market as [m|]; [ apply C | ].
  destruct currentStockIndex as [g|]; [ | simpl; auto ].
  destruct (truthyStr g); [ apply C | simpl; auto ].
Qed.

Lemma getCurrencySymbol_truthy (currentStockIndex market : option string) :
  truthyStr (getCurrencySymbol currentStockIndex market) = true.
Proof.
  assert (C : forall m, truthyStr (currencyOfString m) = true).
  { intros m. destruct (currencyOfString_cases m) as [-> | [-> | ->]];
      reflexivity. }
  unfold getCurrencySymbol.
  destruct market as [m|]; [ apply C | ].
  destruct currentStockIndex as [g|]; [ | reflexivity ].
  destruct (truthyStr g); [ apply C | reflexivity ].
Qed.

Variable Date_new : string -> num.
Variable now : num.
Variable currentStockIndex : option string.

Local Notation "'prepare'" := (prepareTrade Date_new now currentStockIndex).

Lemma fixDate_fixDate (d : jsdate) :
  fixDate Date_new (fixDate Date_new d) = fixDate Date_new d.
Proof. destruct d; reflexivity. Qed.

Lemma fixNumeric_fixNumeric (b c : bool) (v : jsv) :
  (c = true -> b = true) ->
  fixNumeric c (fixNumeric b v) = fixNumeric b v.
Proof.
  intros I. destruct v as [| |x]; try reflexivity.
  - simpl. destruct b, c; try reflexivity. discriminate (I eq_refl).
  - simpl. destruct (isNaN x) eqn:N; destruct b, c; simpl; rewrite ?N;
      try reflexivity. discriminate (I eq_refl).
Qed.

(** The fields of a prepared trade. *)
Lemma prepareTrade_fields (t : Trade) :
  let active := isActive t in
  let entry := fixNumeric true (entryPrice t) in
  let parsed := fixNumeric false (currentPrice t) in
  let price :=
    if active && (negb (truthy (toNum parsed)) || isNaN (toNum parsed))
    then entry else parsed in
  let sh := fixNumeric true (shares t) in
  prepare t
  = mkTrade (id t) (status t) (stockName t) (symbol t)
      (fixDate Date_new (entryDate t)) entry price
      (fixNumeric true (investmentAmount t)) sh
      (if active then Num (mul (toNum sh) (toNum price))
       else fixNumeric false (currentValue t))
      (fixNumeric false (stopLossPrice t))
      (fixNumeric false (targetPrice t))
      (stopLossPercent t) (takeProfitPercent t)
      (fixDate Date_new (squareOffDate t))
      (if active
       then Num (max zero
                   (floor (div (sub now (dateNum (fixDate Date_new
                                                    (entryDate t))))
                             msPerDay)))
       else holdingDays t)
      (if active
       then Num (mul (div (sub (toNum price) (toNum entry)) (toNum entry))
                   (ofZ 100))
       else currentPLPercent t)
      (if active
       then Num (sub (mul (toNum sh) (toNum price))
                   (mul (toNum sh) (toNum entry)))
       else currentPLValue t)
      (if truthyOptStr (currencySymbol t) then currencySymbol t
       else Some (getCurrencySymbol currentStockIndex (symbol t)))
      (notes t)
      (if truthyDate (exitDate t) then fixDate Date_new (exitDate t)
       else exitDate t)
      (exitPrice t) (exitReason t) (plPercent t) (plValue t).
Proof.
  destruct t as [i st sn sy ed ep cp inv sh cv sl tg slp tpp sq hd plp plv
                   cur nt xd xp xr pp pv].
  cbv zeta. unfold prepareTrade. cbv zeta.
  cbn [id status stockName symbol entryDate entryPrice currentPrice
       investmentAmount shares currentValue stopLossPrice targetPrice
       stopLossPercent takeProfitPercent squareOffDate holdingDays
       currentPLPercent currentPLValue currencySymbol notes exitDate
       exitPrice exitReason plPercent plValue].
  repeat match goal with
         | |- context [truthyOptStr (currencySymbol ?x)] =>
             progress change (truthyOptStr (currencySymbol x))
               with (truthyOptStr cur)
         end.
  destruct (truthyOptStr cur); cbv iota;
    repeat match goal with
           | |- context [isActive ?x] =>
               progress change (isActive x)
                 with (optStrEqb st (Some "active"%string))
           end;
    (destruct (optStrEqb st (Some "active"%string)); cbv iota;
     cbn [andb]; [ | reflexivity ]);
    repeat match goal with
           | |- context [truthy (toNum (currentPrice ?x))] =>
               progress change (currentPrice x) with (fixNumeric false cp)
           end;
    destruct (negb (truthy (toNum (fixNumeric false cp)))
              || isNaN (toNum (fixNumeric false cp))); reflexivity.
Qed.

(** X25. [prepareTrade] is idempotent: a trade that was prepared is left
    as it is when it is prepared again at the same time.  Its dates are
    [Date] objects, its currency symbol is set, its numeric fields are
    parsed, and the values of an active trade are those recomputed from
    its entry price, price and shares. *)
Theorem preparing_a_trade_twice_changes_nothing (t : Trade) :
  prepare (prepare t) = prepare t.
Proof.
  rewrite (prepareTrade_fields (prepare t)). cbv zeta.
  rewrite (prepareTrade_fields t). cbv zeta.
  cbn [id status stockName symbol entryDate entryPrice currentPrice
       investmentAmount shares currentValue stopLossPrice targetPrice
       stopLossPercent takeProfitPercent squareOffDate holdingDays
       currentPLPercent currentPLValue currencySymbol notes exitDate
       exitPrice exitReason plPercent plValue].
  repeat match goal with
         | |- context [isActive ?x] =>
             progress change (isActive x) with (isActive t)
         end.
  rewrite !fixDate_fixDate.
  rewrite !(fixNumeric_fixNumeric true true) by auto.
  rewrite !(fixNumeric_fixNumeric false false) by auto.
  assert (C : (if truthyOptStr
                    (if truthyOptStr (currencySymbol t)
                     then currencySymbol t
                     else Some (getCurrencySymbol currentStockIndex
                                  (symbol t)))
               then if truthyOptStr (currencySymbol t)
                    then currencySymbol t
                    else Some (getCurrencySymbol currentStockIndex (symbol t))
               else Some (getCurrencySymbol currentStockIndex (symbol t)))
              = if truthyOptStr (currencySymbol t) then currencySymbol t
                else Some (getCurrencySymbol currentStockIndex (symbol t))).
  { destruct (truthyOptStr (currencySymbol t)) eqn:Q; [ rewrite Q | ];
      [ reflexivity | ].
    simpl. rewrite getCurrencySymbol_truthy. reflexivity. }
  rewrite C. clear C.
  assert (X : (if truthyDate
                    (if truthyDate (exitDate t)
                     then fixDate Date_new (exitDate t) else exitDate t)
               then fixDate Date_new
                      (if truthyDate (exitDate t)
                       then fixDate Date_new (exitDate t) else exitDate t)
               else if truthyDate (exitDate t)
                    then fixDate Date_new (exitDate t) else exitDate t)
              = if truthyDate (exitDate t)
                then fixDate Date_new (exitDate t) else exitDate t).
  { destruct (exitDate t) as [| |x|x]; try reflexivity.
    simpl. destruct (truthyStr x) eqn:Q; simpl; rewrite ?Q; reflexivity. }
  rewrite X. clear X.
  destruct (isActive t); cbn [andb];
    [ | rewrite !(fixNumeric_fixNumeric false false) by auto; reflexivity ].
  set (entry := fixNumeric true (entryPrice t)).
  set (parsed := fixNumeric false (currentPrice t)).
  assert (P : forall v, v = entry \/ v = parsed -> fixNumeric false v = v).
  { intros v [-> | ->]; apply fixNumeric_fixNumeric; discriminate. }
  destruct (negb (truthy (toNum parsed)) || isNaN (toNum parsed)) eqn:B.
  - rewrite (P entry) by auto.
    destruct (negb (truthy (toNum entry)) || isNaN (toNum entry));
      reflexivity.
  - rewrite (P parsed) by auto. rewrite B. reflexivity.
Qed.

Lemma fixNumeric_required (v : jsv) :
  fixNumeric true v = Undef
  \/ exists x, fixNumeric true v = Num x /\ isNaN x = false.
Proof.
  destruct v as [| |x]; simpl.
  - left. reflexivity.
  - right. exists zero. split; reflexivity.
  - right. destruct (isNaN x) eqn:N; simpl;
      [ exists zero | exists x ]; split; auto.
Qed.

Lemma max_zero_nonneg (x : num) : lt (max zero x) zero = false.
Proof.
  destruct x as [| | |q]; try reflexivity.
  unfold max. destruct (lt zero (Fin q)) eqn:L; [ | reflexivity ].
  unfold lt, zero, ofZ in *. apply negb_true_iff in L.
  apply negb_false_iff, Qle_bool_iff, Qlt_le_weak, Qnot_le_lt.
  intros Q. apply Qle_bool_iff in Q. congruence.
Qed.

(** X26. In a prepared trade the three required numbers (entry price,
    shares and investment amount) are absent or numbers, never [NaN]; and
    for an active trade the current value is shares times price, the
    current profit is shares times price less shares times entry price,
    and the number of holding days is not negative. *)
Theorem prepared_trade_holds_numbers (t : Trade) :
  let p := prepare t in
  (entryPrice p = Undef
   \/ exists x, entryPrice p = Num x /\ isNaN x = false)
  /\ (shares p = Undef \/ exists x, shares p = Num x /\ isNaN x = false)
  /\ (investmentAmount p = Undef
      \/ exists x, investmentAmount p = Num x /\ isNaN x = false)
  /\ (isActive t = false
      \/ (currentValue p
          = Num (mul (toNum (shares p)) (toNum (currentPrice p)))
          /\ currentPLValue p
             = Num (sub (mul (toNum (shares p)) (toNum (currentPrice p)))
                      (mul (toNum (shares p)) (toNum (entryPrice p))))
          /\ lt (toNum (holdingDays p)) zero = false)).
Proof.
  cbv zeta. rewrite (prepareTrade_fields t). cbv zeta.
  cbn [entryPrice shares investmentAmount currentValue currentPLValue
       holdingDays currentPrice].
  split; [ apply fixNumeric_required | ].
  split; [ apply fixNumeric_required | ].
  split; [ apply fixNumeric_required | ].
  destruct (isActive t); [ right | left; reflexivity ].
  split; [ reflexivity | ]. split; [ reflexivity | ].
  cbn [toNum]. apply max_zero_nonneg.
Qed.

End Prepared.

(** ** The drawdown series and repeated closing *)

Section Series.

Import Ledger Statistics Spec Props.

Lemma lt_zero_value (x : num) (v : Q) :
  hasValue x v -> 0 <= v -> lt x zero = false.
Proof.
  destruct x as [| | |q]; simpl; try tauto. intros H P.
  unfold lt, zero, ofZ. apply negb_false_iff, Qle_bool_iff.
  rewrite H. exact P.
Qed.

Lemma drawdownSeries_nonneg (curve : list EquityPoint) (peak : num) :
  le zero peak = true ->
  Forall (fun p => lt (drawdown p) zero = false)
    (drawdownSeries peak curve)
  /\ List.length (drawdownSeries peak curve) = List.length curve.
Proof.
  revert peak. induction curve as [|point rest IH]; intros peak P; simpl.
  - split; [ constructor | reflexivity ].
  - destruct (gt (equity point) peak) eqn:G.
    + destruct (IH (equity point)) as [F L].
      { eapply le_trans; [ exact P | apply lt_le, G ]. }
      split; [ constructor; [ reflexivity | exact F ] | simpl; congruence ].
    + destruct (IH peak P) as [F L].
      split; [ | simpl; congruence ].
      constructor; [ | exact F ]. cbn [drawdown].
      destruct (eqb peak zero) eqn:Z; [ reflexivity | ].
      destruct peak as [| | |p]; try discriminate.
      * destruct (equity point); reflexivity.
      * assert (Pp : 0 < p).
        { apply Qle_bool_iff in P. apply Qle_lt_or_eq in P.
          destruct P as [P|P]; [ exact P | ].
          unfold eqb, zero, ofZ in Z.
          assert (Qeq_bool p 0 = true)
            by (apply Qeq_bool_iff; symmetry; exact P).
          congruence. }
        destruct (equity point) as [| | |q] eqn:Q; try reflexivity.
        -- discriminate G.
        -- unfold sub, div. rewrite (sgn_pos p Pp). reflexivity.
        -- assert (Lq : q <= p).
           { unfold gt, lt in G. apply negb_false_iff, Qle_bool_iff in G.
             exact G. }
           apply (lt_zero_value _ ((p - q) / p * 100)).
           ++ apply hasValue_mul; [ | reflexivity ].
              apply hasValue_div; [ | reflexivity | ].
              ** apply hasValue_sub; reflexivity.
              ** intros E. rewrite E in Pp. exact (Qlt_irrefl _ Pp).
           ++ apply Qmult_le_0_compat; [ | discriminate ].
              apply Qle_shift_div_l; [ exact Pp | ].
              rewrite Qmult_0_l. unfold Qminus.
              rewrite <- Qle_minus_iff. exact Lq.
Qed.

(** X27. No point of the drawdown series is negative: the walk of
    [getDrawdownChartData] over an equity curve gives one point for each
    point of the curve, and the drawdown of each is zero, positive or
    [NaN], whatever the curve holds. *)
Theorem drawdown_series_is_never_negative (curve : list EquityPoint) :
  Forall (fun p => lt (drawdown p) zero = false)
    (drawdownSeries zero curve)
  /\ List.length (drawdownSeries zero curve) = List.length curve.
Proof. apply drawdownSeries_nonneg. reflexivity. Qed.

(** X28. A trade is closed by hand once only: after a call of
    [closeTrade] for an identifier, whether it closed a trade or found
    none, a second call for the same identifier finds no active trade,
    returns [false] and leaves the ledger as it is. *)
Theorem a_trade_is_closed_only_once (now now' : num) (ok ok' : bool)
  (tradeId : option string) (exitPrice exitPrice' : jsv)
  (reason reason' notes notes' : option string) (s : State) :
  let s1 := fst (closeTrade now ok tradeId exitPrice reason notes s) in
  closeTrade now' ok' tradeId exitPrice' reason' notes' s1 = (s1, false).
Proof.
  cbv zeta.
  assert (N : findById
                (heap (fst (closeTrade now ok tradeId exitPrice reason notes
                              s)))
                tradeId
                (activeTrades
                   (fst (closeTrade now ok tradeId exitPrice reason notes s)))
              = None).
  { unfold closeTrade.
    destruct (findById (heap s) tradeId (activeTrades s)) as [r|] eqn:F;
      [ | exact F ].
    cbv zeta. cbn [fst]. rewrite heap_saveTradestoStorage.
    match goal with
    | |- context [saveTradestoStorage ok ?x] =>
        replace (activeTrades (fst (saveTradestoStorage ok x)))
          with (activeTrades x) by (destruct ok; reflexivity)
    end.
    cbn [heap activeTrades]. unfold findById, removeId.
    eapply find_none_perm; [ apply Permutation_sym, sortBy_perm | ].
    apply find_none_filter. }
  unfold closeTrade at 1. rewrite N. reflexivity.
Qed.

End Series.

(** ** Editing a trade *)

Section Editing.

Import Ledger Maintenance Statistics Spec Props.

Variable Date_new : string -> num.

(** The fields of a trade after the assignments of [editTrade]. *)
Lemma edited_fields (u : UpdatedData) (t : Trade) :
  let t' := edited Date_new u t in
  let entry := if given (u_entryPrice u) then u_entryPrice u
               else entryPrice t in
  let stop := if given (u_stopLossPrice u) then u_stopLossPrice u
              else stopLossPrice t in
  let target := if given (u_targetPrice u) then u_targetPrice u
                else targetPrice t in
  id t' = id t /\ status t' = status t
  /\ shares t' = shares t /\ investmentAmount t' = investmentAmount t
  /\ entryPrice t' = entry /\ stopLossPrice t' = stop
  /\ targetPrice t' = target
  /\ stopLossPercent t'
     = (if given (u_entryPrice u) || given (u_stopLossPrice u)
        then Num (mul (div (sub (toNum entry) (toNum stop)) (toNum entry))
                    (ofZ 100))
        else stopLossPercent t)
  /\ takeProfitPercent t'
     = (if given (u_entryPrice u) || given (u_targetPrice u)
        then Num (mul (div (sub (toNum target) (toNum entry)) (toNum entry))
                    (ofZ 100))
        else takeProfitPercent t).
Proof.
  destruct u as [ep sl tg sq nt].
  destruct ep, sl, tg, sq, nt; cbv zeta; repeat split; reflexivity.
Qed.

(** [updateTradeStatus] leaves the fields that an edit sets, the shares
    and the investment as they are. *)
Lemma updateTradeStatus_keeps (now : num) (ok : bool) (r : nat) (s : State) :
  (r < List.length (heap s))%nat ->
  let t := get (heap s) r in
  let t' := get (heap (updateTradeStatus now ok r s)) r in
  shares t' = shares t /\ investmentAmount t' = investmentAmount t
  /\ entryPrice t' = entryPrice t /\ stopLossPrice t' = stopLossPrice t
  /\ targetPrice t' = targetPrice t
  /\ stopLossPercent t' = stopLossPercent t
  /\ takeProfitPercent t' = takeProfitPercent t.
Proof.
  intros L. cbv zeta. unfold updateTradeStatus.
  destruct (isActive (get (heap s) r)); cbn [negb];
    [ | repeat split ].
  set (trade := get (heap s) r).
  match goal with
  | |- context [closeTradeAutomatically _ _ _ _ _ ?s1] => set (s1' := s1)
  end.
  assert (L1 : (r < List.length (heap s1'))%nat)
    by (subst s1'; cbn; rewrite length_upd; exact L).
  assert (G : exists a b c d, get (heap s1') r = setCurrent trade a b c d).
  { subst s1'. cbn [heap]. rewrite get_upd_same by exact L.
    do 4 eexists. reflexivity. }
  destruct G as (a & b & c & d & G).
  repeat match goal with
         | |- context [if ?c then _ else _] => destruct c
         end;
    try (match goal with
         | |- context [closeTradeAutomatically ?n ?o ?r ?reason ?p ?s1] =>
             destruct (closeTradeAutomatically_trade n o r reason p s1 L1)
               as [-> _]
         end);
    rewrite G; cbn; repeat split.
Qed.

Lemma findIndex_self (h : list Trade) (i : option string) (l : list nat)
  (r : nat) :
  NoDup (idsOf h l) -> In r l -> id (get h r) = i ->
  exists k, findIndexById h i l = Some k /\ setNth l k r = l.
Proof.
  unfold idsOf. induction l as [|x l IH]; simpl; intros N I E.
  - destruct I.
  - inversion N as [|? ? Nx Nl]; subst.
    destruct (optStrEqb (id (get h x)) (id (get h r))) eqn:Q.
    + exists 0%nat. split; [ reflexivity | ]. simpl.
      apply optStrEqb_eq in Q. destruct I as [->|I]; [ reflexivity | ].
      exfalso. apply Nx. rewrite Q. apply in_map_iff. eauto.
    + destruct I as [->|I]; [ rewrite optStrEqb_refl in Q; discriminate | ].
      destruct (IH Nl I eq_refl) as (k & -> & W).
      exists (S k). split; [ reflexivity | ]. simpl. rewrite W. reflexivity.
Qed.

(** X29. [editTrade] on an active trade of a consistent ledger keeps the
    ledger consistent and keeps the two percentages in line with the
    prices: when the entry price or the stop-loss price is given, the
    stop-loss percentage of the trade is the distance from its entry price
    to its stop-loss price in percent of the entry price, and likewise for
    the target price and the take-profit percentage; otherwise they are
    left as they were.  The shares and the investment amount are not
    recomputed from a new entry price. *)
Theorem editing_keeps_the_percentages_in_line (now : num) (ok ok' : bool)
  (tradeId : option string) (u : UpdatedData) (s : State) (r : nat) :
  consistent s ->
  findById (heap s) tradeId (activeTrades s) = Some r ->
  let s' := fst (editTrade Date_new now ok ok' tradeId u s) in
  let old := get (heap s) r in
  let t := get (heap s') r in
  consistent s'
  /\ snd (editTrade Date_new now ok ok' tradeId u s) = true
  /\ stopLossPercent t
     = (if given (u_entryPrice u) || given (u_stopLossPrice u)
        then Num (mul (div (sub (toNum (entryPrice t))
                              (toNum (stopLossPrice t)))
                         (toNum (entryPrice t))) (ofZ 100))
        else stopLossPercent old)
  /\ takeProfitPercent t
     = (if given (u_entryPrice u) || given (u_targetPrice u)
        then Num (mul (div (sub (toNum (targetPrice t))
                              (toNum (entryPrice t)))
                         (toNum (entryPrice t))) (ofZ 100))
        else takeProfitPercent old)
  /\ shares t = shares old
  /\ investmentAmount t = investmentAmount old.
Proof.
  intros K F. cbv zeta. unfold editTrade. rewrite F. cbv zeta. cbn [fst snd].
  pose proof (find_some _ _ F) as [Ia E]. apply optStrEqb_eq in E.
  pose proof (proj1 (consistent_In s r K) Ia) as I.
  pose proof K as (V & N & _).
  assert (L : (r < List.length (heap s))%nat).
  { unfold validRefs in V. rewrite Forall_forall in V. apply V, I. }
  set (old := get (heap s) r).
  destruct (edited_fields u old)
    as (Ei & Es & Esh & Einv & Eep & Esl & Etg & Eslp & Etpp).
  cbv zeta in *.
  set (new := edited Date_new u old) in *.
  set (h := upd (heap s) r new).
  assert (Ids : idsOf h (allTrades s) = idsOf (heap s) (allTrades s)).
  { apply idsOf_upd; [ exact Ei | exact L ]. }
  destruct (findIndex_self h tradeId (allTrades s) r) as (k & -> & ->).
  { rewrite Ids. exact N. }
  { exact I. }
  { unfold h. rewrite get_upd_same by exact L. rewrite Ei. exact E. }
  set (s1 := fst (saveTradestoStorage ok _)).
  assert (K1 : consistent s1).
  { apply consistent_save, consistent_upd; auto.
    unfold isActive. rewrite Es. reflexivity. }
  assert (H1 : heap s1 = h) by apply heap_saveTradestoStorage.
  assert (A1 : allTrades s1 = allTrades s) by (unfold s1; destruct ok; auto).
  assert (L1 : (r < List.length (heap s1))%nat).
  { rewrite H1. unfold h. rewrite length_upd. exact L. }
  destruct (updateTradeStatus_keeps now ok' r s1 L1)
    as (Ush & Uinv & Uep & Usl & Utg & Uslp & Utpp).
  cbv zeta in *.
  assert (G : get (heap s1) r = new).
  { rewrite H1. unfold h. apply get_upd_same, L. }
  rewrite G in *.
  split; [ | split; [ reflexivity | ] ].
  - apply consistent_updateTradeStatus; [ exact K1 | ].
    rewrite A1. exact I.
  - rewrite Uslp, Utpp, Uep, Usl, Utg, Ush, Uinv.
    rewrite Eslp, Etpp, Eep, Esl, Etg.
    repeat split; assumption.
Qed.

End Editing.

(** ** Loading the ledger *)

Section Loading.

Import Ledger Maintenance Statistics Spec Props.

Variable Date_new : string -> num.
Variable Date_toISOString : num -> string.

Lemma jsonNum_storable (v : jsv) : storableNum v -> jsonNum v = v.
Proof. destruct v as [| |x]; simpl; auto. intros ->. reflexivity. Qed.

Lemma loadDate_storable (d : jsdate) :
  storableDate Date_new Date_toISOString d ->
  DObj (newDate Date_new (jsonDate Date_toISOString d)) = d
  /\ truthyDate (jsonDate Date_toISOString d) = true.
Proof.
  destruct d as [| |x|x]; simpl; try tauto.
  intros (F & T & R). rewrite F. simpl. rewrite R, T. split; reflexivity.
Qed.

(** A storable trade is read back from the storage as it was written. *)
Lemma loadDates_jsonTrade (t : Trade) :
  storable Date_new Date_toISOString t ->
  loadDates Date_new (jsonTrade Date_toISOString t) = t.
Proof.
  destruct t as [i st sn sy ed ep cp inv sh cv sl tg slp tpp sq hd plp plv
                   cur nt xd xp xr pp pv].
  unfold storable. simpl. intros (E & Q & X & F).
  repeat match goal with
         | H : Forall _ (_ :: _) |- _ => inversion H; clear H; subst
         end.
  unfold loadDates, jsonTrade, setDates. simpl.
  rewrite !jsonNum_storable by assumption.
  destruct (loadDate_storable ed E) as [-> _].
  destruct (loadDate_storable sq Q) as [-> _].
  destruct X as [-> | X]; [ reflexivity | ].
  destruct (loadDate_storable xd X) as [-> ->]. reflexivity.
Qed.

Lemma deref_seq_app (h l : list Trade) :
  deref (h ++ l) (seq (List.length h) (List.length l)) = l.
Proof.
  unfold deref, get. revert h. induction l as [|x l IH]; intros h; simpl.
  - reflexivity.
  - rewrite app_nth2, Nat.sub_diag by lia. simpl. f_equal.
    specialize (IH (h ++ [x])). rewrite length_app in IH. simpl in IH.
    rewrite Nat.add_1_r, <- app_assoc in IH. exact IH.
Qed.

(** X30. What [saveTradestoStorage] writes, [loadTradesFromStorage] reads
    back: when every trade of the ledger is storable (valid dates, finite
    numbers), loading the stored text gives a ledger that holds the same
    trades, shared out between [activeTrades] and [closedTrades] by their
    status.  With no stored text the ledger is left as it is, and with a
    text that does not parse its three arrays are emptied. *)
Theorem stored_ledger_loads_back (s s0 : State) :
  Forall (storable Date_new Date_toISOString)
    (deref (heap s) (allTrades s)) ->
  let s' :=
    loadTradesFromStorage Date_new
      (Some (Some (storedTrades Date_toISOString s))) s0 in
  Permutation (deref (heap s') (allTrades s')) (deref (heap s) (allTrades s))
  /\ Permutation (activeTrades s' ++ closedTrades s') (allTrades s')
  /\ Forall (fun r => isActive (get (heap s') r) = true) (activeTrades s')
  /\ Forall (fun r => isActive (get (heap s') r) = false) (closedTrades s')
  /\ loadTradesFromStorage Date_new None s0 = s0
  /\ allTrades (loadTradesFromStorage Date_new (Some None) s0) = []
  /\ activeTrades (loadTradesFromStorage Date_new (Some None) s0) = []
  /\ closedTrades (loadTradesFromStorage Date_new (Some None) s0) = [].
Proof.
  intros F. cbv zeta. unfold loadTradesFromStorage, storedTrades.
  cbn [heap allTrades activeTrades closedTrades].
  set (ts := deref (heap s) (allTrades s)) in *.
  assert (M : map (loadDates Date_new) (map (jsonTrade Date_toISOString) ts)
              = ts).
  { rewrite map_map. rewrite <- (map_id ts) at 2.
    apply map_ext_in. intros t I. apply loadDates_jsonTrade.
    rewrite Forall_forall in F. apply F, I. }
  rewrite M, length_map.
  repeat split.
  - eapply perm_trans; [ apply deref_sortBy_perm | ].
    rewrite deref_seq_app. reflexivity.
  - apply filter_partition_perm.
  - apply Forall_forall. intros r I. apply filter_In in I. apply I.
  - apply Forall_forall. intros r I. apply filter_In in I.
    apply negb_true_iff, I.
Qed.

End Loading.

(** ** The further properties on the example ledgers *)

(** The example ledgers are consistent. *)
Lemma exLedger2_consistent : Props.consistent Examples.exLedger2.
Proof.
  unfold Props.consistent, Spec.validRefs, Props.idsOf. simpl.
  repeat split.
  - repeat constructor.
  - constructor; [ intros [E|[]]; discriminate E | ].
    constructor; [ intros [] | constructor ].
  - apply Permutation_refl.
  - repeat constructor.
  - repeat constructor.
Qed.

(** The ledger whose one closed trade gained has no drawdown. *)
Lemma no_drawdown_when_every_trade_gains_witness :
  Statistics.getMaxDrawdown Examples.exLedger2
  = Statistics.mkMaxDrawdown zero zero Ledger.DNull Ledger.DNull.
Proof.
  apply (no_drawdown_when_every_trade_gains Examples.exLedger2).
  vm_compute. repeat constructor.
Defined.

(** A third trade is added to the example ledger. *)
Lemma adding_a_trade_keeps_the_ledger_consistent_witness :
  Props.consistent
    (fst (Ledger.addNewTrade Examples.exDate_new Examples.exNow true
            "trade_3" None Examples.exTradeData Examples.exLedger2)).
Proof.
  exact (proj1 (adding_a_trade_keeps_the_ledger_consistent
                  Examples.exDate_new Examples.exNow true "trade_3" None
                  Examples.exTradeData Examples.exLedger2
                  exLedger2_consistent eq_refl)).
Defined.

(** The active trade of the example ledger is closed by hand. *)
Lemma closing_a_trade_keeps_the_ledger_consistent_witness :
  Props.consistent
    (fst (Ledger.closeTrade Examples.exNow true (Some "trade_1"%string)
            (Ledger.Num (ofZ 110)) (Some "Manual"%string) None
            Examples.exLedger2)).
Proof.
  exact (proj1 (closing_a_trade_keeps_the_ledger_consistent Examples.exNow
                  true Examples.exLedger2 exLedger2_consistent)
           (Some "trade_1"%string) (Ledger.Num (ofZ 110))
           (Some "Manual"%string) None).
Defined.

(** The closed trade of the example ledger is deleted. *)
Lemma deleting_a_trade_keeps_the_ledger_consistent_witness :
  Props.consistent
    (fst (Ledger.deleteTrade true (Some "trade_0"%string)
            Examples.exLedger2))
  /\ Statistics.getTradeById (Some "trade_0"%string)
       (fst (Ledger.deleteTrade true (Some "trade_0"%string)
               Examples.exLedger2)) = None.
Proof.
  destruct (deleting_a_trade_keeps_the_ledger_consistent true
              (Some "trade_0"%string) Examples.exLedger2
              exLedger2_consistent) as (K & G & _).
  split; [ exact K | exact G ].
Defined.

(** The history of the example ledger is cleared. *)
Lemma clearing_the_history_keeps_the_ledger_consistent_witness :
  Props.consistent (fst (Ledger.clearTradeHistory true Examples.exLedger2)).
Proof.
  exact (proj1 (clearing_the_history_keeps_the_ledger_consistent true
                  Examples.exLedger2 exLedger2_consistent)).
Defined.

(** The example document is imported into the example ledger. *)
Lemma import_shares_out_the_trades_witness :
  Permutation
    (Ledger.activeTrades
       (fst (Ledger.importTradesFromJSON Examples.exDate_new Examples.exNow
               true Examples.exNewIds None Examples.exDocument
               Ledger.defaultOptions Examples.exLedger2))
     ++ Ledger.closedTrades
          (fst (Ledger.importTradesFromJSON Examples.exDate_new
                  Examples.exNow true Examples.exNewIds None
                  Examples.exDocument Ledger.defaultOptions
                  Examples.exLedger2)))
    (Ledger.allTrades
       (fst (Ledger.importTradesFromJSON Examples.exDate_new Examples.exNow
               true Examples.exNewIds None Examples.exDocument
               Ledger.defaultOptions Examples.exLedger2))).
Proof.
  exact (proj1 (import_shares_out_the_trades Examples.exDate_new
                  Examples.exNow None true Examples.exNewIds
                  Examples.exDocument Ledger.defaultOptions
                  Examples.exLedger2 eq_refl)).
Defined.

(** The one trade of the example document is counted as added. *)
Lemma import_counts_add_up_witness :
  Ledger.total
    (snd (Ledger.importTradesFromJSON Examples.exDate_new Examples.exNow
            true Examples.exNewIds None Examples.exDocument
            Ledger.defaultOptions Examples.exLedger2)) = 1%nat
  /\ Ledger.added
       (snd (Ledger.importTradesFromJSON Examples.exDate_new Examples.exNow
               true Examples.exNewIds None Examples.exDocument
               Ledger.defaultOptions Examples.exLedger2)) = 1%nat.
Proof.
  destruct (import_counts_add_up Examples.exDate_new Examples.exNow None
              true Examples.exNewIds Examples.exDocument
              Ledger.defaultOptions Examples.exLedger2 eq_refl eq_refl)
    as (_ & T & _).
  split; [ exact T | vm_compute; reflexivity ].
Defined.

(** The active trade of the example ledger, entered at 100 with a
    stop-loss price of 100, gets a new entry price of 90 and a new target
    price of 108: its stop-loss percentage is then (90 - 100) / 90 and its
    take-profit percentage (108 - 90) / 90, in percent. *)
Lemma editing_keeps_the_percentages_in_line_witness :
  Ledger.stopLossPercent
    (Ledger.get
       (Ledger.heap
          (fst (Maintenance.editTrade Examples.exDate_new Examples.exNow
                  true true (Some "trade_1"%string) Examples.exUpdatedData
                  Examples.exLedger2))) 0)
  = Ledger.Num (Fin (-100 # 9))
  /\ Ledger.takeProfitPercent
       (Ledger.get
          (Ledger.heap
             (fst (Maintenance.editTrade Examples.exDate_new Examples.exNow
                     true true (Some "trade_1"%string) Examples.exUpdatedData
                     Examples.exLedger2))) 0)
     = Ledger.Num (ofZ 20).
Proof.
  destruct (editing_keeps_the_percentages_in_line Examples.exDate_new
              Examples.exNow true true (Some "trade_1"%string)
              Examples.exUpdatedData Examples.exLedger2 0
              exLedger2_consistent eq_refl) as (_ & _ & S & T & _).
  split.
  - rewrite S. vm_compute. reflexivity.
  - rewrite T. vm_compute. reflexivity.
Defined.

(** The example ledger is written to the storage and read back into an
    empty ledger. *)
Lemma stored_ledger_loads_back_witness :
  Permutation
    (Ledger.deref
       (Ledger.heap
          (Maintenance.loadTradesFromStorage Examples.exDate_new
             (Some (Some (Maintenance.storedTrades
                            Examples.exDate_toISOString Examples.exLedger2)))
             (Ledger.mkState [] [] [] [] None None)))
       (Ledger.allTrades
          (Maintenance.loadTradesFromStorage Examples.exDate_new
             (Some (Some (Maintenance.storedTrades
                            Examples.exDate_toISOString Examples.exLedger2)))
             (Ledger.mkState [] [] [] [] None None))))
    [Examples.exActive; Examples.exClosed].
Proof.
  apply (stored_ledger_loads_back Examples.exDate_new
           Examples.exDate_toISOString Examples.exLedger2
           (Ledger.mkState [] [] [] [] None None)).
  vm_compute.
  repeat match goal with
         | |- _ \/ _ => first [ left; reflexivity | right ]
         | |- _ => constructor
         end.
Defined.
